(** * Co-sign checkout demo: the proposal quorum engine

    A shallow embedding of the relay helpers ([src/lib/relay.ts]), the
    room and proposal API routes ([src/app/api/rooms/route.ts],
    [src/app/api/proposals/**/route.ts]), the storage constraints of
    [supabase/schema.sql] and the proposal building and submission paths of
    the [CosignDemoApp] component, together with the properties the
    specification states about them and further properties of the code:
    what every request keeps of the store, what the routes refuse, and how
    their steps compose.

    Conventions of the embedding.
    - JavaScript strings are [string]; [toLowerCase] folds the ASCII letters
      (identifiers, asset symbols and error phrases are ASCII).
    - A JS object used as a dictionary ([signatures_json]) is a
      [gmap string string]; a database table with a primary key is a [gmap]
      from the key to the row.
    - Timestamps are milliseconds since the epoch, in [Z].
    - A route handler is a state-passing function over the database that
      returns the HTTP response; a [return apiError(..)] in the middle of a
      handler is an early exit of the [Route] monad.
    - Library calls whose code is not part of the repository are the fields
      of two classes: [Platform] (viem's [isAddress] and
      [recoverMessageAddress], [BigInt], the messages of storage errors) and
      [SessionService] (the session SDK). *)

From Stdlib Require Import ZArith Ascii String List Bool.
From stdpp Require Import base option list gmap fin_sets strings sorting.

Local Open Scope string_scope.
Local Open Scope Z_scope.

(* ===================================================================== *)
(** ** JavaScript string primitives *)
(* ===================================================================== *)

Module Js.

Definition lower_ascii (c : ascii) : ascii :=
  let n := N_of_ascii c in
  if ((65 <=? n) && (n <=? 90))%N then ascii_of_N (n + 32) else c.

Definition upper_ascii (c : ascii) : ascii :=
  let n := N_of_ascii c in
  if ((97 <=? n) && (n <=? 122))%N then ascii_of_N (n - 32) else c.

Fixpoint map_string (f : ascii -> ascii) (s : string) : string :=
  match s with
  | EmptyString => EmptyString
  | String c rest => String (f c) (map_string f rest)
  end.

(** [s.toLowerCase()] and [s.toUpperCase()] *)
Definition toLowerCase (s : string) : string := map_string lower_ascii s.
Definition toUpperCase (s : string) : string := map_string upper_ascii s.

(** [s.startsWith(p)] *)
Fixpoint startsWith (s p : string) : bool :=
  match p, s with
  | EmptyString, _ => true
  | String _ _, EmptyString => false
  | String a p', String b s' => if Ascii.eqb a b then startsWith s' p' else false
  end.

(** [s.includes(p)] *)
Fixpoint includes (s p : string) : bool :=
  startsWith s p ||
  match s with
  | EmptyString => false
  | String _ s' => includes s' p
  end.

(** [s.slice(n)] for [0 <= n] *)
Fixpoint slice (n : nat) (s : string) : string :=
  match n, s with
  | O, _ => s
  | S n', String _ s' => slice n' s'
  | S _, EmptyString => EmptyString
  end.

Definition is_space (c : ascii) : bool :=
  let n := N_of_ascii c in
  ((n =? 32) || ((9 <=? n) && (n <=? 13)))%N.

Fixpoint trimStart (s : string) : string :=
  match s with
  | String c s' => if is_space c then trimStart s' else s
  | EmptyString => EmptyString
  end.

Fixpoint trimEnd (s : string) : string :=
  match s with
  | EmptyString => EmptyString
  | String c s' =>
      match trimEnd s' with
      | EmptyString => if is_space c then EmptyString else String c EmptyString
      | t => String c t
      end
  end.

(** [s.trim()] (ASCII white space) *)
Definition trim (s : string) : string := trimEnd (trimStart s).

(** truthiness of a string value: [Boolean(s)] *)
Definition truthy (s : string) : bool :=
  match s with EmptyString => false | _ => true end.

(** truthiness of [string | undefined] *)
Definition truthy_opt (o : option string) : bool :=
  match o with Some s => truthy s | None => false end.

Definition is_hex_digit (c : ascii) : bool :=
  let n := N_of_ascii c in
  (((48 <=? n) && (n <=? 57)) || ((65 <=? n) && (n <=? 70))
   || ((97 <=? n) && (n <=? 102)))%N.

Fixpoint all_chars (f : ascii -> bool) (s : string) : bool :=
  match s with
  | EmptyString => true
  | String c s' => f c && all_chars f s'
  end.

(** [/^0x[0-9a-fA-F]+$/.test(s)] *)
Definition is_0x_hex (s : string) : bool :=
  match s with
  | String "0" (String "x" (String c rest)) =>
      is_hex_digit c && all_chars is_hex_digit rest
  | _ => false
  end.

(** A thrown value: an [Error] object with its [message], or any other
    value, kept through its [String(..)] image. *)
Inductive Thrown : Type :=
| ErrorObject (message : string)
| NonError (stringified : string).

(** The result of a call that may throw. *)
Inductive Throws (A : Type) : Type :=
| Returns (a : A)
| Raises (e : Thrown).
Arguments Returns {A} a.
Arguments Raises {A} e.

(** [error instanceof Error ? error.message : String(error)] *)
Definition message_or_string (e : Thrown) : string :=
  match e with ErrorObject m => m | NonError s => s end.

(** [error instanceof Error ? error.message : fallback] *)
Definition message_or (fallback : string) (e : Thrown) : string :=
  match e with ErrorObject m => m | NonError _ => fallback end.

End Js.

Import Js.

(* ===================================================================== *)
(** ** Data model ([src/lib/types.ts]) *)
(* ===================================================================== *)

Inductive ProposalKind : Type := create_session | operate | close_session.
Inductive ProposalStatus : Type := pending | ready | submitted | expired | failed.
Inductive RoomStatus : Type := open | closed.

#[global] Instance ProposalKind_eq_dec : EqDecision ProposalKind.
Proof. solve_decision. Defined.
#[global] Instance ProposalStatus_eq_dec : EqDecision ProposalStatus.
Proof. solve_decision. Defined.
#[global] Instance RoomStatus_eq_dec : EqDecision RoomStatus.
Proof. solve_decision. Defined.

Definition kind_name (k : ProposalKind) : string :=
  match k with
  | create_session => "create_session"
  | operate => "operate"
  | close_session => "close_session"
  end.

Definition status_name (s : ProposalStatus) : string :=
  match s with
  | pending => "pending"
  | ready => "ready"
  | submitted => "submitted"
  | expired => "expired"
  | failed => "failed"
  end.

Record Room : Type := {
  r_id : string;
  created_by : string;
  participant_a : string;
  participant_b : string;
  chain_id : Z;
  asset_symbol : string;
  r_status : RoomStatus;
  app_session_id : option string;
  r_created_at : Z;
  r_expires_at : Z
}.

(** One entry of an allocation list ([RPCAppSessionAllocation]); the amount
    travels as a decimal string and is read with [BigInt]. *)
Record RPCAppSessionAllocation : Type := {
  participant : string;
  asset : string;
  amount : string
}.

(** The action payload.  The routes never look inside it; the client reads
    [intent] and [allocations] (which may be missing or not an array, hence
    the [option]) and hands the rest to the session service untouched. *)
Record PayloadJson : Type := {
  intent : option string;
  allocations : option (list RPCAppSessionAllocation);
  payload_rest : string
}.

(** [sdk_result_json]: what the submit route stores as the result. *)
Inductive SdkResultJson : Type :=
| SdkResult (raw : string)          (* [body.sdkResult] *)
| SdkErrorResult (error : string)   (* [{ error: body.error }] *)
| SdkEmptyResult.                   (* [{}] *)

Record Proposal : Type := {
  p_id : string;
  room_id : string;
  kind : ProposalKind;
  payload_json : PayloadJson;
  payload_hash : string;
  required_quorum : Z;
  signatures_json : gmap string string;
  status : ProposalStatus;
  sdk_result_json : option SdkResultJson;
  created_at : Z;
  expires_at : Z
}.

Inductive EventPayload : Type :=
| RoomCreatedPayload (asset_ : string) (chainId : Z)
| ProposalCreatedPayload (kind_ : ProposalKind) (requiredQuorum : Z)
| ProposalSignedPayload (signedWeight requiredQuorum : Z) (status_ : ProposalStatus)
| ProposalSubmitPayload (kind_ : ProposalKind) (status_ : ProposalStatus)
                        (sdkResult : SdkResultJson).

Record RoomEvent : Type := {
  e_id : string;
  e_room_id : string;
  proposal_id : option string;
  actor : string;
  event_type : string;
  event_payload : EventPayload;
  e_created_at : Z
}.

(* ===================================================================== *)
(** ** Relay helpers ([src/lib/relay.ts]) *)
(* ===================================================================== *)

Definition normalizeAddress (value : string) : string := toLowerCase value.

Definition isParticipant (room : Room) (wallet : string) : bool :=
  let target := normalizeAddress wallet in
  bool_decide (normalizeAddress (participant_a room) = target)
  || bool_decide (normalizeAddress (participant_b room) = target).

Definition counterpartOf (room : Room) (wallet : string) : string :=
  let target := normalizeAddress wallet in
  if bool_decide (normalizeAddress (participant_a room) = target)
  then participant_b room
  else participant_a room.

(** [Object.keys(o)] of a dictionary (the order plays no role below). *)
Definition Object_keys (o : gmap string string) : list string :=
  (map_to_list o).*1.

(** [Object.values(o)] *)
Definition Object_values (o : gmap string string) : list string :=
  (map_to_list o).*2.

(** [new Set(Object.keys(signatures).map(normalizeAddress))] *)
Definition signerAddresses (signatures : gmap string string) : gset string :=
  list_to_set (normalizeAddress <$> Object_keys signatures).

Definition calculateSignedWeight (room : Room) (signatures : gmap string string) : Z :=
  let weight := 0 in
  let signers := signerAddresses signatures in
  let weight :=
    if bool_decide (normalizeAddress (participant_a room) ∈ signers)
    then weight + 50 else weight in
  let weight :=
    if bool_decide (normalizeAddress (participant_b room) ∈ signers)
    then weight + 50 else weight in
  weight.


Definition stripWalletQuorumPrefix (signature : string) : Throws string :=
  let lower := toLowerCase signature in
  if negb (startsWith lower "0x")
  then Raises (ErrorObject "Signature must start with 0x")
  else if startsWith lower "0xa1"
       then Returns ("0x" ++ slice 4 signature)
       else Returns signature.

(* ===================================================================== *)
(** ** The platform: library code outside the repository *)
(* ===================================================================== *)

(** Failures the storage layer reports for the constraints of
    [supabase/schema.sql] and for [.single()]. *)
Inductive DbError : Type :=
| PrimaryKeyViolation (table : string)
| UniqueViolation (index : string)
| ForeignKeyViolation (table : string)
| IntegerOutOfRange
| NoSingleRow.

Class Platform : Type := {
  (** viem's [isAddress] *)
  isAddress : string -> bool;
  (** viem's [recoverMessageAddress({ message: { raw: hash }, signature })] *)
  recoverMessageAddress : string -> string -> Throws string;
  (** [BigInt(s)] (it throws a [SyntaxError] on a malformed literal) and
      [n.toString()] *)
  BigInt : string -> Throws Z;
  BigInt_toString : Z -> string;
  (** the [message] of a storage error *)
  db_error_message : DbError -> string;
  (** [RPCAppStateIntent.Deposit] of the session SDK *)
  RPCAppStateIntent_Deposit : string
}.

(* ===================================================================== *)
(** ** Storage ([supabase/schema.sql]) *)
(* ===================================================================== *)

Record DB : Type := {
  rooms : gmap string Room;
  proposals : gmap string Proposal;
  events : gmap string RoomEvent
}.

Definition set_rooms (f : gmap string Room -> gmap string Room) (db : DB) : DB :=
  {| rooms := f (rooms db); proposals := proposals db; events := events db |}.
Definition set_proposals (f : gmap string Proposal -> gmap string Proposal) (db : DB) : DB :=
  {| rooms := rooms db; proposals := f (proposals db); events := events db |}.
Definition set_events (f : gmap string RoomEvent -> gmap string RoomEvent) (db : DB) : DB :=
  {| rooms := rooms db; proposals := proposals db; events := f (events db) |}.

(** [status in ('pending', 'ready')] *)
Definition is_active (s : ProposalStatus) : bool :=
  match s with pending | ready => true | _ => false end.

Definition is_terminal (s : ProposalStatus) : bool :=
  match s with submitted | failed | expired => true | _ => false end.

(** The rows of [proposals] with the given [room_id] and [kind] whose status
    is active: the rows the partial unique index
    [proposals_active_kind_unique] ranges over, and the rows of the query
    [.eq('room_id', ..).eq('kind', ..).in('status', ACTIVE_STATUSES)]. *)
Definition active_of_kind (roomId : string) (k : ProposalKind) (p : Proposal) : bool :=
  bool_decide (room_id p = roomId) && bool_decide (kind p = k) && is_active (status p).

Definition select_active (roomId : string) (k : ProposalKind) (db : DB) : list Proposal :=
  filter (λ p, active_of_kind roomId k p = true) (map_to_list (proposals db)).*2.

(** The partial unique index [proposals_active_kind_unique] as a property of
    the table: two active rows of one room and one kind are the same row. *)
Definition active_unique (db : DB) : Prop :=
  map_Forall (λ i p,
    map_Forall (λ j q,
      is_active (status p) = true → is_active (status q) = true →
      room_id p = room_id q → kind p = kind q → i = j) (proposals db))
    (proposals db).

#[global] Instance active_unique_dec (db : DB) : Decision (active_unique db).
Proof. unfold active_unique. apply _. Defined.

(** [required_quorum integer not null]: a 32-bit column *)
Definition int4_range (z : Z) : bool := (-2147483648 <=? z) && (z <=? 2147483647).

(** [insert] into [proposals]: primary key, integer range, foreign key to
    [rooms], and the partial unique index on [(room_id, kind)]. *)
Definition insert_proposal (p : Proposal) (db : DB) : DbError + DB :=
  if bool_decide (is_Some (proposals db !! p_id p)) then inl (PrimaryKeyViolation "proposals")
  else if negb (int4_range (required_quorum p)) then inl IntegerOutOfRange
  else if bool_decide (rooms db !! room_id p = None) then inl (ForeignKeyViolation "rooms")
  else if is_active (status p)
          && negb (bool_decide (select_active (room_id p) (kind p) db = []))
       then inl (UniqueViolation "proposals_active_kind_unique")
  else inr (set_proposals (insert (p_id p) p) db).

(** [insert] into [events]: primary key and foreign key to [rooms]
    ([proposal_id] is [on delete set null] and always names a row just
    read). *)
Definition insert_event (e : RoomEvent) (db : DB) : DbError + DB :=
  if bool_decide (is_Some (events db !! e_id e)) then inl (PrimaryKeyViolation "events")
  else if bool_decide (rooms db !! e_room_id e = None) then inl (ForeignKeyViolation "rooms")
  else inr (set_events (insert (e_id e) e) db).

(** [insert] into [rooms]: primary key and 32-bit [chain_id] *)
Definition insert_room (r : Room) (db : DB) : DbError + DB :=
  if bool_decide (is_Some (rooms db !! r_id r)) then inl (PrimaryKeyViolation "rooms")
  else if negb (int4_range (chain_id r)) then inl IntegerOutOfRange
  else inr (set_rooms (insert (r_id r) r) db).

Definition with_status (s : ProposalStatus) (p : Proposal) : Proposal :=
  {| p_id := p_id p; room_id := room_id p; kind := kind p;
     payload_json := payload_json p; payload_hash := payload_hash p;
     required_quorum := required_quorum p; signatures_json := signatures_json p;
     status := s; sdk_result_json := sdk_result_json p;
     created_at := created_at p; expires_at := expires_at p |}.

Definition with_signatures (sigs : gmap string string) (p : Proposal) : Proposal :=
  {| p_id := p_id p; room_id := room_id p; kind := kind p;
     payload_json := payload_json p; payload_hash := payload_hash p;
     required_quorum := required_quorum p; signatures_json := sigs;
     status := status p; sdk_result_json := sdk_result_json p;
     created_at := created_at p; expires_at := expires_at p |}.

Definition with_sdk_result (r : option SdkResultJson) (p : Proposal) : Proposal :=
  {| p_id := p_id p; room_id := room_id p; kind := kind p;
     payload_json := payload_json p; payload_hash := payload_hash p;
     required_quorum := required_quorum p; signatures_json := signatures_json p;
     status := status p; sdk_result_json := r;
     created_at := created_at p; expires_at := expires_at p |}.

Definition with_app_session_id (s : option string) (r : Room) : Room :=
  {| r_id := r_id r; created_by := created_by r; participant_a := participant_a r;
     participant_b := participant_b r; chain_id := chain_id r;
     asset_symbol := asset_symbol r; r_status := r_status r; app_session_id := s;
     r_created_at := r_created_at r; r_expires_at := r_expires_at r |}.

Definition with_room_status (s : RoomStatus) (r : Room) : Room :=
  {| r_id := r_id r; created_by := created_by r; participant_a := participant_a r;
     participant_b := participant_b r; chain_id := chain_id r;
     asset_symbol := asset_symbol r; r_status := s; app_session_id := app_session_id r;
     r_created_at := r_created_at r; r_expires_at := r_expires_at r |}.

(** [.update(..).eq('id', id)] on [proposals] and on [rooms].  No update of
    the routes can break a constraint: the status of a row only moves among
    the active statuses of that same row or to a terminal one (see
    [update_proposal_active_unique]). *)
Definition update_proposal (id : string) (f : Proposal -> Proposal) (db : DB) : DB :=
  set_proposals (alter f id) db.

Definition update_room (id : string) (f : Room -> Room) (db : DB) : DB :=
  set_rooms (alter f id) db.

(* ===================================================================== *)
(** ** Responses and the route monad ([src/lib/api.ts]) *)
(* ===================================================================== *)

Inductive ApiData : Type :=
| RoomData (room : Room)
| ProposalData (proposal : Proposal)
| SignedData (proposal : Proposal) (signedWeight : Z)
| ExpiredData (expiredCount : Z).

Inductive NextResponse : Type :=
| JsonError (error : string) (http_status : Z)
| JsonData (data : ApiData) (http_status : Z).

Definition apiError (message : string) (http_status : Z) : NextResponse :=
  JsonError message http_status.
Definition apiOk (data : ApiData) (http_status : Z) : NextResponse :=
  JsonData data http_status.

(** [response.ok] *)
Definition response_ok (r : NextResponse) : bool :=
  match r with
  | JsonError _ s | JsonData _ s => (200 <=? s) && (s <=? 299)
  end.

(** A handler body: it threads the database and either goes on with a value
    or has already returned a response. *)
Definition Route (A : Type) : Type := DB -> DB * (NextResponse + A).

Definition ret {A} (a : A) : Route A := λ db, (db, inr a).
Definition bail {A} (r : NextResponse) : Route A := λ db, (db, inl r).
Definition bind {A B} (m : Route A) (k : A -> Route B) : Route B :=
  λ db, match m db with
        | (db', inl r) => (db', inl r)
        | (db', inr a) => k a db'
        end.

Notation "x <- m ;; k" := (bind m (λ x, k))
  (at level 100, m at next level, right associativity).
Notation "m ;;; k" := (bind m (λ _, k))
  (at level 100, right associativity).

(** [if (cond) return response;] *)
Definition return_if (cond : bool) (r : NextResponse) : Route unit :=
  if cond then bail r else ret tt.

(** a required string field: [if (!field) return response;] *)
Definition required (field : option string) (r : NextResponse) : Route string :=
  match field with
  | Some s => if truthy s then ret s else bail r
  | None => bail r
  end.

(** reading and writing the store *)
Definition query {A} (f : DB -> A) : Route A := λ db, (db, inr (f db)).
Definition exec (f : DB -> DB) : Route unit := λ db, (f db, inr tt).

(** a write that can fail: [if (error) return apiError(error.message, 500)] *)
Definition exec_checked `{Platform} (f : DB -> DbError + DB) : Route unit :=
  λ db, match f db with
        | inl e => (db, inl (apiError (db_error_message e) 500))
        | inr db' => (db', inr tt)
        end.

(** [.select('*').eq('id', id).single()] followed by
    [if (error || !row) return apiError(error?.message ?? fallback, 404)] *)
Definition single_or_404 `{Platform} {A} (row : option A) : Route A :=
  match row with
  | Some a => ret a
  | None => bail (apiError (db_error_message NoSingleRow) 404)
  end.

(** a call that throws inside [try { .. } catch (error) { return
    apiError(error instanceof Error ? error.message : fallback, 500) }] *)
Definition try_call {A} (fallback : string) (t : Throws A) : Route A :=
  match t with
  | Returns a => ret a
  | Raises e => bail (apiError (message_or fallback e) 500)
  end.

Definition respond (m : Route NextResponse) (db : DB) : DB * NextResponse :=
  match m db with
  | (db', inl r) => (db', r)
  | (db', inr r) => (db', r)
  end.

(* ===================================================================== *)
(** ** Request bodies *)
(* ===================================================================== *)

(** A JSON number as [Number.isInteger] sees it. *)
Inductive JsNumber : Type := Integer (z : Z) | NonInteger.

(** The body of [POST /api/proposals]; [payloadJson] is an object when it
    is there, so the [typeof] test of the route never fires. *)
Record CreateBody : Type := {
  cb_roomId : option string;
  cb_actor : option string;
  cb_kind : option string;
  cb_payloadJson : option PayloadJson;
  cb_payloadHash : option string;
  cb_requiredQuorum : option JsNumber
}.

Record SignBody : Type := {
  sb_wallet : option string;
  sb_signature : option string
}.

Record SubmitBody : Type := {
  sub_wallet : option string;
  sub_outcome : option string;
  sub_sdkResult : option string;
  sub_appSessionId : option string;
  sub_error : option string
}.

(** [isValidKind] of [src/app/api/proposals/route.ts], with the kind it
    narrows to *)
Definition isValidKind (k : string) : option ProposalKind :=
  if bool_decide (k = "create_session") then Some create_session
  else if bool_decide (k = "operate") then Some operate
  else if bool_decide (k = "close_session") then Some close_session
  else None.

(** [DEFAULT_ROOM_TTL_HOURS] and [ttlDate] of [src/lib/constants.ts] (the
    server clock is taken to run without daylight-saving shifts) *)
Definition DEFAULT_ROOM_TTL_HOURS : Z := 24.
Definition ttlDate (now : Z) : Z := now + DEFAULT_ROOM_TTL_HOURS * 3600000.

(** [SEPOLIA_CHAIN_ID] and [ALLOWED_ASSETS] of [src/lib/constants.ts] *)
Definition SEPOLIA_CHAIN_ID : Z := 11155111.
Definition ALLOWED_ASSETS : gset string := {[ "usdc"; "weth" ]}.

Record RoomBody : Type := {
  rb_createdBy : option string;
  rb_participantB : option string;
  rb_assetSymbol : option string;
  rb_chainId : option JsNumber
}.

(** truthiness of a JSON number (a JSON number is finite, so only zero is
    falsy) *)
Definition truthy_number (n : option JsNumber) : bool :=
  match n with
  | Some (Integer z) => negb (z =? 0)
  | Some NonInteger => true
  | None => false
  end.

Section Routes.
Context `{Platform}.

(** [assertWalletSignedHash] of [src/lib/relay.ts] *)
Definition assertWalletSignedHash (wallet hash quorumSignature : string) : Throws unit :=
  match stripWalletQuorumPrefix quorumSignature with
  | Raises e => Raises e
  | Returns rawSignature =>
      match recoverMessageAddress hash rawSignature with
      | Raises e => Raises e
      | Returns recovered =>
          if negb (bool_decide (normalizeAddress recovered = normalizeAddress wallet))
          then Raises (ErrorObject "Signature does not match wallet")
          else Returns tt
      end
  end.

(** *** [POST /api/rooms] *)

Definition room_required : NextResponse :=
  apiError "createdBy, participantB, assetSymbol and chainId are required" 400.

Definition rooms_POST (now : Z) (uuid1 uuid2 : string) (body : RoomBody)
    : DB -> DB * NextResponse :=
  respond (
    createdBy0 <- required (rb_createdBy body) room_required ;;
    participantB0 <- required (rb_participantB body) room_required ;;
    assetSymbol0 <- required (rb_assetSymbol body) room_required ;;
    return_if (negb (truthy_number (rb_chainId body))) room_required ;;;
    return_if (negb (isAddress createdBy0) || negb (isAddress participantB0))
              (apiError "createdBy and participantB must be valid EVM addresses" 400) ;;;
    let createdBy := normalizeAddress createdBy0 in
    let participantB := normalizeAddress participantB0 in
    let assetSymbol := toLowerCase assetSymbol0 in
    return_if (bool_decide (createdBy = participantB))
              (apiError "Participant must be different from creator" 400) ;;;
    chainId <-
      match rb_chainId body with
      | Some (Integer z) =>
          if bool_decide (z = SEPOLIA_CHAIN_ID) then ret z
          else bail (apiError "Only Sepolia is supported in this demo" 400)
      | _ => bail (apiError "Only Sepolia is supported in this demo" 400)
      end ;;
    return_if (negb (bool_decide (assetSymbol ∈ ALLOWED_ASSETS)))
              (apiError "Asset must be usdc or weth" 400) ;;;
    let room :=
      {| r_id := uuid1; created_by := createdBy; participant_a := createdBy;
         participant_b := participantB; chain_id := chainId;
         asset_symbol := assetSymbol; r_status := open; app_session_id := None;
         r_created_at := now; r_expires_at := ttlDate now |} in
    exec_checked (insert_room room) ;;;
    exec_checked (insert_event
      {| e_id := uuid2; e_room_id := r_id room; proposal_id := None;
         actor := createdBy; event_type := "room_created";
         event_payload := RoomCreatedPayload assetSymbol chainId;
         e_created_at := now |}) ;;;
    ret (apiOk (RoomData room) 201)).

(** *** [POST /api/proposals] *)

Definition create_required : NextResponse :=
  apiError "roomId, actor, kind, payloadJson, payloadHash, requiredQuorum are required" 400.

Definition new_proposal (id roomId : string) (k : ProposalKind) (payloadJson : PayloadJson)
    (payloadHash : string) (requiredQuorum now : Z) : Proposal :=
  {| p_id := id; room_id := roomId; kind := k;
     payload_json := payloadJson; payload_hash := payloadHash;
     required_quorum := requiredQuorum; signatures_json := ∅;
     status := pending; sdk_result_json := None;
     created_at := now; expires_at := ttlDate now |}.

(** [uuid1], [uuid2]: the two [randomUUID()] draws; [now]: the clock. *)
Definition proposals_POST (now : Z) (uuid1 uuid2 : string) (body : CreateBody)
    : DB -> DB * NextResponse :=
  respond (
    roomId <- required (cb_roomId body) create_required ;;
    actor0 <- required (cb_actor body) create_required ;;
    kind0 <- required (cb_kind body) create_required ;;
    payloadJson <- from_option ret (bail create_required) (cb_payloadJson body) ;;
    payloadHash <- required (cb_payloadHash body) create_required ;;
    quorum0 <- from_option ret (bail create_required) (cb_requiredQuorum body) ;;
    return_if (negb (isAddress actor0)) (apiError "actor must be a valid EVM address" 400) ;;;
    requiredQuorum <-
      match quorum0 with
      | Integer z =>
          if z <=? 0 then bail (apiError "requiredQuorum must be a positive integer" 400)
          else ret z
      | NonInteger => bail (apiError "requiredQuorum must be a positive integer" 400)
      end ;;
    k <- from_option ret (bail (apiError "Invalid proposal kind" 400)) (isValidKind kind0) ;;
    return_if (negb (startsWith payloadHash "0x")
               || negb (bool_decide (String.length payloadHash = 66%nat)))
              (apiError "payloadHash must be a 32-byte hex string" 400) ;;;
    row <- query (λ db, rooms db !! roomId) ;;
    room <- single_or_404 row ;;
    let actor := normalizeAddress actor0 in
    return_if (negb (isParticipant room actor))
              (apiError "Actor is not a room participant" 403) ;;;
    active <- query (λ db, take 1 (select_active roomId k db)) ;;
    return_if (bool_decide (0 < length active)%nat)
              (apiError ("An active " ++ kind0 ++ " proposal already exists in this room") 400) ;;;
    let proposal := new_proposal uuid1 roomId k payloadJson payloadHash requiredQuorum now in
    exec_checked (insert_proposal proposal) ;;;
    exec_checked (insert_event
      {| e_id := uuid2; e_room_id := roomId; proposal_id := Some (p_id proposal);
         actor := actor; event_type := "proposal_created";
         event_payload := ProposalCreatedPayload k requiredQuorum;
         e_created_at := now |}) ;;;
    ret (apiOk (ProposalData proposal) 201)).

(** *** [POST /api/proposals/[id]/sign] *)

Definition sign_required : NextResponse := apiError "wallet and signature are required" 400.

Definition sign_POST (now : Z) (uuid : string) (id : string) (body : SignBody)
    : DB -> DB * NextResponse :=
  respond (
    wallet0 <- required (sb_wallet body) sign_required ;;
    signature <- required (sb_signature body) sign_required ;;
    return_if (negb (isAddress wallet0)) (apiError "wallet must be a valid EVM address" 400) ;;;
    return_if (negb (is_0x_hex signature)) (apiError "signature must be a hex string" 400) ;;;
    prow <- query (λ db, proposals db !! id) ;;
    proposal <- single_or_404 prow ;;
    return_if (bool_decide (status proposal = submitted)
               || bool_decide (status proposal = failed)
               || bool_decide (status proposal = expired))
              (apiError ("Cannot sign proposal with status " ++ status_name (status proposal)) 400) ;;;
    (if expires_at proposal <? now
     then exec (update_proposal (p_id proposal) (with_status expired)) ;;;
          bail (apiError "Proposal expired" 400)
     else ret tt) ;;;
    rrow <- query (λ db, rooms db !! room_id proposal) ;;
    room <- single_or_404 rrow ;;
    let wallet := normalizeAddress wallet0 in
    return_if (negb (isParticipant room wallet))
              (apiError "Signer is not a room participant" 403) ;;;
    try_call "Failed to sign proposal"
             (assertWalletSignedHash wallet (payload_hash proposal) signature) ;;;
    let signatures := signatures_json proposal in
    let signatures :=
      if negb (truthy_opt (signatures !! wallet))
      then <[wallet := signature]> signatures
      else signatures in
    let signedWeight := calculateSignedWeight room signatures in
    let status' := if required_quorum proposal <=? signedWeight then ready else pending in
    exec (update_proposal (p_id proposal)
            (λ p, with_status status' (with_signatures signatures p))) ;;;
    urow <- query (λ db, proposals db !! p_id proposal) ;;
    updated <- from_option ret (bail (apiError (db_error_message NoSingleRow) 500)) urow ;;
    exec_checked (insert_event
      {| e_id := uuid; e_room_id := r_id room; proposal_id := Some (p_id proposal);
         actor := wallet; event_type := "proposal_signed";
         event_payload :=
           ProposalSignedPayload signedWeight (required_quorum proposal) status';
         e_created_at := now |}) ;;;
    ret (apiOk (SignedData updated signedWeight) 200)).

(** What a sign request that passes every check stores: the signature map
    with the signature of [wallet] added unless one is there, and the
    status the weight of that map gives. *)
Definition signed_signatures (wallet signature : string) (signatures : gmap string string)
    : gmap string string :=
  if negb (truthy_opt (signatures !! wallet))
  then <[wallet := signature]> signatures
  else signatures.

Definition signed_proposal (room : Room) (wallet signature : string) (p : Proposal)
    : Proposal :=
  let signatures := signed_signatures wallet signature (signatures_json p) in
  with_status
    (if required_quorum p <=? calculateSignedWeight room signatures then ready else pending)
    (with_signatures signatures p).

(** *** [POST /api/proposals/[id]/submit] *)

Definition submit_POST (now : Z) (uuid : string) (id : string) (body : SubmitBody)
    : DB -> DB * NextResponse :=
  respond (
    wallet0 <- required (sub_wallet body) (apiError "wallet is required" 400) ;;
    return_if (negb (isAddress wallet0)) (apiError "wallet must be a valid EVM address" 400) ;;;
    return_if (truthy_opt (sub_outcome body)
               && negb (bool_decide (sub_outcome body = Some "submitted"))
               && negb (bool_decide (sub_outcome body = Some "failed")))
              (apiError "outcome must be submitted or failed" 400) ;;;
    prow <- query (λ db, proposals db !! id) ;;
    proposal <- single_or_404 prow ;;
    (if expires_at proposal <? now
     then exec (update_proposal (p_id proposal) (with_status expired)) ;;;
          bail (apiError "Proposal expired" 400)
     else ret tt) ;;;
    rrow <- query (λ db, rooms db !! room_id proposal) ;;
    room <- single_or_404 rrow ;;
    let wallet := normalizeAddress wallet0 in
    return_if (negb (isParticipant room wallet))
              (apiError "Actor is not a room participant" 403) ;;;
    let outcome := default "submitted" (sub_outcome body) in
    return_if (bool_decide (outcome = "submitted")
               && negb (bool_decide (status proposal = ready)))
              (apiError ("Proposal must be ready before submission. Current status: "
                         ++ status_name (status proposal)) 400) ;;;
    let nextStatus := if bool_decide (outcome = "submitted") then submitted else failed in
    let sdkResult :=
      match sub_sdkResult body with
      | Some r => SdkResult r
      | None =>
          match sub_error body with
          | Some e => if truthy e then SdkErrorResult e else SdkEmptyResult
          | None => SdkEmptyResult
          end
      end in
    exec (update_proposal (p_id proposal)
            (λ p, with_sdk_result (Some sdkResult) (with_status nextStatus p))) ;;;
    urow <- query (λ db, proposals db !! p_id proposal) ;;
    updated <- from_option ret (bail (apiError (db_error_message NoSingleRow) 500)) urow ;;
    (if bool_decide (outcome = "submitted") && bool_decide (kind proposal = create_session)
        && truthy_opt (sub_appSessionId body)
     then exec (update_room (r_id room) (with_app_session_id (sub_appSessionId body)))
     else ret tt) ;;;
    (if bool_decide (outcome = "submitted") && bool_decide (kind proposal = close_session)
     then exec (update_room (r_id room) (with_room_status closed))
     else ret tt) ;;;
    exec_checked (insert_event
      {| e_id := uuid; e_room_id := r_id room; proposal_id := Some (p_id proposal);
         actor := wallet;
         event_type := if bool_decide (outcome = "submitted")
                       then "proposal_submitted" else "proposal_failed";
         event_payload := ProposalSubmitPayload (kind proposal) nextStatus sdkResult;
         e_created_at := now |}) ;;;
    ret (apiOk (ProposalData updated) 200)).

(** *** [POST /api/proposals/expire] *)

(** the rows of [.in('status', ['pending', 'ready']).lt('expires_at', now)] *)
Definition sweepable (now : Z) (p : Proposal) : bool :=
  is_active (status p) && (expires_at p <? now).

(** [authorization?.toLowerCase().startsWith('bearer ')
      ? authorization.slice('bearer '.length).trim() : null] *)
Definition bearerToken (authorization : option string) : option string :=
  match authorization with
  | Some a =>
      if startsWith (toLowerCase a) "bearer "
      then Some (trim (slice (String.length "bearer ") a))
      else None
  | None => None
  end.

(** [expectedSecret && providedSecret !== expectedSecret
     && bearerToken !== expectedSecret] *)
Definition unauthorized (expectedSecret providedSecret bearer : option string) : bool :=
  match expectedSecret with
  | Some s =>
      truthy s && negb (bool_decide (providedSecret = Some s))
      && negb (bool_decide (bearer = Some s))
  | None => false
  end.

(** [CRON_SECRET]: [process.env.CRON_SECRET]; [x_cron_secret] and
    [authorization]: what [request.headers.get] returns. *)
Definition expire_POST (now : Z) (CRON_SECRET x_cron_secret authorization : option string)
    : DB -> DB * NextResponse :=
  respond (
    let providedSecret := x_cron_secret in
    let expectedSecret := CRON_SECRET in
    return_if (unauthorized expectedSecret providedSecret (bearerToken authorization))
              (apiError "Unauthorized" 401) ;;;
    data <- query (λ db, filter (λ kv, sweepable now kv.2 = true) (proposals db)) ;;
    exec (set_proposals
            (fmap (λ p, if sweepable now p then with_status expired p else p))) ;;;
    ret (apiOk (ExpiredData (Z.of_nat (size data))) 200)).

End Routes.

(* ===================================================================== *)
(** ** The submitting client ([CosignDemoApp]) *)
(* ===================================================================== *)

(** [throw] and sequencing of calls that may throw *)
Definition andThen {A B} (t : Throws A) (k : A -> Throws B) : Throws B :=
  match t with
  | Returns a => k a
  | Raises e => Raises e
  end.

Notation "x <~ t ;; k" := (andThen t (λ x, k))
  (at level 100, t at next level, right associativity).

(** The session service the client talks to through the SDK ([client]). *)
Class SessionService : Type := {
  (** [client.createAppSession(..)]: the [appSessionId] of the result and
      the result itself *)
  createAppSession : PayloadJson -> list string -> Throws (option string * string);
  (** [client.submitAppState(..)] *)
  submitAppState : PayloadJson -> list string -> Throws string;
  (** [client.closeAppSession(..)] *)
  closeAppSession : PayloadJson -> list string -> Throws string;
  (** [client.innerClient.getLatestState(wallet, asset, false)]: the
      [homeChannelId] of the state *)
  getLatestState : string -> string -> Throws (option string)
}.

Definition isRetryableSubmitError (error : Thrown) : bool :=
  let message := message_or_string error in
  let lower := toLowerCase message in
  includes lower "not connected" ||
  includes lower "connection closed" ||
  includes lower "socket closed" ||
  includes lower "network error" ||
  includes lower "websocket" ||
  includes lower "ws closed".

Definition isMissingHomeChannelForDeposit (error : Thrown) : bool :=
  let message := message_or_string error in
  let lower := toLowerCase message in
  includes lower "state.homechannelid is required for packing" ||
  includes lower "no channel exists for asset" ||
  includes lower "missing home channel id" ||
  includes lower "missing_home_channel".

(** What the component holds once [submitProposal] and [createProposal] are
    past their first line ([if (!client || !walletAddress || !activeRoom)
    return;]): the connected wallet, the active room,
    [activeSession?.allocations] and the cached proposal list (newest
    first). *)
Record ClientState : Type := {
  walletAddress : string;
  activeRoom : Room;
  sessionAllocations : option (list RPCAppSessionAllocation);
  cached_proposals : list Proposal
}.

Section Client.
Context `{Platform} `{SessionService}.

(** the loop of [getRoomSessionAllocations] *)
Fixpoint fillByParticipant (room : Room) (byParticipant : gmap string Z)
    (sourceAllocations : list RPCAppSessionAllocation) : Throws (gmap string Z) :=
  match sourceAllocations with
  | [] => Returns byParticipant
  | allocation :: rest =>
      if negb (bool_decide (toLowerCase (asset allocation) = toLowerCase (asset_symbol room)))
      then fillByParticipant room byParticipant rest
      else
        let participant_ := normalizeAddress (participant allocation) in
        if negb (bool_decide (is_Some (byParticipant !! participant_)))
        then fillByParticipant room byParticipant rest
        else
          n <~ BigInt (amount allocation) ;;
          fillByParticipant room (<[participant_ := n]> byParticipant) rest
  end.

Definition getRoomSessionAllocations (cs : ClientState)
    : Throws (list RPCAppSessionAllocation) :=
  let room := activeRoom cs in
  let participantA := normalizeAddress (participant_a room) in
  let participantB := normalizeAddress (participant_b room) in
  let byParticipant : gmap string Z := <[participantB := 0]> (<[participantA := 0]> ∅) in
  let fallbackFromProposals :=
    match sessionAllocations cs with
    | Some (a :: l) => Some (a :: l)
    | _ =>
        match find (λ p, bool_decide (status p = submitted)) (cached_proposals cs) with
        | Some p => allocations (payload_json p)
        | None => None
        end
    end in
  let sourceAllocations := default [] fallbackFromProposals in
  byParticipant <~ fillByParticipant room byParticipant sourceAllocations ;;
  Returns
    [ {| participant := participant_a room; asset := asset_symbol room;
         amount := BigInt_toString (default 0 (byParticipant !! participantA)) |};
      {| participant := participant_b room; asset := asset_symbol room;
         amount := BigInt_toString (default 0 (byParticipant !! participantB)) |} ].

(** [`${normalizeAddress(allocation.participant)}::${allocation.asset.toLowerCase()}`] *)
Definition allocationKey (allocation : RPCAppSessionAllocation) : string :=
  normalizeAddress (participant allocation) ++ "::" ++ toLowerCase (asset allocation).

(** [baseAllocations.map((allocation) => [key, BigInt(allocation.amount)])] *)
Fixpoint keyedAmounts (l : list RPCAppSessionAllocation) : Throws (list (string * Z)) :=
  match l with
  | [] => Returns []
  | allocation :: rest =>
      n <~ BigInt (amount allocation) ;;
      tl <~ keyedAmounts rest ;;
      Returns ((allocationKey allocation, n) :: tl)
  end.

(** [new Map(entries)]: a later entry of the same key replaces an earlier one *)
Definition new_Map (entries : list (string * Z)) : gmap string Z :=
  foldl (λ m kv, <[kv.1 := kv.2]> m) ∅ entries.

Definition baseByParticipant (cs : ClientState) : Throws (gmap string Z) :=
  baseAllocations <~ getRoomSessionAllocations cs ;;
  entries <~ keyedAmounts baseAllocations ;;
  Returns (new_Map entries).

(** [BigInt(allocation.amount) > (baseByParticipant.get(key) ?? 0n)] *)
Definition increases (base : gmap string Z) (allocation : RPCAppSessionAllocation)
    : Throws bool :=
  let currentAmount := default 0 (base !! allocationKey allocation) in
  n <~ BigInt (amount allocation) ;;
  Returns (currentAmount <? n).

(** the loop of [submitProposal] that collects [positiveDeltas]
    ([participant], [asset]); [positiveParticipants] is the set of the
    participants it pushes *)
Fixpoint positiveDeltas (base : gmap string Z) (l : list RPCAppSessionAllocation)
    : Throws (list (string * string)) :=
  match l with
  | [] => Returns []
  | allocation :: rest =>
      up <~ increases base allocation ;;
      tl <~ positiveDeltas base rest ;;
      Returns (if up : bool
               then (normalizeAddress (participant allocation), asset allocation) :: tl
               else tl)
  end.

Definition positiveParticipants (deltas : list (string * string)) : gset string :=
  list_to_set deltas.*1.

(** the loop of [activeDepositSubmitter]: the first allocation that
    increases, then [break] *)
Fixpoint firstIncrease (base : gmap string Z) (l : list RPCAppSessionAllocation)
    : Throws (option string) :=
  match l with
  | [] => Returns None
  | allocation :: rest =>
      up <~ increases base allocation ;;
      if up : bool then Returns (Some (normalizeAddress (participant allocation)))
      else firstIncrease base rest
  end.

(** [activeProposal] *)
Definition activeProposal (proposals_ : list Proposal) : option Proposal :=
  find (λ p, bool_decide (status p = pending) || bool_decide (status p = ready)) proposals_.

Definition is_deposit (payload : PayloadJson) : bool :=
  bool_decide (intent payload = Some RPCAppStateIntent_Deposit).

Definition activeDepositSubmitter (cs : ClientState) : Throws (option string) :=
  match activeProposal (cached_proposals cs) with
  | None => Returns None
  | Some proposal =>
      if negb (bool_decide (kind proposal = operate)) then Returns None
      else
        let payload := payload_json proposal in
        match allocations payload with
        | None => Returns None
        | Some payload_allocations =>
            if negb (is_deposit payload) then Returns None
            else
              base <~ baseByParticipant cs ;;
              firstIncrease base payload_allocations
        end
  end.

(** [canSubmitActiveProposal] (a wallet is connected) *)
Definition canSubmitActiveProposal (cs : ClientState) : Throws bool :=
  match activeProposal (cached_proposals cs) with
  | None => Returns false
  | Some proposal =>
      if negb (bool_decide (status proposal = ready)) then Returns false
      else if negb (bool_decide (kind proposal = operate) && is_deposit (payload_json proposal))
      then Returns true
      else
        submitter <~ activeDepositSubmitter cs ;;
        match submitter with
        | None => Returns false
        | Some d =>
            Returns (truthy d && bool_decide (normalizeAddress (walletAddress cs) = d))
        end
  end.

Definition ensureWalletCanSubmitSessionDeposit (cs : ClientState) (assetSymbol : string)
    : Throws unit :=
  let attempt :=
    latestState <~ getLatestState (walletAddress cs) assetSymbol ;;
    if negb (truthy_opt latestState)
    then Raises (ErrorObject "missing_home_channel")
    else Returns tt in
  match attempt with
  | Returns _ => Returns tt
  | Raises error =>
      if isRetryableSubmitError error then Raises error
      else Raises (ErrorObject
             ("This wallet cannot add funds to checkout yet. Add funds to your shared wallet first ("
              ++ toUpperCase assetSymbol ++ "), then try again."))
  end.

Definition only_depositor : Thrown :=
  ErrorObject "Only the depositing participant should submit this deposit proposal.".

(** the deposit guard of [submitProposal], reached for an [operate]
    proposal whose intent is [RPCAppStateIntent.Deposit] *)
Definition depositGuard (cs : ClientState) (payload : PayloadJson) : Throws unit :=
  base <~ baseByParticipant cs ;;
  payload_allocations <~
    from_option Returns (Raises (ErrorObject "payload.allocations is not iterable"))
                (allocations payload) ;;
  deltas <~ positiveDeltas base payload_allocations ;;
  let participants := positiveParticipants deltas in
  if bool_decide (size participants = 1%nat)
     && negb (bool_decide (normalizeAddress (walletAddress cs) ∈ participants))
  then Raises only_depositor
  else if bool_decide (size participants = 1%nat)
  then
    (* [Array.from(positiveParticipants)[0]] is the first participant pushed *)
    let depositor := default "" (head deltas.*1) in
    let depositAsset :=
      from_option snd (asset_symbol (activeRoom cs))
                  (find (λ delta, bool_decide (delta.1 = depositor)) deltas) in
    ensureWalletCanSubmitSessionDeposit cs depositAsset
  else Returns tt.

(** the calls of the [try] block of [submitProposal] that reach the session
    service: the result to report and the [appSessionId], if any *)
Definition callSessionService (cs : ClientState) (proposal : Proposal)
    (signatures : list string) : Throws (string * option string) :=
  let payload := payload_json proposal in
  match kind proposal with
  | create_session =>
      result <~ createAppSession payload signatures ;;
      Returns (result.2, result.1)
  | operate =>
      _ <~ (if is_deposit payload then depositGuard cs payload else Returns tt) ;;
      result <~ submitAppState payload signatures ;;
      Returns (result, None)
  | close_session =>
      result <~ closeAppSession payload signatures ;;
      Returns (result, None)
  end.

(** [postJson]: a response that is not [ok] is thrown as an [Error] carrying
    its [error] field (the transport itself is taken to deliver) *)
Definition postJson (r : NextResponse) : Throws NextResponse :=
  if response_ok r then Returns r
  else Raises (ErrorObject
         match r with
         | JsonError message _ => message
         | JsonData _ _ => "Request failed"
         end).

(** [createProposal]: [requiredQuorum] is the optional last argument, which
    defaults to [100]; every call site of the component omits it.  The
    result is the response of the route, thrown when it is not [ok]. *)
Definition createProposal (now : Z) (uuid1 uuid2 : string) (cs : ClientState)
    (k : ProposalKind) (payloadJson : PayloadJson) (payloadHash : string)
    (requiredQuorum : option Z) (db : DB) : DB * Throws NextResponse :=
  let requiredQuorum := default 100 requiredQuorum in
  let '(db', response) :=
    proposals_POST now uuid1 uuid2
      {| cb_roomId := Some (r_id (activeRoom cs));
         cb_actor := Some (walletAddress cs);
         cb_kind := Some (kind_name k);
         cb_payloadJson := Some payloadJson;
         cb_payloadHash := Some payloadHash;
         cb_requiredQuorum := Some (Integer requiredQuorum) |} db in
  (db', postJson response).

(** the [catch] block of [submitProposal]: the store after it and the
    system message it sets *)
Definition submitProposal_catch (now : Z) (uuid : string) (cs : ClientState)
    (proposal : Proposal) (error : Thrown) (db : DB) : DB * string :=
  let transient := isRetryableSubmitError error in
  let missingHomeChannel := isMissingHomeChannelForDeposit error in
  let recoverable := transient || missingHomeChannel in
  let db' :=
    if negb recoverable
    then (submit_POST now uuid (p_id proposal)
            {| sub_wallet := Some (walletAddress cs);
               sub_outcome := Some "failed";
               sub_sdkResult := None;
               sub_appSessionId := None;
               sub_error := Some (message_or "Submission failed" error) |} db).1
    else db in
  (db',
   if transient
   then "Connection dropped while applying. This decision is still ready. Reconnect and tap Apply Decision again."
   else if missingHomeChannel
   then "This wallet cannot add funds to checkout yet. Add funds to your shared wallet first, then tap Apply Decision again."
   else message_or "Failed to submit proposal" error).

(** [submitProposal] for a connected client.  [now1], [uuid1]: clock and
    event id of the [submitted] report; [now2], [uuid2]: those of the
    [failed] report; [refresh]: the outcome of the re-fetch
    [Promise.all([refreshCoreData(), fetchRooms(), fetchRoomThread(..)])]. *)
Definition submitProposal (now1 now2 : Z) (uuid1 uuid2 : string) (cs : ClientState)
    (proposal : Proposal) (refresh : Throws unit) (db : DB) : DB * string :=
  let signatures := Object_values (signatures_json proposal) in
  if bool_decide (length signatures = 0%nat)
  then (db, "No signatures found for this proposal.")
  else
    match callSessionService cs proposal signatures with
    | Raises error => submitProposal_catch now2 uuid2 cs proposal error db
    | Returns (sdkResult, appSessionId) =>
        let '(db1, response) :=
          submit_POST now1 uuid1 (p_id proposal)
            {| sub_wallet := Some (walletAddress cs);
               sub_outcome := Some "submitted";
               sub_sdkResult := Some sdkResult;
               sub_appSessionId := appSessionId;
               sub_error := None |} db in
        match (_ <~ postJson response ;; refresh) with
        | Returns _ => (db1, "Proposal submitted successfully.")
        | Raises error => submitProposal_catch now2 uuid2 cs proposal error db1
        end
    end.

End Client.

(* ===================================================================== *)
(** ** A concrete platform and concrete data, for the examples *)
(* ===================================================================== *)

Module Demo.

(** [0x] followed by forty hexadecimal digits *)
Definition hex40 (s : string) : bool :=
  startsWith s "0x" && bool_decide (String.length s = 42%nat)
  && all_chars is_hex_digit (slice 2 s).

(** a stand-in signature scheme: a signature is [0x], the forty digits of
    the signer and the digits of the signed hash *)
Definition recover (hash signature : string) : Throws string :=
  if startsWith signature "0x"
     && bool_decide (String.substring 42 (String.length signature - 42) signature
                     = slice 2 hash)
     && bool_decide (42 ≤ String.length signature)%nat
  then Returns ("0x" ++ String.substring 2 40 signature)
  else Raises (ErrorObject "invalid signature").

Fixpoint digits (acc : Z) (s : string) : Throws Z :=
  match s with
  | EmptyString => Returns acc
  | String c rest =>
      let n := N_of_ascii c in
      if ((48 <=? n) && (n <=? 57))%N
      then digits (10 * acc + Z.of_N (n - 48)) rest
      else Raises (ErrorObject "Cannot convert to a BigInt")
  end.

Fixpoint digits_of (fuel : nat) (z : Z) (acc : string) : string :=
  match fuel with
  | O => acc
  | S fuel' =>
      let acc' := String (ascii_of_N (48 + Z.to_N (z mod 10))) acc in
      if z <? 10 then acc' else digits_of fuel' (z / 10) acc'
  end.

Definition toString (z : Z) : string :=
  if z <? 0 then "-" ++ digits_of (Z.to_nat (- z)) (- z) ""
  else digits_of (S (Z.to_nat z)) z "".

Definition platform : Platform :=
  {| isAddress := hex40;
     recoverMessageAddress := recover;
     BigInt := digits 0;
     BigInt_toString := toString;
     db_error_message := λ e,
       match e with
       | PrimaryKeyViolation t => "duplicate key value violates unique constraint on " ++ t
       | UniqueViolation i => "duplicate key value violates unique constraint " ++ i
       | ForeignKeyViolation t => "foreign key constraint violated on " ++ t
       | IntegerOutOfRange => "integer out of range"
       | NoSingleRow => "no single row"
       end;
     RPCAppStateIntent_Deposit := "deposit" |}.

Definition alice : string := "0xaaaaaaaaaaaaaaaaaaaaaaaaaaaaaaaaaaaaaaaa".
Definition bob : string := "0xbbbbbbbbbbbbbbbbbbbbbbbbbbbbbbbbbbbbbbbb".
Definition carol : string := "0xcccccccccccccccccccccccccccccccccccccccc".
(** [alice], as a wallet reports it *)
Definition Alice : string := "0xAAAAAAAAAAAAAAAAAAAAAAAAAAAAAAAAAAAAAAAA".

Definition hash : string :=
  "0x1111111111111111111111111111111111111111111111111111111111111111".
Definition sig_of (signer : string) : string := "0x" ++ slice 2 signer ++ slice 2 hash.

Definition room : Room :=
  {| r_id := "room-1"; created_by := alice; participant_a := alice;
     participant_b := bob; chain_id := 11155111; asset_symbol := "usdc";
     r_status := open; app_session_id := None;
     r_created_at := 0; r_expires_at := 86400000 |}.

Definition payload (intent_ : option string) (a b : string) : PayloadJson :=
  {| intent := intent_;
     allocations := Some [ {| participant := alice; asset := "usdc"; amount := a |};
                           {| participant := bob; asset := "usdc"; amount := b |} ];
     payload_rest := "" |}.

Definition proposal (id : string) (k : ProposalKind) (s : ProposalStatus)
    (sigs : gmap string string) (pl : PayloadJson) : Proposal :=
  {| p_id := id; room_id := "room-1"; kind := k; payload_json := pl;
     payload_hash := hash; required_quorum := 100; signatures_json := sigs;
     status := s; sdk_result_json := None; created_at := 1000;
     expires_at := 86401000 |}.

Definition both_signed : gmap string string :=
  <[bob := sig_of bob]> (<[alice := sig_of alice]> ∅).

Definition db_with (ps : list Proposal) : DB :=
  {| rooms := {[ "room-1" := room ]};
     proposals := list_to_map ((λ p, (p_id p, p)) <$> ps);
     events := ∅ |}.

Definition create_body (actor_ kind_ : string) (quorum : Z) : CreateBody :=
  {| cb_roomId := Some "room-1"; cb_actor := Some actor_; cb_kind := Some kind_;
     cb_payloadJson := Some (payload None "0" "0"); cb_payloadHash := Some hash;
     cb_requiredQuorum := Some (Integer quorum) |}.

(** a session service that accepts every call *)
Definition accepting : SessionService :=
  {| createAppSession := λ _ _, Returns (Some "0xsession", "created");
     submitAppState := λ _ _, Returns "state accepted";
     closeAppSession := λ _ _, Returns "closed";
     getLatestState := λ _ _, Returns (Some "0xchannel") |}.

(** a session service whose calls all fail with the given error *)
Definition failing (e : Thrown) : SessionService :=
  {| createAppSession := λ _ _, Raises e;
     submitAppState := λ _ _, Raises e;
     closeAppSession := λ _ _, Raises e;
     getLatestState := λ _ _, Raises e |}.

Definition client (wallet : string) (ps : list Proposal) : ClientState :=
  {| walletAddress := wallet; activeRoom := room;
     sessionAllocations := None; cached_proposals := ps |}.

End Demo.


(* ===================================================================== *)
(** ** Well-formed stores *)
(* ===================================================================== *)

(** Every row of [proposals] sits under its own [id]: the primary key. *)
Definition proposals_keyed (db : DB) : Prop :=
  map_Forall (λ i p, p_id p = i) (proposals db).

#[global] Instance proposals_keyed_dec (db : DB) : Decision (proposals_keyed db).
Proof. unfold proposals_keyed. apply _. Defined.

(** Every row of [rooms] sits under its own [id]. *)
Definition rooms_keyed (db : DB) : Prop :=
  map_Forall (λ i r, r_id r = i) (rooms db).

#[global] Instance rooms_keyed_dec (db : DB) : Decision (rooms_keyed db).
Proof. unfold rooms_keyed. apply _. Defined.

(** The fields of a proposal that no route writes after creation. *)
Definition same_content (p q : Proposal) : Prop :=
  p_id q = p_id p ∧ room_id q = room_id p ∧ kind q = kind p
  ∧ payload_json q = payload_json p ∧ payload_hash q = payload_hash p
  ∧ required_quorum q = required_quorum p
  ∧ created_at q = created_at p ∧ expires_at q = expires_at p.

(** What an applied [submitted] report does to the room of the proposal:
    a session-creating proposal attaches the session id it is given, a
    closing one closes the room, any other leaves the room alone. *)
Definition applied_room (k : ProposalKind) (appSessionId : option string) (r : Room) : Room :=
  match k with
  | create_session =>
      if truthy_opt appSessionId then with_app_session_id appSessionId r else r
  | close_session => with_room_status closed r
  | operate => r
  end.

(** [body.sdkResult ?? (body.error ? { error: body.error } : {})] *)
Definition reported_result (body : SubmitBody) : SdkResultJson :=
  match sub_sdkResult body with
  | Some r => SdkResult r
  | None =>
      match sub_error body with
      | Some e => if truthy e then SdkErrorResult e else SdkEmptyResult
      | None => SdkEmptyResult
      end
  end.

(** A store as the schema keeps it: rows under their keys and at most one
    active proposal per room and kind. *)
Definition store_ok (db : DB) : Prop :=
  proposals_keyed db ∧ rooms_keyed db ∧ active_unique db.

#[global] Instance store_ok_dec (db : DB) : Decision (store_ok db).
Proof. unfold store_ok. apply _. Defined.

(** What identifies a room and is fixed at its creation. *)
Definition same_room_identity (r r' : Room) : Prop :=
  r_id r' = r_id r ∧ created_by r' = created_by r
  ∧ participant_a r' = participant_a r ∧ participant_b r' = participant_b r
  ∧ chain_id r' = chain_id r ∧ asset_symbol r' = asset_symbol r
  ∧ r_created_at r' = r_created_at r ∧ r_expires_at r' = r_expires_at r.

(** what a request leaves of a room: the room is still stored under its
    key, with the same identity, and closed if it was *)
Definition room_kept (rid : string) (r : Room) (db' : DB) : Prop :=
  ∃ r', rooms db' !! rid = Some r' ∧ same_room_identity r r'
        ∧ (r_status r = closed → r_status r' = closed).

(** a handler body keeps a relation between the store before and after *)
Definition Route_keeps {A} (R : relation DB) (m : Route A) : Prop :=
  ∀ db, R db (m db).1.

(** the event log only grows: every event stays as it was written *)
Definition events_kept (db db' : DB) : Prop := events db ⊆ events db'.

#[global] Instance events_kept_preorder : PreOrder events_kept.
Proof. unfold events_kept. split; [by intros db|]. intros a b c Hab Hbc. by etrans. Qed.

(** what [POST /api/rooms] checks of a room before it stores it *)
Definition room_wellformed (r : Room) : Prop :=
  normalizeAddress (participant_a r) = participant_a r
  ∧ normalizeAddress (participant_b r) = participant_b r
  ∧ participant_a r ≠ participant_b r
  ∧ created_by r = participant_a r
  ∧ chain_id r = SEPOLIA_CHAIN_ID
  ∧ asset_symbol r ∈ ALLOWED_ASSETS.

#[global] Instance room_wellformed_dec (r : Room) : Decision (room_wellformed r).
Proof. unfold room_wellformed. apply _. Defined.

Definition rooms_wellformed (db : DB) : Prop :=
  map_Forall (λ _ r, room_wellformed r) (rooms db).

#[global] Instance rooms_wellformed_dec (db : DB) : Decision (rooms_wellformed db).
Proof. unfold rooms_wellformed. apply _. Defined.

Definition rooms_wellformed_kept (db db' : DB) : Prop :=
  rooms_wellformed db → rooms_wellformed db'.

#[global] Instance rooms_wellformed_kept_preorder : PreOrder rooms_wellformed_kept.
Proof. unfold rooms_wellformed_kept. split; [by intros db|]. intros a b c Hab Hbc. auto. Qed.



(* ===================================================================== *)
(** ** The proposals the client builds ([CosignDemoApp]) *)
(* ===================================================================== *)

Section ClientProposals.
Context `{Platform} `{SessionService}.

(** [requester] of [createDepositProposal] and [createOperateProposal] *)
Definition requesterOf (cs : ClientState) : string :=
  let room := activeRoom cs in
  if bool_decide (normalizeAddress (walletAddress cs) = normalizeAddress (participant_a room))
  then participant_a room
  else participant_b room.

(** [counterparty] of [createOperateProposal] *)
Definition counterpartyOf (cs : ClientState) : string :=
  let room := activeRoom cs in
  if bool_decide (requesterOf cs = participant_a room)
  then participant_b room
  else participant_a room.

(** [baseAllocations.map(..)] of [createDepositProposal]: the amount of the
    requester grows by [rawAmount] *)
Fixpoint addToRequester (requester : string) (rawAmount : Z)
    (baseAllocations : list RPCAppSessionAllocation) : Throws (list RPCAppSessionAllocation) :=
  match baseAllocations with
  | [] => Returns []
  | allocation :: rest =>
      next <~
        (if negb (bool_decide (normalizeAddress (participant allocation)
                               = normalizeAddress requester))
         then Returns allocation
         else
           n <~ BigInt (amount allocation) ;;
           Returns {| participant := participant allocation; asset := asset allocation;
                      amount := BigInt_toString (n + rawAmount) |}) ;;
      tl <~ addToRequester requester rawAmount rest ;;
      Returns (next :: tl)
  end.

(** [createDepositProposal], from the parsed amount ([rawAmount]) to the
    allocations of the payload *)
Definition depositAllocations (cs : ClientState) (rawAmount : Z)
    : Throws (list RPCAppSessionAllocation) :=
  if rawAmount <=? 0 then Raises (ErrorObject "Proposal amount must be greater than 0")
  else
    _ <~ ensureWalletCanSubmitSessionDeposit cs (asset_symbol (activeRoom cs)) ;;
    let requester := requesterOf cs in
    baseAllocations <~ getRoomSessionAllocations cs ;;
    addToRequester requester rawAmount baseAllocations.

(** the payload of [createDepositProposal]; [rest] stands for its other
    fields *)
Definition depositPayload (allocations_ : list RPCAppSessionAllocation) (rest : string)
    : PayloadJson :=
  {| intent := Some RPCAppStateIntent_Deposit; allocations := Some allocations_;
     payload_rest := rest |}.

(** [baseAllocations.map((allocation) =>
      [normalizeAddress(allocation.participant), BigInt(allocation.amount)])] *)
Fixpoint balanceEntries (baseAllocations : list RPCAppSessionAllocation)
    : Throws (list (string * Z)) :=
  match baseAllocations with
  | [] => Returns []
  | allocation :: rest =>
      n <~ BigInt (amount allocation) ;;
      tl <~ balanceEntries rest ;;
      Returns ((normalizeAddress (participant allocation), n) :: tl)
  end.

(** [createOperateProposal], from the parsed amount ([rawAmount]) to the
    allocations of the payload *)
Definition operateAllocations (cs : ClientState) (rawAmount : Z)
    : Throws (list RPCAppSessionAllocation) :=
  if rawAmount <=? 0 then Raises (ErrorObject "Proposal amount must be greater than 0")
  else
    let requester := requesterOf cs in
    let counterparty := counterpartyOf cs in
    baseAllocations <~ getRoomSessionAllocations cs ;;
    entries <~ balanceEntries baseAllocations ;;
    let balanceByParticipant := new_Map entries in
    let requesterBalance := default 0 (balanceByParticipant !! normalizeAddress requester) in
    let counterpartyBalance :=
      default 0 (balanceByParticipant !! normalizeAddress counterparty) in
    if requesterBalance <? rawAmount
    then Raises (ErrorObject
           "Insufficient app-session balance. Create a Session Deposit Proposal first.")
    else
      Returns
        [ {| participant := requester; asset := asset_symbol (activeRoom cs);
             amount := BigInt_toString (requesterBalance - rawAmount) |};
          {| participant := counterparty; asset := asset_symbol (activeRoom cs);
             amount := BigInt_toString (counterpartyBalance + rawAmount) |} ].

End ClientProposals.

(** the component once a proposal has been put in front of its cached list *)
Definition with_proposal (p : Proposal) (cs : ClientState) : ClientState :=
  {| walletAddress := walletAddress cs; activeRoom := activeRoom cs;
     sessionAllocations := sessionAllocations cs;
     cached_proposals := p :: cached_proposals cs |}.


(* ===================================================================== *)
(** ** The reading routes *)
(* ===================================================================== *)

(** [.order('created_at', { ascending: false })]: newest first; the order
    among rows of one instant is the one the store yields and plays no role
    below *)
Definition newest_first {A} (created : A -> Z) (rows : list A) : list A :=
  @merge_sort A (λ x y, created y ≤ created x)
    (λ x y, decide (created y ≤ created x)) rows.

(** the body of [apiOk({ proposals, events })] *)
Record Thread : Type := {
  thread_proposals : list Proposal;
  thread_events : list RoomEvent
}.

Section Reading.
Context `{Platform}.

(** [GET /api/proposals]; [roomId], [wallet]: what [searchParams.get]
    returns.  The value the handler ends with is the body of its [apiOk]
    response. *)
Definition proposals_GET (roomId wallet : option string) : Route Thread :=
  roomId <- required roomId (apiError "roomId is required" 400) ;;
  wallet <- required wallet (apiError "wallet is required" 401) ;;
  return_if (negb (isAddress wallet)) (apiError "wallet must be a valid EVM address" 400) ;;;
  let normalizedWallet := normalizeAddress wallet in
  row <- query (λ db, rooms db !! roomId) ;;
  room <- single_or_404 row ;;
  return_if (negb (isParticipant room normalizedWallet))
            (apiError "Wallet is not a participant in this room" 403) ;;;
  proposals_ <- query (λ db,
    newest_first created_at
      (filter (λ p, room_id p = roomId) (map_to_list (proposals db)).*2)) ;;
  events_ <- query (λ db,
    take 200 (newest_first e_created_at
                (filter (λ e, e_room_id e = roomId) (map_to_list (events db)).*2))) ;;
  ret {| thread_proposals := proposals_; thread_events := events_ |}.

(** [GET /api/rooms]; the value the handler ends with is the [rooms] field
    of its [apiOk] response. *)
Definition rooms_GET (wallet : option string) : Route (list Room) :=
  wallet <- required wallet (apiError "wallet is required" 400) ;;
  return_if (negb (isAddress wallet)) (apiError "wallet must be a valid EVM address" 400) ;;;
  let normalized := normalizeAddress wallet in
  data <- query (λ db,
    newest_first r_created_at
      (filter (λ r, participant_a r = normalized ∨ participant_b r = normalized)
              (map_to_list (rooms db)).*2)) ;;
  ret data.

End Reading.

(* ===================================================================== *)
(** ** Properties of the relay helpers *)
(* ===================================================================== *)

Section RelayFacts.

Lemma lower_ascii_idem (c : ascii) : lower_ascii (lower_ascii c) = lower_ascii c.
Proof. destruct c as [[] [] [] [] [] [] [] []]; reflexivity. Qed.

Lemma toLowerCase_idem (s : string) : toLowerCase (toLowerCase s) = toLowerCase s.
Proof.
  induction s as [|c s IH]; [reflexivity|].
  cbn. unfold toLowerCase in IH. by rewrite lower_ascii_idem, IH.
Qed.

Lemma normalizeAddress_idem (value : string) :
  normalizeAddress (normalizeAddress value) = normalizeAddress value.
Proof. apply toLowerCase_idem. Qed.

Lemma isParticipant_normalized (room : Room) (wallet : string) :
  isParticipant room (normalizeAddress wallet) = isParticipant room wallet.
Proof. unfold isParticipant. by rewrite normalizeAddress_idem. Qed.

Lemma isParticipant_iff (room : Room) (wallet : string) :
  isParticipant room wallet = true ↔
  normalizeAddress wallet = normalizeAddress (participant_a room)
  ∨ normalizeAddress wallet = normalizeAddress (participant_b room).
Proof.
  unfold isParticipant. rewrite orb_true_iff, !bool_decide_eq_true. naive_solver.
Qed.

Lemma elem_of_Object_keys (o : gmap string string) (k : string) :
  k ∈ Object_keys o ↔ is_Some (o !! k).
Proof.
  unfold Object_keys. rewrite list_elem_of_fmap. split.
  - intros [[k' v] [-> Hin]]. apply elem_of_map_to_list in Hin. by exists v.
  - intros [v Hv]. exists (k, v). split; [done|]. by apply elem_of_map_to_list.
Qed.

Lemma elem_of_signerAddresses (signatures : gmap string string) (x : string) :
  x ∈ signerAddresses signatures ↔
  ∃ k, is_Some (signatures !! k) ∧ x = normalizeAddress k.
Proof.
  unfold signerAddresses. rewrite elem_of_list_to_set, list_elem_of_fmap.
  split.
  - intros (k & -> & Hk). exists k. split; [by apply elem_of_Object_keys|done].
  - intros (k & Hk & ->). exists k. split; [done|by apply elem_of_Object_keys].
Qed.

Lemma signerAddresses_insert (signatures : gmap string string) (k v : string) :
  signerAddresses (<[k := v]> signatures)
  = {[ normalizeAddress k ]} ∪ signerAddresses signatures.
Proof.
  apply set_eq. intros x.
  rewrite elem_of_union, elem_of_singleton, !elem_of_signerAddresses. split.
  - intros (k' & Hk' & ->). destruct (decide (k = k')) as [->|Hne]; [by left|].
    right. exists k'. by rewrite lookup_insert_ne in Hk'.
  - intros [->|(k' & Hk' & ->)].
    + exists k. by rewrite lookup_insert_eq.
    + exists k'. split; [|done].
      destruct (decide (k = k')) as [->|Hne];
        [by rewrite lookup_insert_eq | by rewrite lookup_insert_ne].
Qed.

(** the weight as a sum of two indicator terms *)
Lemma calculateSignedWeight_unfold (room : Room) (signatures : gmap string string) :
  calculateSignedWeight room signatures
  = (if bool_decide (normalizeAddress (participant_a room) ∈ signerAddresses signatures)
     then 50 else 0)
    + (if bool_decide (normalizeAddress (participant_b room) ∈ signerAddresses signatures)
       then 50 else 0).
Proof. unfold calculateSignedWeight. by repeat case_bool_decide. Qed.

End RelayFacts.



(** Why the two participants must differ: with one participant in both
    seats a single signature already weighs 100. *)
Example calculateSignedWeight_same_participant :
  calculateSignedWeight
    {| r_id := "r"; created_by := Demo.alice; participant_a := Demo.alice;
       participant_b := Demo.Alice; chain_id := 1; asset_symbol := "usdc";
       r_status := open; app_session_id := None; r_created_at := 0; r_expires_at := 0 |}
    {[ Demo.alice := "0x02" ]} = 100.
Proof. vm_compute. reflexivity. Qed.

(** C9 (as the code has it).  [isParticipant] is normalized equality with
    participant A or B.  [counterpartOf] is total: it returns participant B
    when the identifier is participant A, and participant A otherwise, also
    for an identifier that is no participant. *)
Theorem counterpartOf_total (room : Room) (wallet : string) :
  (isParticipant room wallet = true ↔
     normalizeAddress wallet = normalizeAddress (participant_a room)
     ∨ normalizeAddress wallet = normalizeAddress (participant_b room))
  ∧ (normalizeAddress wallet = normalizeAddress (participant_a room) →
     counterpartOf room wallet = participant_b room)
  ∧ (normalizeAddress wallet ≠ normalizeAddress (participant_a room) →
     counterpartOf room wallet = participant_a room)
  ∧ (isParticipant room wallet = false →
     counterpartOf room wallet = participant_a room).
Proof.
  split; [apply isParticipant_iff|]. unfold counterpartOf.
  split; [|split].
  - intros ->. by rewrite bool_decide_eq_true_2.
  - intros Hne. by rewrite bool_decide_eq_false_2.
  - intros Hnot. rewrite bool_decide_eq_false_2; [done|].
    intros Heq. assert (isParticipant room wallet = true) as Hp; [|congruence].
    apply isParticipant_iff. by left.
Qed.

Lemma counterpartOf_total_witness :
  counterpartOf Demo.room Demo.Alice = Demo.bob
  ∧ counterpartOf Demo.room Demo.bob = Demo.alice
  ∧ counterpartOf Demo.room Demo.carol = Demo.alice.
Proof.
  destruct (counterpartOf_total Demo.room Demo.Alice) as (_ & Ha & _).
  destruct (counterpartOf_total Demo.room Demo.bob) as (_ & _ & Hb & _).
  destruct (counterpartOf_total Demo.room Demo.carol) as (_ & _ & _ & Hc).
  split; [|split].
  - apply Ha. vm_compute. reflexivity.
  - apply Hb. vm_compute. discriminate.
  - apply Hc. vm_compute. reflexivity.
Defined.

(** C9, the claim as stated fails: [carol] is no participant of the room,
    and [counterpartOf] answers with participant A all the same. *)
Lemma counterpartOf_nonparticipant_counterexample :
  isParticipant Demo.room Demo.carol = false
  ∧ counterpartOf Demo.room Demo.carol = participant_a Demo.room
  ∧ isParticipant Demo.room (counterpartOf Demo.room Demo.carol) = true.
Proof. vm_compute. done. Qed.

(* ===================================================================== *)
(** ** Properties of the routes *)
(* ===================================================================== *)

Ltac route_unfold :=
  unfold respond, bind, return_if, required, query, exec, exec_checked,
    single_or_404, try_call, ret, bail.

(** run a handler as far as the given rewriting allows *)
Tactic Notation "route_run" "with" tactic3(rw) :=
  route_unfold; repeat (progress (simpl; rw)).

Lemma truthy_ne (s : string) : s ≠ "" → truthy s = true.
Proof. by destruct s. Qed.

Lemma is_0x_hex_truthy (s : string) : is_0x_hex s = true → truthy s = true.
Proof. by destruct s. Qed.

Lemma lookup_update_proposal (db : DB) (id : string) (f : Proposal → Proposal) (p : Proposal) :
  proposals db !! id = Some p →
  proposals (update_proposal id f db) !! id = Some (f p).
Proof. intros Hp. simpl. by rewrite lookup_alter_eq, Hp. Qed.

Lemma lookup_update_proposal_ne (db : DB) (id other : string) (f : Proposal → Proposal) :
  id ≠ other →
  proposals (update_proposal id f db) !! other = proposals db !! other.
Proof. intros Hne. simpl. by rewrite lookup_alter_ne. Qed.

Section RouteFacts.
Context `{Platform}.

(** C7.  A well-formed sign request for a pending or ready proposal whose
    expiry lies before the current time is answered with [Proposal expired];
    before answering, the route sets the status of the proposal to expired,
    and nothing else changes: the signature map is the one it was. *)
Theorem sign_expired_marks_expired (now : Z) (uuid id wallet signature : string)
    (db : DB) (proposal : Proposal) :
  wallet ≠ "" → isAddress wallet = true → is_0x_hex signature = true →
  proposals db !! id = Some proposal → p_id proposal = id →
  is_active (status proposal) = true →
  expires_at proposal < now →
  let db' := update_proposal id (with_status expired) db in
  sign_POST now uuid id {| sb_wallet := Some wallet; sb_signature := Some signature |} db
  = (db', apiError "Proposal expired" 400)
  ∧ (∃ p', proposals db' !! id = Some p' ∧ status p' = expired
           ∧ signatures_json p' = signatures_json proposal)
  ∧ (∀ other, other ≠ id → proposals db' !! other = proposals db !! other)
  ∧ rooms db' = rooms db ∧ events db' = events db.
Proof.
  intros Hw Haddr Hsig Hp Hid Hact Hexp db'. split; [|split; [|split]].
  - unfold sign_POST. apply Z.ltb_lt in Hexp.
    pose proof (truthy_ne _ Hw) as Hw'. pose proof (is_0x_hex_truthy _ Hsig) as Hs'.
    route_run with (rewrite ?Hw', ?Hs', ?Haddr, ?Hsig, ?Hp, ?Hexp, ?Hid).
    by destruct (status proposal).
  - exists (with_status expired proposal). split; [|done].
    by apply lookup_update_proposal.
  - intros other Hne. by apply lookup_update_proposal_ne.
  - done.
Qed.

End RouteFacts.

Lemma sign_expired_marks_expired_witness :
  let db := Demo.db_with [Demo.proposal "p-1" operate ready Demo.both_signed
                            (Demo.payload None "1" "2")] in
  (@sign_POST Demo.platform 90000000 "e-1" "p-1"
     {| sb_wallet := Some Demo.Alice; sb_signature := Some (Demo.sig_of Demo.alice) |} db).2
  = apiError "Proposal expired" 400.
Proof.
  intros db.
  pose proof (@sign_expired_marks_expired Demo.platform 90000000 "e-1" "p-1" Demo.Alice
                (Demo.sig_of Demo.alice) db
                (Demo.proposal "p-1" operate ready Demo.both_signed
                   (Demo.payload None "1" "2"))) as Hthm.
  destruct Hthm as (Heq & _).
  - discriminate.
  - vm_compute. reflexivity.
  - vm_compute. reflexivity.
  - vm_compute. reflexivity.
  - reflexivity.
  - reflexivity.
  - reflexivity.
  - rewrite Heq. reflexivity.
Defined.
Section StorageFacts.

Lemma elem_of_rows (m : gmap string Proposal) (p : Proposal) :
  p ∈ (map_to_list m).*2 ↔ ∃ i, m !! i = Some p.
Proof.
  rewrite list_elem_of_fmap. split.
  - intros [[i q] [-> Hin]]. exists i. by apply elem_of_map_to_list.
  - intros [i Hi]. exists (i, p). split; [done|]. by apply elem_of_map_to_list.
Qed.

Lemma select_active_found (db : DB) (roomId : string) (k : ProposalKind)
    (i : string) (p : Proposal) :
  proposals db !! i = Some p → active_of_kind roomId k p = true →
  ∃ q rest, select_active roomId k db = q :: rest.
Proof.
  intros Hi Hact.
  assert (p ∈ select_active roomId k db) as Hin.
  { unfold select_active. apply list_elem_of_filter. split; [done|].
    apply elem_of_rows. by exists i. }
  destruct (select_active roomId k db) as [|q rest]; [by apply elem_of_nil in Hin|].
  by exists q, rest.
Qed.

Lemma select_active_none (db : DB) (roomId : string) (k : ProposalKind) :
  (∀ i p, proposals db !! i = Some p → active_of_kind roomId k p = false) →
  select_active roomId k db = [].
Proof.
  intros Hnone. destruct (select_active roomId k db) as [|q rest] eqn:Hsel; [done|].
  assert (q ∈ select_active roomId k db) as Hin by (rewrite Hsel; left).
  unfold select_active in Hin. apply list_elem_of_filter in Hin as [Hq Hrow].
  apply elem_of_rows in Hrow as [i Hi]. by rewrite (Hnone i q Hi) in Hq.
Qed.

Lemma active_of_kind_iff (roomId : string) (k : ProposalKind) (p : Proposal) :
  active_of_kind roomId k p = true ↔
  room_id p = roomId ∧ kind p = k ∧ is_active (status p) = true.
Proof.
  unfold active_of_kind. rewrite !andb_true_iff, !bool_decide_eq_true. naive_solver.
Qed.

Lemma terminal_not_active (s : ProposalStatus) : is_terminal s = true → is_active s = false.
Proof. by destruct s. Qed.

(** once the one active row of a room and kind has moved to a terminal
    status, the room has no active row of that kind *)
Lemma resolved_leaves_none (db : DB) (oid : string) (other : Proposal)
    (f : Proposal → Proposal) :
  active_unique db →
  proposals db !! oid = Some other → is_active (status other) = true →
  is_terminal (status (f other)) = true →
  ∀ i p, proposals (update_proposal oid f db) !! i = Some p →
         active_of_kind (room_id other) (kind other) p = false.
Proof.
  intros Huniq Hother Hact Hterm i p Hi.
  destruct (decide (oid = i)) as [<-|Hne].
  - rewrite (lookup_update_proposal _ _ _ _ Hother) in Hi. injection Hi as <-.
    unfold active_of_kind. rewrite (terminal_not_active _ Hterm). apply andb_false_r.
  - rewrite lookup_update_proposal_ne in Hi by done.
    destruct (active_of_kind (room_id other) (kind other) p) eqn:Hp; [|done].
    apply active_of_kind_iff in Hp as (Hr & Hk & Ha).
    exfalso. apply Hne. by apply (Huniq oid other Hother i p Hi).
Qed.

End StorageFacts.

Section CreateFacts.
Context `{Platform}.

Lemma isValidKind_name (kindName : string) (k : ProposalKind) :
  isValidKind kindName = Some k → kindName = kind_name k.
Proof.
  unfold isValidKind. repeat case_bool_decide; intros [= <-]; by subst.
Qed.

Lemma length_truthy (s : string) (n : nat) : String.length s = S n → truthy s = true.
Proof. by destruct s. Qed.

(** whatever else the request holds, creation writes nothing while the room
    has an active proposal of the requested kind *)
Lemma proposals_POST_duplicate_no_write (now : Z) (uuid1 uuid2 : string) (body : CreateBody)
    (db : DB) (roomId : string) (k : ProposalKind) (oid : string) (other : Proposal) :
  cb_roomId body = Some roomId → cb_kind body ≫= isValidKind = Some k →
  proposals db !! oid = Some other → active_of_kind roomId k other = true →
  ∃ message code, proposals_POST now uuid1 uuid2 body db = (db, apiError message code).
Proof.
  intros Hroom Hkind Hother Hact.
  destruct (select_active_found db roomId k oid other Hother Hact) as (q & rest & Hsel).
  unfold proposals_POST, insert_proposal, insert_event. route_unfold. unfold from_option.
  destruct body as [roomId' actor_ kind_ payloadJson payloadHash quorum].
  simpl in Hroom, Hkind. subst roomId'. destruct kind_ as [kindName|]; [|done].
  simpl in Hkind. simpl.
  repeat (case_match; simplify_eq/=; try by eexists _, _).
  all: match goal with
       | Hlen : bool_decide (0 < length (take 1 (select_active _ _ _)))%nat = false |- _ =>
           rewrite Hsel in Hlen; done
       end.
Qed.

(** C1.  A well-formed creation request of a room participant is refused
    with the duplicate message, and leaves the store as it was, while a
    proposal of the same kind is pending or ready in the room (and no
    request for that room and kind, well-formed or not, writes anything
    then); once that proposal has moved to a terminal status, the same
    request succeeds and stores the new proposal with status pending. *)
Theorem create_unique_per_room_and_kind
    (now : Z) (uuid1 uuid2 roomId actor_ kindName payloadHash : string)
    (k : ProposalKind) (payloadJson : PayloadJson) (quorum : Z)
    (db : DB) (room : Room) (oid : string) (other : Proposal)
    (f : Proposal → Proposal) :
  roomId ≠ "" → actor_ ≠ "" → isAddress actor_ = true →
  isValidKind kindName = Some k →
  startsWith payloadHash "0x" = true → String.length payloadHash = 66%nat →
  0 < quorum ≤ 2147483647 →
  rooms db !! roomId = Some room → isParticipant room actor_ = true →
  proposals db !! oid = Some other →
  room_id other = roomId → kind other = k → is_active (status other) = true →
  active_unique db →
  is_terminal (status (f other)) = true →
  proposals db !! uuid1 = None → events db !! uuid2 = None →
  let body := {| cb_roomId := Some roomId; cb_actor := Some actor_;
                 cb_kind := Some kindName; cb_payloadJson := Some payloadJson;
                 cb_payloadHash := Some payloadHash;
                 cb_requiredQuorum := Some (Integer quorum) |} in
  let db1 := update_proposal oid f db in
  let created := new_proposal uuid1 roomId k payloadJson payloadHash quorum now in
  proposals_POST now uuid1 uuid2 body db
  = (db, apiError ("An active " ++ kindName ++ " proposal already exists in this room") 400)
  ∧ (∀ body', cb_roomId body' = Some roomId → cb_kind body' ≫= isValidKind = Some k →
       (proposals_POST now uuid1 uuid2 body' db).1 = db)
  ∧ (∃ db2,
       proposals_POST now uuid1 uuid2 body db1 = (db2, apiOk (ProposalData created) 201)
       ∧ proposals db2 = <[uuid1 := created]> (proposals db1)
       ∧ proposals db2 !! uuid1 = Some created
       ∧ status created = pending).
Proof.
  intros Hroom Hactor Haddr Hkind Hpre Hlen [Hq0 Hq1] Hr Hpart Hother Hrid Hk Hact
    Huniq Hterm Hfresh1 Hfresh2 body db1 created.
  pose proof (truthy_ne _ Hroom) as Hroom'. pose proof (truthy_ne _ Hactor) as Hactor'.
  pose proof (length_truthy _ _ Hlen) as Hhash'.
  assert (truthy kindName = true) as Hkind'.
  { rewrite (isValidKind_name _ _ Hkind). by destruct k. }
  assert ((quorum <=? 0) = false) as Hq0' by lia.
  rewrite <-isParticipant_normalized in Hpart.
  assert (active_of_kind roomId k other = true) as Hactive.
  { apply active_of_kind_iff. done. }
  split; [|split].
  - destruct (select_active_found db roomId k oid other Hother Hactive) as (q & rest & Hsel).
    unfold proposals_POST.
    route_run with (rewrite ?Hroom', ?Hactor', ?Hkind', ?Hhash', ?Haddr, ?Hq0', ?Hkind,
                      ?Hpre, ?Hlen, ?Hr, ?Hpart, ?Hsel).
    done.
  - intros body' Hroom_ Hkind_.
    destruct (proposals_POST_duplicate_no_write now uuid1 uuid2 body' db roomId k oid other
                Hroom_ Hkind_ Hother Hactive) as (message & code & ->).
    done.
  - assert (select_active roomId k db1 = []) as Hsel.
    { apply select_active_none. subst roomId k db1.
      by apply resolved_leaves_none. }
    assert (int4_range quorum = true) as Hrange by (unfold int4_range; lia).
    assert (proposals db1 !! uuid1 = None) as Hfresh1'.
    { destruct (decide (oid = uuid1)) as [->|Hne]; [congruence|].
      subst db1. by rewrite lookup_update_proposal_ne. }
    assert (rooms db1 !! roomId = Some room) as Hr' by done.
    assert (events db1 !! uuid2 = None) as Hfresh2' by done.
    clearbody db1.
    eexists. split; [|split; [|split]].
    + unfold proposals_POST, insert_proposal, insert_event.
      route_run with (rewrite ?Hroom', ?Hactor', ?Hkind', ?Hhash', ?Haddr, ?Hq0', ?Hkind,
                        ?Hpre, ?Hlen, ?Hr', ?Hpart, ?Hsel, ?Hfresh1', ?Hrange, ?Hfresh2').
      reflexivity.
    + reflexivity.
    + simpl. apply lookup_insert_eq.
    + reflexivity.
Qed.

End CreateFacts.
Lemma create_unique_per_room_and_kind_witness :
  let db := Demo.db_with [Demo.proposal "p-1" operate pending ∅ (Demo.payload None "0" "0")] in
  (@proposals_POST Demo.platform 2000 "p-2" "e-2" (Demo.create_body Demo.Alice "operate" 100) db).2
  = apiError "An active operate proposal already exists in this room" 400
  ∧ (@proposals_POST Demo.platform 2000 "p-2" "e-2" (Demo.create_body Demo.Alice "operate" 100)
       (update_proposal "p-1" (with_status submitted) db)).2
    = apiOk (ProposalData (@new_proposal "p-2" "room-1" operate (Demo.payload None "0" "0")
                             Demo.hash 100 2000)) 201.
Proof.
  intros db.
  pose proof (@create_unique_per_room_and_kind Demo.platform 2000 "p-2" "e-2" "room-1"
                Demo.Alice "operate" Demo.hash operate (Demo.payload None "0" "0") 100
                db Demo.room "p-1"
                (Demo.proposal "p-1" operate pending ∅ (Demo.payload None "0" "0"))
                (with_status submitted)) as Hthm.
  destruct Hthm as (Hdup & _ & db2 & Hok & _).
  - discriminate.
  - discriminate.
  - vm_compute. reflexivity.
  - vm_compute. reflexivity.
  - vm_compute. reflexivity.
  - vm_compute. reflexivity.
  - lia.
  - vm_compute. reflexivity.
  - vm_compute. reflexivity.
  - vm_compute. reflexivity.
  - reflexivity.
  - reflexivity.
  - reflexivity.
  - apply (bool_decide_unpack (active_unique db)). vm_compute. exact I.
  - reflexivity.
  - vm_compute. reflexivity.
  - vm_compute. reflexivity.
  - split.
    + unfold Demo.create_body. rewrite Hdup. reflexivity.
    + unfold Demo.create_body. rewrite Hok. reflexivity.
Defined.
(* ===================================================================== *)
(** ** Invariants of the store *)
(* ===================================================================== *)

Section Invariants.
Context `{Platform}.

(** a room that the room route has stored has two distinct participants *)
Lemma rooms_POST_distinct_participants (now : Z) (uuid1 uuid2 : string) (body : RoomBody)
    (db db' : DB) (room : Room) (code : Z) :
  rooms_POST now uuid1 uuid2 body db = (db', apiOk (RoomData room) code) →
  normalizeAddress (participant_a room) ≠ normalizeAddress (participant_b room)
  ∧ rooms db' !! r_id room = Some room.
Proof.
  unfold rooms_POST, insert_room, insert_event. route_unfold.
  unfold room_required, apiOk, apiError.
  destruct body as [createdBy participantB assetSymbol chainId]. simpl.
  intros Hrun.
  repeat (case_match; simplify_eq/=; try done).
  split; [|apply lookup_insert_eq].
  rewrite !normalizeAddress_idem.
  match goal with
  | Hne : bool_decide (normalizeAddress _ = normalizeAddress _) = false |- _ =>
      by apply bool_decide_eq_false in Hne
  end.
Qed.

(** the partial unique index survives an insert that the storage accepts *)
Lemma insert_proposal_active_unique (p : Proposal) (db db' : DB) :
  active_unique db → insert_proposal p db = inr db' → active_unique db'.
Proof.
  intros Huniq. unfold insert_proposal.
  repeat case_match; try done. intros [= <-].
  assert (proposals db !! p_id p = None) as Hfresh.
  { apply eq_None_not_Some.
    match goal with
    | Hpk : bool_decide (is_Some _) = false |- _ => by apply bool_decide_eq_false in Hpk
    end. }
  assert (is_active (status p) = true →
          ∀ j q, proposals db !! j = Some q → is_active (status q) = true →
                 room_id p = room_id q → kind p = kind q → False) as Hnone.
  { intros Hact j q Hq Hqa Hr Hk.
    match goal with
    | Hsel : is_active _ && negb (bool_decide (select_active _ _ _ = [])) = false |- _ =>
        rewrite Hact in Hsel; simpl in Hsel;
        apply negb_false_iff, bool_decide_eq_true in Hsel
    end.
    destruct (select_active_found db (room_id p) (kind p) j q Hq) as (x & rest & Hx);
      [|congruence].
    apply active_of_kind_iff. done. }
  intros i x Hi j y Hj Hxa Hya Hr Hk. simpl in Hi, Hj.
  destruct (decide (p_id p = i)) as [<-|Hi'], (decide (p_id p = j)) as [<-|Hj']; [done|..].
  - rewrite lookup_insert_eq in Hi. rewrite lookup_insert_ne in Hj by done.
    injection Hi as <-. exfalso. by apply (Hnone Hxa j y).
  - rewrite lookup_insert_eq in Hj. rewrite lookup_insert_ne in Hi by done.
    injection Hj as <-. exfalso. by apply (Hnone Hya i x).
  - rewrite lookup_insert_ne in Hi, Hj by done.
    by apply (Huniq i x Hi j y Hj).
Qed.

(** and an update that keeps room and kind of the row and does not turn a
    terminal status into an active one *)
Lemma update_proposal_active_unique (id : string) (f : Proposal → Proposal) (db : DB) :
  (∀ p, proposals db !! id = Some p →
        room_id (f p) = room_id p ∧ kind (f p) = kind p
        ∧ (is_active (status (f p)) = true → is_active (status p) = true)) →
  active_unique db → active_unique (update_proposal id f db).
Proof.
  intros Hf Huniq i x Hi j y Hj Hxa Hya Hr Hk. simpl in Hi, Hj.
  assert (∀ k z, alter f id (proposals db) !! k = Some z →
            ∃ z0, proposals db !! k = Some z0 ∧ room_id z = room_id z0
                  ∧ kind z = kind z0
                  ∧ (is_active (status z) = true → is_active (status z0) = true)) as Hback.
  { intros k z Hz. destruct (decide (id = k)) as [<-|Hne].
    - rewrite lookup_alter_eq in Hz.
      destruct (proposals db !! id) as [z0|] eqn:Hz0; [|done].
      injection Hz as <-. exists z0. split; [done|]. by apply Hf.
    - rewrite lookup_alter_ne in Hz by done. by exists z. }
  destruct (Hback i x Hi) as (x0 & Hx0 & Hxr & Hxk & Hxact).
  destruct (Hback j y Hj) as (y0 & Hy0 & Hyr & Hyk & Hyact).
  apply (Huniq i x0 Hx0 j y0 Hy0); [by apply Hxact|by apply Hyact|congruence|congruence].
Qed.

(** creation keeps the index, whatever the request *)
Lemma proposals_POST_active_unique (now : Z) (uuid1 uuid2 : string) (body : CreateBody)
    (db : DB) :
  active_unique db → active_unique (proposals_POST now uuid1 uuid2 body db).1.
Proof.
  intros Huniq. unfold proposals_POST.
  set (run := respond _ db).
  assert (run.1 = db ∨ ∃ p db1, insert_proposal p db = inr db1
                                ∧ proposals run.1 = proposals db1) as Hshape.
  { subst run. unfold insert_event. route_unfold. unfold from_option.
    destruct body as [roomId actor_ kind_ payloadJson payloadHash quorum]. simpl.
    repeat (case_match; simplify_eq/=; try by left).
    all: right; eexists _, _; split; [eassumption|reflexivity]. }
  destruct Hshape as [->|(p & db1 & Hins & Hprops)]; [done|].
  unfold active_unique. rewrite Hprops.
  by apply (insert_proposal_active_unique p db db1).
Qed.

End Invariants.

(* ===================================================================== *)
(** ** Signing *)
(* ===================================================================== *)

Section SignFacts.
Context `{Platform}.

Lemma with_status_signatures_id (p : Proposal) :
  with_status (status p) (with_signatures (signatures_json p) p) = p.
Proof. by destruct p. Qed.

(** the successful path of the sign route *)
Lemma sign_POST_ok (now : Z) (uuid id wallet signature : string)
    (db : DB) (proposal : Proposal) (room : Room) :
  wallet ≠ "" → isAddress wallet = true → is_0x_hex signature = true →
  proposals db !! id = Some proposal → p_id proposal = id →
  is_active (status proposal) = true →
  now ≤ expires_at proposal →
  rooms db !! room_id proposal = Some room → r_id room = room_id proposal →
  isParticipant room wallet = true →
  assertWalletSignedHash (normalizeAddress wallet) (payload_hash proposal) signature
  = Returns tt →
  events db !! uuid = None →
  let p' := signed_proposal room (normalizeAddress wallet) signature proposal in
  let w := calculateSignedWeight room (signatures_json p') in
  ∃ db',
    sign_POST now uuid id {| sb_wallet := Some wallet; sb_signature := Some signature |} db
    = (db', apiOk (SignedData p' w) 200)
    ∧ proposals db' = <[id := p']> (proposals db)
    ∧ rooms db' = rooms db
    ∧ (∀ e, e ≠ uuid → events db' !! e = events db !! e).
Proof.
  intros Hw Haddr Hsig Hp Hid Hact Hexp Hr Hrid Hpart Hver Hfresh p' w.
  pose proof (truthy_ne _ Hw) as Hw'. pose proof (is_0x_hex_truthy _ Hsig) as Hs'.
  assert ((expires_at proposal <? now) = false) as Hexp' by lia.
  rewrite <-isParticipant_normalized in Hpart.
  assert (bool_decide (status proposal = submitted) || bool_decide (status proposal = failed)
          || bool_decide (status proposal = expired) = false) as Hst.
  { by destruct (status proposal). }
  eexists. split; [|split; [|split]].
  - unfold sign_POST, insert_event.
    route_run with (rewrite ?Hw', ?Hs', ?Haddr, ?Hsig, ?Hp, ?Hst, ?Hexp', ?Hr, ?Hpart,
                      ?Hver, ?Hid, ?lookup_alter_eq, ?Hfresh, ?Hrid).
    reflexivity.
  - simpl. apply map_eq. intros i. destruct (decide (id = i)) as [<-|Hne].
    + by rewrite lookup_alter_eq, lookup_insert_eq, Hp.
    + by rewrite lookup_alter_ne, lookup_insert_ne.
  - reflexivity.
  - intros e Hne. simpl. by rewrite lookup_insert_ne.
Qed.

Lemma signed_signatures_present (wallet signature : string) (signatures : gmap string string) :
  truthy signature = true →
  truthy_opt (signed_signatures wallet signature signatures !! wallet) = true.
Proof.
  intros Hs. unfold signed_signatures.
  destruct (truthy_opt (signatures !! wallet)) eqn:Hold; simpl; [done|].
  by rewrite lookup_insert_eq.
Qed.

(** signing again changes nothing in a proposal that holds a signature of
    the wallet *)
Lemma signed_proposal_again (room : Room) (wallet signature : string) (p : Proposal) :
  truthy_opt (signatures_json p !! wallet) = true →
  status p = (if required_quorum p <=? calculateSignedWeight room (signatures_json p)
              then ready else pending) →
  signed_proposal room wallet signature p = p.
Proof.
  intros Hheld Hst. unfold signed_proposal, signed_signatures. rewrite Hheld. simpl.
  rewrite <-Hst. apply with_status_signatures_id.
Qed.

(** C4.  For a pending or ready proposal that has not expired and a room
    participant with a valid signature, a second sign request of the same
    actor succeeds with the same answer as the first (the same proposal
    state and signed weight) and leaves the proposal table as the first
    request left it: the stored signature is kept and the weight and status
    do not move. *)
Theorem sign_twice_same_state (now1 now2 : Z) (uuid1 uuid2 id wallet sig1 sig2 : string)
    (db : DB) (proposal : Proposal) (room : Room) :
  wallet ≠ "" → isAddress wallet = true →
  is_0x_hex sig1 = true → is_0x_hex sig2 = true →
  proposals db !! id = Some proposal → p_id proposal = id →
  is_active (status proposal) = true →
  now1 ≤ expires_at proposal → now2 ≤ expires_at proposal →
  rooms db !! room_id proposal = Some room → r_id room = room_id proposal →
  isParticipant room wallet = true →
  assertWalletSignedHash (normalizeAddress wallet) (payload_hash proposal) sig1 = Returns tt →
  assertWalletSignedHash (normalizeAddress wallet) (payload_hash proposal) sig2 = Returns tt →
  events db !! uuid1 = None → events db !! uuid2 = None → uuid1 ≠ uuid2 →
  let once :=
    sign_POST now1 uuid1 id {| sb_wallet := Some wallet; sb_signature := Some sig1 |} db in
  let twice :=
    sign_POST now2 uuid2 id {| sb_wallet := Some wallet; sb_signature := Some sig2 |} once.1 in
  let p' := signed_proposal room (normalizeAddress wallet) sig1 proposal in
  once.2 = apiOk (SignedData p' (calculateSignedWeight room (signatures_json p'))) 200
  ∧ twice.2 = once.2
  ∧ proposals once.1 !! id = Some p'
  ∧ proposals twice.1 = proposals once.1
  ∧ rooms twice.1 = rooms once.1.
Proof.
  intros Hw Haddr Hs1 Hs2 Hp Hid Hact He1 He2 Hr Hrid Hpart Hv1 Hv2 Hf1 Hf2 Hne once twice p'.
  destruct (sign_POST_ok now1 uuid1 id wallet sig1 db proposal room)
    as (db1 & Hrun1 & Hprops1 & Hrooms1 & Hev1); try assumption.
  assert (proposals db1 !! id = Some p') as Hp1.
  { rewrite Hprops1. apply lookup_insert_eq. }
  assert (signed_proposal room (normalizeAddress wallet) sig2 p' = p') as Hagain.
  { subst p'. apply signed_proposal_again; [|reflexivity].
    apply signed_signatures_present. by apply is_0x_hex_truthy. }
  destruct (sign_POST_ok now2 uuid2 id wallet sig2 db1 p' room)
    as (db2 & Hrun2 & Hprops2 & Hrooms2 & Hev2); try assumption.
  { subst p'. unfold signed_proposal. cbn [status with_status]. by case_match. }
  { by rewrite Hrooms1. }
  { rewrite Hev1 by congruence. assumption. }
  rewrite Hagain in Hrun2, Hprops2.
  subst once twice. rewrite Hrun1. cbn [fst snd]. rewrite Hrun2. cbn [fst snd].
  split; [done|]. split; [done|]. split; [done|]. split; [|congruence].
  rewrite Hprops2. by apply insert_id.
Qed.

End SignFacts.

Lemma sign_twice_same_state_witness :
  let db := Demo.db_with [Demo.proposal "p-1" operate pending
                            {[ Demo.bob := Demo.sig_of Demo.bob ]}
                            (Demo.payload None "1" "2")] in
  let once := @sign_POST Demo.platform 2000 "e-1" "p-1"
                {| sb_wallet := Some Demo.Alice;
                   sb_signature := Some (Demo.sig_of Demo.alice) |} db in
  let twice := @sign_POST Demo.platform 3000 "e-2" "p-1"
                 {| sb_wallet := Some Demo.Alice;
                    sb_signature := Some (Demo.sig_of Demo.Alice) |} once.1 in
  twice.2 = once.2 ∧ proposals twice.1 = proposals once.1.
Proof.
  intros db once twice.
  pose proof (@sign_twice_same_state Demo.platform 2000 3000 "e-1" "e-2" "p-1" Demo.Alice
                (Demo.sig_of Demo.alice) (Demo.sig_of Demo.Alice) db
                (Demo.proposal "p-1" operate pending {[ Demo.bob := Demo.sig_of Demo.bob ]}
                   (Demo.payload None "1" "2"))
                Demo.room) as Hthm.
  destruct Hthm as (_ & Hresp & _ & Hprops & _).
  - discriminate.
  - vm_compute. reflexivity.
  - vm_compute. reflexivity.
  - vm_compute. reflexivity.
  - vm_compute. reflexivity.
  - reflexivity.
  - reflexivity.
  - vm_compute. discriminate.
  - vm_compute. discriminate.
  - vm_compute. reflexivity.
  - reflexivity.
  - vm_compute. reflexivity.
  - vm_compute. reflexivity.
  - vm_compute. reflexivity.
  - vm_compute. reflexivity.
  - vm_compute. reflexivity.
  - discriminate.
  - split; [exact Hresp | exact Hprops].
Defined.

Section QuorumFacts.
Context `{Platform}.



Lemma signerAddresses_insert_normalized (signatures : gmap string string) (wallet v : string) :
  signerAddresses (<[normalizeAddress wallet := v]> signatures)
  = {[ normalizeAddress wallet ]} ∪ signerAddresses signatures.
Proof. by rewrite signerAddresses_insert, normalizeAddress_idem. Qed.


End QuorumFacts.



Section ExpireFacts.

(** C10 (as the code has it).  The sweep endpoint answers [Unauthorized]
    exactly when [CRON_SECRET] holds a non-empty value and neither the
    [x-cron-secret] header nor the bearer token equals it, and then it
    changes nothing.  When [CRON_SECRET] is unset or empty every caller is
    let through: each pending or ready proposal past its expiry becomes
    expired and every other row stays as it is. *)
Theorem expire_unauthorized_iff (now : Z) (CRON_SECRET x_cron_secret authorization : option string)
    (db : DB) :
  let run := expire_POST now CRON_SECRET x_cron_secret authorization db in
  (run.2 = apiError "Unauthorized" 401 ↔
     ∃ s, CRON_SECRET = Some s ∧ s ≠ "" ∧ x_cron_secret ≠ Some s
          ∧ bearerToken authorization ≠ Some s)
  ∧ (run.2 = apiError "Unauthorized" 401 → run.1 = db)
  ∧ (truthy_opt CRON_SECRET = false →
       (∃ n, run.2 = apiOk (ExpiredData n) 200)
       ∧ ∀ id p, proposals db !! id = Some p →
           proposals run.1 !! id
           = Some (if is_active (status p) && (expires_at p <? now)
                   then with_status expired p else p)).
Proof.
  intros run. subst run. unfold expire_POST. route_unfold. simpl.
  destruct (unauthorized CRON_SECRET x_cron_secret (bearerToken authorization)) eqn:Hun; simpl.
  - split; [|split].
    + split; [intros _|done].
      unfold unauthorized in Hun. destruct CRON_SECRET as [s|]; [|done].
      apply andb_true_iff in Hun as [Hun Hb]. apply andb_true_iff in Hun as [Ht Hx].
      apply negb_true_iff, bool_decide_eq_false in Hb, Hx.
      exists s. split; [done|]. split; [by destruct s|]. done.
    + done.
    + intros Hunset. unfold unauthorized in Hun.
      destruct CRON_SECRET as [s|]; [|done]. simpl in Hunset. by rewrite Hunset in Hun.
  - split; [|split].
    + split; [done|]. intros (s & -> & Hs & Hx & Hb). unfold unauthorized in Hun.
      rewrite (truthy_ne _ Hs), !bool_decide_eq_false_2 in Hun by done. done.
    + done.
    + intros _. split; [by eexists|].
      intros id p Hp. rewrite lookup_fmap, Hp. done.
Qed.

Lemma expire_unauthorized_iff_witness :
  (expire_POST 90000000 (Some "s3cret") (Some "guess") (Some "Bearer nope")
     (Demo.db_with [])).2 = apiError "Unauthorized" 401
  ∧ ∃ n, (expire_POST 90000000 None None None (Demo.db_with [])).2 = apiOk (ExpiredData n) 200.
Proof.
  split.
  - apply (expire_unauthorized_iff 90000000 (Some "s3cret") (Some "guess") (Some "Bearer nope")
             (Demo.db_with [])).
    exists "s3cret". split; [reflexivity|]. split; [discriminate|].
    split; [discriminate|vm_compute; discriminate].
  - apply (expire_unauthorized_iff 90000000 None None None (Demo.db_with [])). reflexivity.
Defined.

(** C10, the claim as stated fails: [CRON_SECRET] is set, to the empty
    string; a request without any credential is let through and the sweep
    runs. *)
Lemma expire_empty_secret_counterexample :
  let db := Demo.db_with [Demo.proposal "p-1" operate pending ∅ (Demo.payload None "1" "2")] in
  let run := expire_POST 90000000 (Some "") None None db in
  run.2 = apiOk (ExpiredData 1) 200
  ∧ run.2 ≠ apiError "Unauthorized" 401
  ∧ status <$> proposals run.1 !! "p-1" = Some expired.
Proof. vm_compute. split; [reflexivity|]. split; [discriminate|reflexivity]. Qed.

(** the sweep leaves a proposal in a terminal status as it is *)
Lemma expire_keeps_terminal (now : Z) (secret x auth : option string) (db : DB)
    (id : string) (p : Proposal) :
  proposals db !! id = Some p → is_terminal (status p) = true →
  proposals (expire_POST now secret x auth db).1 !! id = Some p.
Proof.
  intros Hp Hterm. unfold expire_POST. route_unfold. simpl.
  destruct (unauthorized _ _ _); simpl; [done|].
  rewrite lookup_fmap, Hp. simpl. unfold sweepable.
  by rewrite (terminal_not_active _ Hterm).
Qed.

End ExpireFacts.

Section TerminalFacts.
Context `{Platform}.

(** the sign route refuses a proposal in a terminal status and writes
    nothing *)
Lemma sign_terminal_rejected (now : Z) (uuid id : string) (body : SignBody)
    (db : DB) (p : Proposal) :
  proposals db !! id = Some p → is_terminal (status p) = true →
  ∃ message code, sign_POST now uuid id body db = (db, apiError message code).
Proof.
  intros Hp Hterm. unfold sign_POST. route_unfold. destruct body as [wallet signature].
  simpl.
  repeat (case_match; simplify_eq/=; try by eexists _, _).
  all: by destruct (status p).
Qed.

(** a [submitted] report for a proposal in a terminal status, before its
    expiry, is refused and writes nothing *)
Lemma submit_submitted_terminal_rejected (now : Z) (uuid id : string) (body : SubmitBody)
    (db : DB) (p : Proposal) :
  proposals db !! id = Some p → is_terminal (status p) = true →
  now ≤ expires_at p →
  sub_outcome body = None ∨ sub_outcome body = Some "submitted" →
  ∃ message code, submit_POST now uuid id body db = (db, apiError message code).
Proof.
  intros Hp Hterm Hexp Hout. unfold submit_POST. route_unfold.
  assert ((expires_at p <? now) = false) as Hexp' by lia.
  assert (bool_decide (status p = ready) = false) as Hst.
  { apply bool_decide_eq_false. by destruct (status p). }
  destruct body as [wallet outcome sdkResult appSessionId error]. simpl in *.
  destruct wallet as [w|]; simpl; [|by eexists _, _].
  destruct (truthy w); simpl; [|by eexists _, _].
  destruct (isAddress w); simpl; [|by eexists _, _].
  destruct Hout as [-> | ->]; simpl; rewrite Hp; simpl; rewrite Hexp'; simpl.
  all: destruct (rooms db !! room_id p) as [room|]; simpl; [|by eexists _, _].
  all: destruct (isParticipant room _); simpl; [|by eexists _, _].
  all: rewrite Hst; simpl; by eexists _, _.
Qed.

End TerminalFacts.


Section SubmitFacts.
Context `{Platform} `{SessionService}.

(** the [failed] report of a participant before the expiry of the
    proposal: the route stores status [failed] and the error *)
Lemma submit_POST_failed_ok (now : Z) (uuid id wallet message : string)
    (db : DB) (p : Proposal) (room : Room) :
  wallet ≠ "" → isAddress wallet = true →
  proposals db !! id = Some p → p_id p = id →
  now ≤ expires_at p →
  rooms db !! room_id p = Some room → r_id room = room_id p →
  isParticipant room wallet = true →
  events db !! uuid = None →
  let p' := with_sdk_result
              (Some (if truthy message then SdkErrorResult message else SdkEmptyResult))
              (with_status failed p) in
  ∃ db',
    submit_POST now uuid id
      {| sub_wallet := Some wallet; sub_outcome := Some "failed"; sub_sdkResult := None;
         sub_appSessionId := None; sub_error := Some message |} db
    = (db', apiOk (ProposalData p') 200)
    ∧ proposals db' = <[id := p']> (proposals db)
    ∧ rooms db' = rooms db.
Proof.
  intros Hw Haddr Hp Hid Hexp Hr Hrid Hpart Hfresh p'.
  pose proof (truthy_ne _ Hw) as Hw'.
  assert ((expires_at p <? now) = false) as Hexp' by lia.
  rewrite <-isParticipant_normalized in Hpart.
  eexists. split; [|split].
  - unfold submit_POST, insert_event.
    route_run with (rewrite ?Hw', ?Haddr, ?Hp, ?Hexp', ?Hr, ?Hpart, ?Hid,
                      ?lookup_alter_eq, ?Hfresh, ?Hrid).
    reflexivity.
  - simpl. apply map_eq. intros i. destruct (decide (id = i)) as [<-|Hne].
    + by rewrite lookup_alter_eq, lookup_insert_eq, Hp.
    + by rewrite lookup_alter_ne, lookup_insert_ne.
  - reflexivity.
Qed.

(** C5 (as the code has it).  When the session service call of
    [submitProposal] throws, a connection-class error leaves the store as it
    is, so the proposal stays ready and no failed outcome is recorded; so
    does an error of the missing-home-channel class.  Any other error is
    reported as [failed]: for a participant and a proposal before its expiry
    the stored status becomes failed and the error message is recorded. *)
Theorem submit_failure_recoverable_or_failed (now1 now2 : Z) (uuid1 uuid2 : string)
    (cs : ClientState) (proposal : Proposal) (refresh : Throws unit) (db : DB)
    (error : Thrown) (stored : Proposal) (room : Room) :
  Object_values (signatures_json proposal) ≠ [] →
  callSessionService cs proposal (Object_values (signatures_json proposal)) = Raises error →
  let after := (submitProposal now1 now2 uuid1 uuid2 cs proposal refresh db).1 in
  (isRetryableSubmitError error = true → after = db)
  ∧ (isMissingHomeChannelForDeposit error = true → after = db)
  ∧ (isRetryableSubmitError error = false →
     isMissingHomeChannelForDeposit error = false →
     walletAddress cs ≠ "" → isAddress (walletAddress cs) = true →
     proposals db !! p_id proposal = Some stored → p_id stored = p_id proposal →
     now2 ≤ expires_at stored →
     rooms db !! room_id stored = Some room → r_id room = room_id stored →
     isParticipant room (walletAddress cs) = true →
     events db !! uuid2 = None →
     let message := message_or "Submission failed" error in
     proposals after !! p_id proposal
     = Some (with_sdk_result
               (Some (if truthy message then SdkErrorResult message else SdkEmptyResult))
               (with_status failed stored))).
Proof.
  intros Hsigs Hcall after. subst after. unfold submitProposal.
  rewrite bool_decide_eq_false_2
    by (intros Hlen; apply Hsigs; by destruct (Object_values _)).
  rewrite Hcall. unfold submitProposal_catch. cbn [fst].
  split; [|split].
  - by intros ->.
  - intros ->. by rewrite orb_true_r.
  - intros -> -> Hw Haddr Hp Hid Hexp Hr Hrid Hpart Hfresh. cbn [orb negb].
    destruct (submit_POST_failed_ok now2 uuid2 (p_id proposal) (walletAddress cs)
                (message_or "Submission failed" error) db stored room)
      as (db' & -> & Hprops & _); try assumption.
    cbn [fst]. rewrite Hprops. apply lookup_insert_eq.
Qed.

End SubmitFacts.

Lemma submit_failure_recoverable_or_failed_witness :
  let p := Demo.proposal "p-1" operate ready Demo.both_signed (Demo.payload None "1" "2") in
  let db := Demo.db_with [p] in
  (submitProposal (H := Demo.platform)
     (H0 := Demo.failing (ErrorObject "WebSocket connection closed"))
     2000 2000 "e-1" "e-2" (Demo.client Demo.Alice [p]) p (Returns tt) db).1 = db
  ∧ status <$> proposals
      (submitProposal (H := Demo.platform)
         (H0 := Demo.failing (ErrorObject "insufficient allowance"))
         2000 2000 "e-1" "e-2" (Demo.client Demo.Alice [p]) p (Returns tt) db).1 !! "p-1"
    = Some failed.
Proof.
  intros p db. split.
  - pose proof (@submit_failure_recoverable_or_failed Demo.platform
             (Demo.failing (ErrorObject "WebSocket connection closed"))
             2000 2000 "e-1" "e-2" (Demo.client Demo.Alice [p]) p (Returns tt) db
             (ErrorObject "WebSocket connection closed") p Demo.room) as Hthm.
    destruct Hthm as (Hsame & _).
    + vm_compute. discriminate.
    + vm_compute. reflexivity.
    + apply Hsame. vm_compute. reflexivity.
  - pose proof (@submit_failure_recoverable_or_failed Demo.platform
             (Demo.failing (ErrorObject "insufficient allowance"))
             2000 2000 "e-1" "e-2" (Demo.client Demo.Alice [p]) p (Returns tt) db
             (ErrorObject "insufficient allowance") p Demo.room) as Hthm.
    destruct Hthm as (_ & _ & Hfailed).
    + vm_compute. discriminate.
    + vm_compute. reflexivity.
    + match goal with
      | |- status <$> ?m !! _ = _ => change (status <$> m !! p_id p = Some failed)
      end.
      rewrite Hfailed.
      * reflexivity.
      * vm_compute. reflexivity.
      * vm_compute. reflexivity.
      * discriminate.
      * vm_compute. reflexivity.
      * vm_compute. reflexivity.
      * reflexivity.
      * vm_compute. discriminate.
      * vm_compute. reflexivity.
      * reflexivity.
      * vm_compute. reflexivity.
      * vm_compute. reflexivity.
Defined.

(** C5, the claim as stated fails: the session service refuses the state
    with an error that is no connection-class error, and the proposal is
    not set to failed: it stays ready and no result is recorded. *)
Lemma submit_missing_channel_counterexample :
  let p := Demo.proposal "p-1" operate ready Demo.both_signed (Demo.payload None "1" "2") in
  let db := Demo.db_with [p] in
  let error := ErrorObject "no channel exists for asset usdc" in
  let after := (submitProposal (H := Demo.platform) (H0 := Demo.failing error)
                  2000 2000 "e-1" "e-2" (Demo.client Demo.Alice [p]) p (Returns tt) db).1 in
  isRetryableSubmitError error = false
  ∧ callSessionService (H := Demo.platform) (H0 := Demo.failing error)
      (Demo.client Demo.Alice [p]) p (Object_values (signatures_json p)) = Raises error
  ∧ status <$> proposals after !! "p-1" = Some ready
  ∧ sdk_result_json <$> proposals after !! "p-1" = Some None.
Proof. vm_compute. done. Qed.

Section DepositFacts.
Context `{Platform} `{SessionService}.

(** [activeDepositSubmitter] stops at the first participant that
    [submitProposal] collects *)
Lemma firstIncrease_head (base : gmap string Z) (l : list RPCAppSessionAllocation)
    (deltas : list (string * string)) :
  positiveDeltas base l = Returns deltas →
  firstIncrease base l = Returns (head deltas.*1).
Proof.
  revert deltas. induction l as [|allocation rest IH]; intros deltas; simpl.
  - by intros [= <-].
  - destruct (increases base allocation) as [up|e]; simpl; [|done].
    destruct (positiveDeltas base rest) as [tl|e]; simpl; [|by destruct up].
    intros [= <-]. destruct up; [done|]. by apply IH.
Qed.

Lemma positiveParticipants_singleton_head (deltas : list (string * string)) (d : string) :
  positiveParticipants deltas = {[ d ]} → head deltas.*1 = Some d.
Proof.
  unfold positiveParticipants. destruct deltas as [|[x a] tl]; simpl.
  - intros Hempty. exfalso. assert (d ∈ (∅ : gset string)) as Hin; [|set_solver].
    rewrite Hempty. set_solver.
  - intros Hset. f_equal. assert (x ∈ ({[ d ]} : gset string)) as Hin; [|set_solver].
    rewrite <-Hset. set_solver.
Qed.

(** C6 (as the code has it).  For an operate proposal whose intent is a
    deposit, [submitProposal] collects the participants whose allocation
    strictly increases over the current session allocations.  When that set
    has exactly one member, it is the required submitter:
    [activeDepositSubmitter] names it, and a submission by any other wallet
    throws; the depositor goes on to the channel check.  When the set is
    empty or has several members, the guard raises nothing and the state is
    sent to the session service. *)
Theorem deposit_guard_single_depositor (cs : ClientState) (proposal : Proposal)
    (signatures : list string) (base : gmap string Z)
    (payload_allocations : list RPCAppSessionAllocation) (deltas : list (string * string)) :
  kind proposal = operate →
  is_deposit (payload_json proposal) = true →
  allocations (payload_json proposal) = Some payload_allocations →
  baseByParticipant cs = Returns base →
  positiveDeltas base payload_allocations = Returns deltas →
  let increased := positiveParticipants deltas in
  (∀ d, increased = {[ d ]} →
     (activeProposal (cached_proposals cs) = Some proposal →
      activeDepositSubmitter cs = Returns (Some d))
     ∧ (normalizeAddress (walletAddress cs) ≠ d →
        callSessionService cs proposal signatures = Raises only_depositor)
     ∧ (normalizeAddress (walletAddress cs) = d →
        ∃ depositAsset,
          callSessionService cs proposal signatures
          = (_ <~ ensureWalletCanSubmitSessionDeposit cs depositAsset ;;
             result <~ submitAppState (payload_json proposal) signatures ;;
             Returns (result, None))))
  ∧ (size increased ≠ 1%nat →
     callSessionService cs proposal signatures
     = (result <~ submitAppState (payload_json proposal) signatures ;;
        Returns (result, None))).
Proof.
  intros Hkind Hdep Hallocs Hbase Hdeltas increased.
  unfold callSessionService, depositGuard. rewrite Hkind, Hdep, Hbase, Hallocs.
  cbn [andThen from_option]. rewrite Hdeltas. cbn [andThen]. fold increased.
  split.
  - intros d Hd. rewrite Hd, size_singleton. rewrite !bool_decide_eq_true_2 by done.
    split; [|split].
    + intros Hactive. unfold activeDepositSubmitter.
      rewrite Hactive, Hkind, Hallocs, Hdep, Hbase. cbn [andThen negb bool_decide].
      rewrite bool_decide_eq_true_2 by done. cbn [negb].
      rewrite (firstIncrease_head _ _ _ Hdeltas).
      by rewrite (positiveParticipants_singleton_head _ _ Hd).
    + intros Hne. rewrite bool_decide_eq_false_2 by set_solver. done.
    + intros Heq. rewrite bool_decide_eq_true_2 by set_solver. cbn [negb andb].
      by eexists.
  - intros Hsize. rewrite !bool_decide_eq_false_2 by done. done.
Qed.

End DepositFacts.

Lemma deposit_guard_single_depositor_witness :
  let p := Demo.proposal "p-1" operate ready Demo.both_signed
             (Demo.payload (Some "deposit") "5" "0") in
  callSessionService (H := Demo.platform) (H0 := Demo.accepting)
    (Demo.client Demo.bob [p]) p (Object_values (signatures_json p))
  = Raises only_depositor
  ∧ activeDepositSubmitter (H := Demo.platform) (Demo.client Demo.bob [p])
    = Returns (Some Demo.alice).
Proof.
  intros p.
  pose proof (@deposit_guard_single_depositor Demo.platform Demo.accepting
                (Demo.client Demo.bob [p]) p (Object_values (signatures_json p))
                (new_Map [(Demo.alice ++ "::usdc", 0); (Demo.bob ++ "::usdc", 0)])
                [ {| participant := Demo.alice; asset := "usdc"; amount := "5" |};
                  {| participant := Demo.bob; asset := "usdc"; amount := "0" |} ]
                [(Demo.alice, "usdc")]) as Hthm.
  destruct Hthm as (Hone & _).
  - vm_compute. reflexivity.
  - vm_compute. reflexivity.
  - vm_compute. reflexivity.
  - vm_compute. reflexivity.
  - vm_compute. reflexivity.
  - destruct (Hone Demo.alice) as (Hnamed & Hother & _).
    + vm_compute. reflexivity.
    + split.
      * apply Hother. vm_compute. discriminate.
      * apply Hnamed. vm_compute. reflexivity.
Defined.

(** C6, the claim as stated fails: with the allocations of both
    participants increasing, and with none increasing, no depositor error is
    raised; the state goes to the session service and the proposal ends
    submitted. *)
Lemma deposit_guard_ambiguous_counterexample :
  let both := Demo.proposal "p-1" operate ready Demo.both_signed
                (Demo.payload (Some "deposit") "5" "7") in
  let none := Demo.proposal "p-1" operate ready Demo.both_signed
                (Demo.payload (Some "deposit") "0" "0") in
  let run p := submitProposal (H := Demo.platform) (H0 := Demo.accepting)
                 2000 2000 "e-1" "e-2" (Demo.client Demo.bob [p]) p (Returns tt)
                 (Demo.db_with [p]) in
  callSessionService (H := Demo.platform) (H0 := Demo.accepting)
    (Demo.client Demo.bob [both]) both (Object_values (signatures_json both))
  = Returns ("state accepted", None)
  ∧ status <$> proposals (run both).1 !! "p-1" = Some submitted
  ∧ callSessionService (H := Demo.platform) (H0 := Demo.accepting)
      (Demo.client Demo.bob [none]) none (Object_values (signatures_json none))
    = Returns ("state accepted", None)
  ∧ status <$> proposals (run none).1 !! "p-1" = Some submitted.
Proof. vm_compute. done. Qed.

(* ===================================================================== *)
(** ** Further properties of the routes *)
(* ===================================================================== *)

(** follow a handler along its branches, innermost test first *)
Ltac route_branch :=
  match goal with
  | |- context [match ?x with _ => _ end] =>
      lazymatch x with
      | context [match _ with _ => _ end] => fail
      | _ => destruct x eqn:?
      end
  end.

Ltac route_cases :=
  route_unfold; unfold from_option; simpl; repeat (route_branch; simpl).

Lemma not_terminal_active (s : ProposalStatus) :
  bool_decide (s = submitted) || bool_decide (s = failed) || bool_decide (s = expired) = false →
  is_active s = true.
Proof. by destruct s. Qed.

Lemma alter_as_insert {A} (f : A → A) (m : gmap string A) (i : string) (x : A) :
  m !! i = Some x → alter f i m = <[i := f x]> m.
Proof.
  intros Hx. apply map_eq. intros j. destruct (decide (i = j)) as [<-|Hne].
  - by rewrite lookup_alter_eq, lookup_insert_eq, Hx.
  - by rewrite lookup_alter_ne, lookup_insert_ne.
Qed.

Section SignCases.
Context `{Platform}.

(** the three ways a sign request can end *)
Lemma sign_POST_cases (now : Z) (uuid id : string) (body : SignBody) (db : DB) :
  proposals_keyed db →
  let run := sign_POST now uuid id body db in
  (run.1 = db ∧ ∃ message code, run.2 = apiError message code)
  ∨ (∃ p, proposals db !! id = Some p ∧ is_active (status p) = true
          ∧ expires_at p < now
          ∧ run = (update_proposal id (with_status expired) db,
                   apiError "Proposal expired" 400))
  ∨ (∃ p room w signature,
       sb_wallet body = Some w ∧ sb_signature body = Some signature
       ∧ is_0x_hex signature = true
       ∧ proposals db !! id = Some p ∧ is_active (status p) = true
       ∧ now ≤ expires_at p
       ∧ rooms db !! room_id p = Some room
       ∧ isParticipant room w = true
       ∧ assertWalletSignedHash (normalizeAddress w) (payload_hash p) signature = Returns tt
       ∧ proposals run.1
         = <[id := signed_proposal room (normalizeAddress w) signature p]> (proposals db)
       ∧ rooms run.1 = rooms db).
Proof.
  intros Hkeyed run. subst run.
  unfold sign_POST, insert_event. destruct body as [w s]. route_cases.
  all: try (left; split; [reflexivity|by eexists _, _]).
  all: match goal with
       | Hk : proposals_keyed _, Hp : proposals _ !! _ = Some _ |- _ =>
           pose proof (Hk _ _ Hp) as Hid; simpl in Hid; rewrite Hid in *
       end.
  all: match goal with
       | Hst : _ || _ || _ = false |- _ => apply not_terminal_active in Hst
       end.
  all: repeat match goal with
              | Hn : negb _ = false |- _ => apply negb_false_iff in Hn
              | Hn : negb _ = true |- _ => apply negb_true_iff in Hn
              | u : unit |- _ => destruct u
              end.
  all: rewrite ?isParticipant_normalized in *.
  1: { right; left. eexists. split; [reflexivity|]. split; [done|]. split; [lia|done]. }
  all: right; right; eexists _, _, _, _.
  all: repeat (split; [first [reflexivity | eassumption | lia]|]).
  all: split; [|reflexivity].
  all: simpl; erewrite alter_as_insert by eassumption.
  all: unfold signed_proposal, signed_signatures.
  all: repeat (match goal with
               | Hb : ?c = _ |- context [?c] => rewrite Hb
               end; simpl).
  all: reflexivity.
Qed.

End SignCases.

Section SubmitCases.
Context `{Platform}.

Ltac decide_literals :=
  first [ rewrite bool_decide_eq_true_2 by done
        | rewrite bool_decide_eq_false_2 by done ].

(** the ways a submit report can end *)
Lemma submit_POST_cases (now : Z) (uuid id : string) (body : SubmitBody) (db : DB) :
  proposals_keyed db → rooms_keyed db →
  let run := submit_POST now uuid id body db in
  (run.1 = db ∧ ∃ message code, run.2 = apiError message code)
  ∨ (∃ p, proposals db !! id = Some p ∧ expires_at p < now
          ∧ run = (update_proposal id (with_status expired) db,
                   apiError "Proposal expired" 400))
  ∨ (∃ p room w next,
       sub_wallet body = Some w
       ∧ proposals db !! id = Some p ∧ now ≤ expires_at p
       ∧ rooms db !! room_id p = Some room ∧ isParticipant room w = true
       ∧ (next = submitted ∧ status p = ready
            ∧ (sub_outcome body = None ∨ sub_outcome body = Some "submitted")
            ∧ rooms run.1
              = <[room_id p := applied_room (kind p) (sub_appSessionId body) room]> (rooms db)
          ∨ next = failed
            ∧ (sub_outcome body = Some "failed" ∨ sub_outcome body = Some "")
            ∧ rooms run.1 = rooms db)
       ∧ proposals run.1
         = <[id := with_sdk_result (Some (reported_result body)) (with_status next p)]>
             (proposals db)).
Proof.
  intros Hkeyed Hrooms run. subst run.
  unfold submit_POST, insert_event.
  destruct body as [w outcome sdkResult appSessionId error].
  unfold reported_result. cbn [sub_wallet sub_outcome sub_sdkResult sub_appSessionId sub_error].
  set (result := match sdkResult with
                 | Some r => SdkResult r
                 | None => match error with
                           | Some e => if truthy e then SdkErrorResult e else SdkEmptyResult
                           | None => SdkEmptyResult
                           end
                 end).
  clearbody result.
  assert (outcome = None ∨ outcome = Some "submitted" ∨ outcome = Some "failed"
          ∨ outcome = Some ""
          ∨ truthy_opt outcome && negb (bool_decide (outcome = Some "submitted"))
            && negb (bool_decide (outcome = Some "failed")) = true) as Hclass.
  { destruct outcome as [o|]; [|by left].
    destruct (decide (o = "submitted")) as [->|]; [by right; left|].
    destruct (decide (o = "failed")) as [->|]; [by right; right; left|].
    destruct (decide (o = "")) as [->|]; [by right; right; right; left|].
    right; right; right; right.
    rewrite !bool_decide_eq_false_2 by congruence. by destruct o. }
  destruct Hclass as [->|[->|[->|[->|Hbad]]]].
  5: { route_unfold. simpl. rewrite Hbad.
       repeat (simpl; route_branch).
       all: left; split; [reflexivity|by eexists _, _]. }
  all: route_unfold; unfold from_option;
       repeat (simpl; first [decide_literals | route_branch]).
  all: try (left; split; [reflexivity|by eexists _, _]).
  all: match goal with
       | Hk : proposals_keyed _, Hp : proposals _ !! _ = Some _ |- _ =>
           pose proof (Hk _ _ Hp) as Hid; simpl in Hid; rewrite Hid in *
       end.
  all: try match goal with
       | Hk : rooms_keyed _, Hr : rooms _ !! _ = Some _ |- _ =>
           pose proof (Hk _ _ Hr) as Hrid; simpl in Hrid; rewrite Hrid in *
       end.
  all: repeat match goal with
              | Hn : negb _ = false |- _ => apply negb_false_iff in Hn
              | Hn : negb _ = true |- _ => apply negb_true_iff in Hn
              | Hn : bool_decide _ = true |- _ => apply bool_decide_eq_true in Hn
              | Hn : bool_decide _ = false |- _ => apply bool_decide_eq_false in Hn
              | Hn : _ && _ = true |- _ => apply andb_true_iff in Hn as [? ?]
              end.
  all: rewrite ?isParticipant_normalized in *.
  all: try (right; left; eexists; split; [reflexivity|]; split; [lia|done]).
  all: try congruence.
  all: try match goal with
           | Hn : alter _ ?i ?m !! ?i = None, Hp : ?m !! ?i = Some _ |- _ =>
               rewrite lookup_alter_eq, Hp in Hn; discriminate Hn
           end.
  all: right; right; eexists _, _, _, _.
  all: split; [reflexivity|]; split; [reflexivity|]; split; [lia|];
       split; [eassumption|]; split; [assumption|].
  all: cbn [fst snd]; simpl.
  all: split; [|erewrite alter_as_insert by eassumption; reflexivity].
  all: first
         [ right; split; [reflexivity|]; split; [by (left + right)|reflexivity]
         | left; split; [reflexivity|]; split; [assumption|];
           split; [by (left + right)|] ].
  all: unfold applied_room; destruct (kind _) eqn:?; try congruence.
  all: repeat match goal with
              | Hb : bool_decide _ && _ = false |- _ =>
                  first [ rewrite bool_decide_eq_true_2 in Hb by done
                        | rewrite bool_decide_eq_false_2 in Hb by done ];
                  simpl in Hb
              end.
  all: try done.
  all: repeat match goal with
              | Hb : truthy_opt _ = _ |- _ => rewrite Hb
              end.
  all: first [ erewrite alter_as_insert by eassumption; reflexivity
             | symmetry; by apply insert_id ].
Qed.

End SubmitCases.

Lemma insert_proposal_inr (p : Proposal) (db db1 : DB) :
  insert_proposal p db = inr db1 →
  proposals db !! p_id p = None
  ∧ proposals db1 = <[p_id p := p]> (proposals db)
  ∧ rooms db1 = rooms db ∧ events db1 = events db
  ∧ int4_range (required_quorum p) = true.
Proof.
  unfold insert_proposal. repeat case_match; try done. intros [= <-].
  split; [|split; [done|split; [done|split; [done|]]]].
  - apply eq_None_not_Some.
    match goal with
    | Hpk : bool_decide (is_Some _) = false |- _ => by apply bool_decide_eq_false in Hpk
    end.
  - match goal with
    | Hr : negb (int4_range _) = false |- _ => by apply negb_false_iff in Hr
    end.
Qed.

Lemma take_1_empty {A} (l : list A) : ¬ (0 < length (take 1 l))%nat → l = [].
Proof. destruct l; simpl; [done|lia]. Qed.

Section CreateCases.
Context `{Platform}.

(** the ways a creation request can end: nothing written, or the new row
    written (with or without its event) *)
Lemma proposals_POST_cases (now : Z) (uuid1 uuid2 : string) (body : CreateBody) (db : DB) :
  let run := proposals_POST now uuid1 uuid2 body db in
  (run.1 = db ∧ ∃ message code, run.2 = apiError message code)
  ∨ (∃ roomId actor_ kindName k payloadJson payloadHash quorum room db1,
       cb_roomId body = Some roomId ∧ cb_actor body = Some actor_
       ∧ cb_kind body = Some kindName ∧ isValidKind kindName = Some k
       ∧ cb_payloadJson body = Some payloadJson
       ∧ cb_payloadHash body = Some payloadHash
       ∧ cb_requiredQuorum body = Some (Integer quorum) ∧ 0 < quorum
       ∧ isAddress actor_ = true
       ∧ startsWith payloadHash "0x" = true ∧ String.length payloadHash = 66%nat
       ∧ rooms db !! roomId = Some room ∧ isParticipant room actor_ = true
       ∧ select_active roomId k db = []
       ∧ insert_proposal
           (new_proposal uuid1 roomId k payloadJson payloadHash quorum now) db = inr db1
       ∧ proposals run.1 = proposals db1 ∧ rooms run.1 = rooms db
       ∧ (events db !! uuid2 = None →
          run.2 = apiOk (ProposalData
                    (new_proposal uuid1 roomId k payloadJson payloadHash quorum now)) 201)).
Proof.
  intros run. subst run.
  unfold proposals_POST, insert_event.
  destruct body as [roomId actor_ kind_ payloadJson payloadHash quorum]. route_cases.
  all: try (left; split; [reflexivity|by eexists _, _]).
  all: repeat match goal with
              | Hn : negb _ = false |- _ => apply negb_false_iff in Hn
              | Hn : _ || _ = false |- _ => apply orb_false_iff in Hn as [? ?]
              | Hn : bool_decide _ = true |- _ => apply bool_decide_eq_true in Hn
              | Hn : bool_decide _ = false |- _ => apply bool_decide_eq_false in Hn
              end.
  all: rewrite ?isParticipant_normalized in *.
  all: right; eexists _, _, _, _, _, _, _, _, _.
  all: repeat (split; [first [reflexivity | eassumption | lia]|]).
  all: match goal with
       | Hins : insert_proposal _ _ = inr _ |- _ =>
           pose proof (insert_proposal_inr _ _ _ Hins) as (_ & _ & Hrooms & Hevents & _)
       end.
  all: split; [by apply take_1_empty|].
  all: split; [eassumption|]. all: split; [reflexivity|]. all: split; [done|].
  all: intros Hfresh; try reflexivity.
  all: rewrite ?Hrooms, ?Hevents in *.
  - exfalso. match goal with Hs : is_Some _ |- _ => rewrite Hfresh in Hs; by destruct Hs end.
  - congruence.
Qed.
End CreateCases.

Section RoomCases.
Context `{Platform}.

(** the ways a room request can end *)
Lemma rooms_POST_cases (now : Z) (uuid1 uuid2 : string) (body : RoomBody) (db : DB) :
  let run := rooms_POST now uuid1 uuid2 body db in
  (run.1 = db ∧ ∃ message code, run.2 = apiError message code)
  ∨ (∃ room, rooms run.1 = <[uuid1 := room]> (rooms db)
       ∧ r_id room = uuid1 ∧ rooms db !! uuid1 = None
       ∧ proposals run.1 = proposals db).
Proof.
  intros run. subst run.
  unfold rooms_POST, insert_room, insert_event.
  destruct body as [createdBy participantB assetSymbol chainId]. route_cases.
  all: try (left; split; [reflexivity|by eexists _, _]).
  all: right; eexists; split; [reflexivity|]; split; [reflexivity|];
       split; [|reflexivity].
  all: apply eq_None_not_Some;
       match goal with
       | Hpk : bool_decide (is_Some (rooms _ !! _)) = false |- _ =>
           by apply bool_decide_eq_false in Hpk
       end.
Qed.

End RoomCases.

Section StoreInvariant.
Context `{Platform}.

Lemma insert_over_active_unique (db : DB) (id : string) (p q : Proposal) :
  proposals db !! id = Some p →
  room_id q = room_id p → kind q = kind p →
  (is_active (status q) = true → is_active (status p) = true) →
  active_unique db →
  active_unique (set_proposals (insert id q) db).
Proof.
  intros Hp Hr Hk Hact Huniq.
  assert (set_proposals (insert id q) db = update_proposal id (λ _, q) db) as ->.
  { unfold update_proposal, set_proposals. f_equal.
    symmetry. apply (alter_as_insert (λ _, q) _ _ p Hp). }
  apply update_proposal_active_unique; [|done].
  intros p' Hp'. by simplify_eq.
Qed.

Lemma insert_over_keyed (db : DB) (id : string) (q : Proposal) :
  p_id q = id → proposals_keyed db → proposals_keyed (set_proposals (insert id q) db).
Proof. intros Hid Hkeyed. by apply map_Forall_insert_2. Qed.

Lemma active_unique_proposals (db db' : DB) :
  proposals db' = proposals db → active_unique db → active_unique db'.
Proof. unfold active_unique. by intros ->. Qed.

Lemma proposals_keyed_proposals (db db' : DB) :
  proposals db' = proposals db → proposals_keyed db → proposals_keyed db'.
Proof. unfold proposals_keyed. by intros ->. Qed.

Lemma rooms_keyed_rooms (db db' : DB) :
  rooms db' = rooms db → rooms_keyed db → rooms_keyed db'.
Proof. unfold rooms_keyed. by intros ->. Qed.

Lemma update_as_insert (db : DB) (id : string) (f : Proposal → Proposal) (p : Proposal) :
  proposals db !! id = Some p →
  update_proposal id f db = set_proposals (insert id (f p)) db.
Proof.
  intros Hp. unfold update_proposal, set_proposals. by rewrite (alter_as_insert f _ _ p Hp).
Qed.

Lemma applied_room_id (k : ProposalKind) (a : option string) (r : Room) :
  r_id (applied_room k a r) = r_id r.
Proof. unfold applied_room. by repeat case_match. Qed.

(** X1.  Every route that writes keeps the store well-formed: rows stay
    under their keys and a room never holds two active proposals of one
    kind, whatever the request. *)
Theorem routes_keep_store_ok (db : DB) :
  store_ok db →
  (∀ now uuid1 uuid2 body, store_ok (rooms_POST now uuid1 uuid2 body db).1)
  ∧ (∀ now uuid1 uuid2 body, store_ok (proposals_POST now uuid1 uuid2 body db).1)
  ∧ (∀ now uuid id body, store_ok (sign_POST now uuid id body db).1)
  ∧ (∀ now uuid id body, store_ok (submit_POST now uuid id body db).1)
  ∧ (∀ now secret header authorization,
       store_ok (expire_POST now secret header authorization db).1).
Proof.
  intros (Hkeyed & Hrooms & Huniq). split; [|split; [|split; [|split]]].
  - intros now uuid1 uuid2 body.
    destruct (rooms_POST_cases now uuid1 uuid2 body db)
      as [[-> _]|(room & Hr & Hid & Hfresh & Hp)]; [done|].
    split; [by apply (proposals_keyed_proposals db)|].
    split; [|by apply (active_unique_proposals db)].
    unfold rooms_keyed. rewrite Hr. by apply map_Forall_insert_2.
  - intros now uuid1 uuid2 body.
    destruct (proposals_POST_cases now uuid1 uuid2 body db)
      as [[-> _]|(roomId & actor_ & kindName & k & payloadJson & payloadHash & quorum & room
                  & db1 & _ & _ & _ & _ & _ & _ & _ & _ & _ & _ & _ & _ & _ & _ & Hins
                  & Hp & Hr & _)]; [done|].
    pose proof (insert_proposal_inr _ _ _ Hins) as (_ & Hp1 & _).
    split; [|split].
    + unfold proposals_keyed. rewrite Hp, Hp1. by apply map_Forall_insert_2.
    + by apply (rooms_keyed_rooms db).
    + apply (active_unique_proposals db1); [done|].
      by apply (insert_proposal_active_unique
                  (new_proposal uuid1 roomId k payloadJson payloadHash quorum now) db).
  - intros now uuid id body.
    destruct (sign_POST_cases now uuid id body db Hkeyed)
      as [[-> _]|[(p & Hp & Hact & _ & ->)
                 |(p & room & w & signature & _ & _ & _ & Hp & Hact & _ & _ & _ & _ & Hps & Hr)]];
      [done|..].
    + cbn [fst]. rewrite (update_as_insert db id _ p Hp).
      split; [apply (insert_over_keyed db); [apply (Hkeyed _ _ Hp)|done]|].
      split; [done|]. by apply (insert_over_active_unique db id p).
    + split; [|split].
      * unfold proposals_keyed. rewrite Hps.
        apply map_Forall_insert_2; [apply (Hkeyed _ _ Hp)|done].
      * by apply (rooms_keyed_rooms db).
      * unfold active_unique. rewrite Hps.
        by apply (insert_over_active_unique db id p).
  - intros now uuid id body.
    destruct (submit_POST_cases now uuid id body db Hkeyed Hrooms)
      as [[-> _]|[(p & Hp & _ & ->)
                 |(p & room & w & next & _ & Hp & _ & Hroom & _ & Hnext & Hps)]];
      [done|..].
    + cbn [fst]. rewrite (update_as_insert db id _ p Hp).
      split; [apply (insert_over_keyed db); [apply (Hkeyed _ _ Hp)|done]|].
      split; [done|]. by apply (insert_over_active_unique db id p).
    + split; [|split].
      * unfold proposals_keyed. rewrite Hps.
        apply map_Forall_insert_2; [apply (Hkeyed _ _ Hp)|done].
      * destruct Hnext as [(_ & _ & _ & Hr)|(_ & _ & Hr)];
          [|by apply (rooms_keyed_rooms db)].
        unfold rooms_keyed. rewrite Hr. apply map_Forall_insert_2; [|done].
        rewrite applied_room_id. apply (Hrooms _ _ Hroom).
      * unfold active_unique. rewrite Hps.
        apply (insert_over_active_unique db id p); try done.
        destruct Hnext as [(-> & _)|(-> & _)]; done.
  - intros now secret header authorization.
    unfold expire_POST. route_unfold. simpl.
    destruct (unauthorized _ _ _); simpl; [done|].
    split; [|split; [done|]].
    + intros i q. simpl. rewrite lookup_fmap.
      destruct (proposals db !! i) as [p|] eqn:Hp; [|done].
      intros [= <-]. pose proof (Hkeyed _ _ Hp). by case_match.
    + intros i x Hi j y Hj Hxa Hya Hr Hk. simpl in Hi, Hj.
      rewrite lookup_fmap in Hi, Hj.
      destruct (proposals db !! i) as [x0|] eqn:Hx0; [|done].
      destruct (proposals db !! j) as [y0|] eqn:Hy0; [|done].
      simpl in Hi, Hj. simplify_eq.
      apply (Huniq i x0 Hx0 j y0 Hy0); by repeat case_match.
Qed.

End StoreInvariant.

Lemma routes_keep_store_ok_witness :
  store_ok (@sign_POST Demo.platform 2000 "e-1" "p-1"
              {| sb_wallet := Some Demo.Alice;
                 sb_signature := Some (Demo.sig_of Demo.alice) |}
              (Demo.db_with [Demo.proposal "p-1" operate pending ∅
                               (Demo.payload None "1" "2")])).1.
Proof.
  assert (store_ok (Demo.db_with [Demo.proposal "p-1" operate pending ∅
                                    (Demo.payload None "1" "2")])) as Hok.
  { apply (bool_decide_unpack (store_ok _)). vm_compute. exact I. }
  destruct (@routes_keep_store_ok Demo.platform _ Hok) as (_ & _ & Hsign & _).
  apply Hsign.
Defined.

Section SignFurther.
Context `{Platform}.





Lemma same_content_refl (p : Proposal) : same_content p p.
Proof. by repeat split. Qed.


(** X3.  A sign request whose signature recovers to another address than the
    signing wallet is answered with [Signature does not match wallet]
    (status 500) and writes nothing. *)
Theorem sign_refuses_foreign_signature (now : Z) (uuid id wallet signature raw recovered : string)
    (db : DB) (proposal : Proposal) (room : Room) :
  wallet ≠ "" → isAddress wallet = true → is_0x_hex signature = true →
  proposals db !! id = Some proposal →
  is_active (status proposal) = true → now ≤ expires_at proposal →
  rooms db !! room_id proposal = Some room → isParticipant room wallet = true →
  stripWalletQuorumPrefix signature = Returns raw →
  recoverMessageAddress (payload_hash proposal) raw = Returns recovered →
  normalizeAddress recovered ≠ normalizeAddress wallet →
  sign_POST now uuid id {| sb_wallet := Some wallet; sb_signature := Some signature |} db
  = (db, apiError "Signature does not match wallet" 500).
Proof.
  intros Hw Haddr Hsig Hp Hact Hexp Hr Hpart Hstrip Hrec Hne.
  pose proof (truthy_ne _ Hw) as Hw'. pose proof (is_0x_hex_truthy _ Hsig) as Hs'.
  assert ((expires_at proposal <? now) = false) as Hexp' by lia.
  rewrite <-isParticipant_normalized in Hpart.
  assert (bool_decide (status proposal = submitted) || bool_decide (status proposal = failed)
          || bool_decide (status proposal = expired) = false) as Hst.
  { by destruct (status proposal). }
  unfold sign_POST, assertWalletSignedHash.
  route_run with (rewrite ?Hw', ?Hs', ?Haddr, ?Hsig, ?Hp, ?Hst, ?Hexp', ?Hr, ?Hpart,
                    ?Hstrip, ?Hrec, ?normalizeAddress_idem).
  rewrite bool_decide_eq_false_2 by done. reflexivity.
Qed.

(** X4.  A sign request of a wallet that is no participant of the room of
    the proposal is answered with status 403 and writes nothing, however
    valid its signature. *)
Theorem sign_refuses_outsider (now : Z) (uuid id wallet signature : string)
    (db : DB) (proposal : Proposal) (room : Room) :
  wallet ≠ "" → isAddress wallet = true → is_0x_hex signature = true →
  proposals db !! id = Some proposal →
  is_active (status proposal) = true → now ≤ expires_at proposal →
  rooms db !! room_id proposal = Some room → isParticipant room wallet = false →
  sign_POST now uuid id {| sb_wallet := Some wallet; sb_signature := Some signature |} db
  = (db, apiError "Signer is not a room participant" 403).
Proof.
  intros Hw Haddr Hsig Hp Hact Hexp Hr Hpart.
  pose proof (truthy_ne _ Hw) as Hw'. pose proof (is_0x_hex_truthy _ Hsig) as Hs'.
  assert ((expires_at proposal <? now) = false) as Hexp' by lia.
  rewrite <-isParticipant_normalized in Hpart.
  assert (bool_decide (status proposal = submitted) || bool_decide (status proposal = failed)
          || bool_decide (status proposal = expired) = false) as Hst.
  { by destruct (status proposal). }
  unfold sign_POST.
  route_run with (rewrite ?Hw', ?Hs', ?Haddr, ?Hsig, ?Hp, ?Hst, ?Hexp', ?Hr, ?Hpart).
  reflexivity.
Qed.

End SignFurther.


Lemma sign_refuses_foreign_signature_witness :
  let p := Demo.proposal "p-1" operate pending ∅ (Demo.payload None "1" "2") in
  @sign_POST Demo.platform 2000 "e-1" "p-1"
    {| sb_wallet := Some Demo.Alice; sb_signature := Some (Demo.sig_of Demo.bob) |}
    (Demo.db_with [p])
  = (Demo.db_with [p], apiError "Signature does not match wallet" 500).
Proof.
  intros p.
  apply (@sign_refuses_foreign_signature Demo.platform 2000 "e-1" "p-1" Demo.Alice
           (Demo.sig_of Demo.bob) (Demo.sig_of Demo.bob) Demo.bob (Demo.db_with [p]) p Demo.room).
  - discriminate.
  - vm_compute. reflexivity.
  - vm_compute. reflexivity.
  - vm_compute. reflexivity.
  - reflexivity.
  - vm_compute. discriminate.
  - vm_compute. reflexivity.
  - vm_compute. reflexivity.
  - vm_compute. reflexivity.
  - vm_compute. reflexivity.
  - vm_compute. discriminate.
Defined.

Lemma sign_refuses_outsider_witness :
  let p := Demo.proposal "p-1" operate pending ∅ (Demo.payload None "1" "2") in
  @sign_POST Demo.platform 2000 "e-1" "p-1"
    {| sb_wallet := Some Demo.carol; sb_signature := Some (Demo.sig_of Demo.carol) |}
    (Demo.db_with [p])
  = (Demo.db_with [p], apiError "Signer is not a room participant" 403).
Proof.
  intros p.
  apply (@sign_refuses_outsider Demo.platform 2000 "e-1" "p-1" Demo.carol
           (Demo.sig_of Demo.carol) (Demo.db_with [p]) p Demo.room).
  - discriminate.
  - vm_compute. reflexivity.
  - vm_compute. reflexivity.
  - vm_compute. reflexivity.
  - reflexivity.
  - vm_compute. discriminate.
  - vm_compute. reflexivity.
  - vm_compute. reflexivity.
Defined.

Section QuorumProgress.
Context `{Platform}.

Lemma signerAddresses_empty : signerAddresses ∅ = ∅.
Proof.
  apply set_eq. intros x. rewrite elem_of_signerAddresses. split; [|set_solver].
  intros (k & [v Hk] & _). by rewrite lookup_empty in Hk.
Qed.

Lemma signed_proposal_status (room : Room) (wallet signature : string) (p : Proposal) :
  status (signed_proposal room wallet signature p)
  = if required_quorum p
       <=? calculateSignedWeight room (signatures_json (signed_proposal room wallet signature p))
    then ready else pending.
Proof. reflexivity. Qed.

Lemma signed_proposal_quorum (room : Room) (wallet signature : string) (p : Proposal) :
  required_quorum (signed_proposal room wallet signature p) = required_quorum p.
Proof. reflexivity. Qed.

(** two participants sign a proposal that has no signature and a required
    quorum of 100, one after the other *)
Lemma sign_POST_twice (now1 now2 : Z) (uuid1 uuid2 id w1 w2 sig1 sig2 : string)
    (db : DB) (proposal : Proposal) (room : Room) :
  w1 ≠ "" → isAddress w1 = true → is_0x_hex sig1 = true →
  w2 ≠ "" → isAddress w2 = true → is_0x_hex sig2 = true →
  proposals db !! id = Some proposal → p_id proposal = id →
  is_active (status proposal) = true →
  signatures_json proposal = ∅ → required_quorum proposal = 100 →
  now1 ≤ expires_at proposal → now2 ≤ expires_at proposal →
  rooms db !! room_id proposal = Some room → r_id room = room_id proposal →
  isParticipant room w1 = true → isParticipant room w2 = true →
  normalizeAddress w1 ≠ normalizeAddress w2 →
  assertWalletSignedHash (normalizeAddress w1) (payload_hash proposal) sig1 = Returns tt →
  assertWalletSignedHash (normalizeAddress w2) (payload_hash proposal) sig2 = Returns tt →
  events db !! uuid1 = None → events db !! uuid2 = None → uuid1 ≠ uuid2 →
  ∃ db1 db2 p1 p2,
    sign_POST now1 uuid1 id {| sb_wallet := Some w1; sb_signature := Some sig1 |} db
    = (db1, apiOk (SignedData p1 50) 200)
    ∧ status p1 = pending
    ∧ sign_POST now2 uuid2 id {| sb_wallet := Some w2; sb_signature := Some sig2 |} db1
      = (db2, apiOk (SignedData p2 100) 200)
    ∧ status p2 = ready
    ∧ same_content proposal p2
    ∧ signatures_json p2 = <[normalizeAddress w2 := sig2]> {[ normalizeAddress w1 := sig1 ]}
    ∧ proposals db2 = <[id := p2]> (proposals db)
    ∧ rooms db2 = rooms db
    ∧ (∀ e, e ≠ uuid1 → e ≠ uuid2 → events db2 !! e = events db !! e)
    ∧ sdk_result_json p2 = sdk_result_json proposal.
Proof.
  intros Hw1 Ha1 Hs1 Hw2 Ha2 Hs2 Hp Hid Hact Hempty Hq He1 He2 Hr Hrid Hp1 Hp2 Hne
    Hv1 Hv2 Hf1 Hf2 Hu.
  destruct (sign_POST_ok now1 uuid1 id w1 sig1 db proposal room)
    as (db1 & Hrun1 & Hprops1 & Hrooms1 & Hev1); try assumption.
  set (p1 := signed_proposal room (normalizeAddress w1) sig1 proposal) in *.
  assert (signatures_json p1 = {[ normalizeAddress w1 := sig1 ]}) as Hsigs1.
  { subst p1. unfold signed_proposal, signed_signatures. cbn [signatures_json with_status with_signatures].
    rewrite Hempty, lookup_empty. simpl. by rewrite insert_empty. }
  pose proof (proj1 (isParticipant_iff room w1) Hp1) as Hin1.
  pose proof (proj1 (isParticipant_iff room w2) Hp2) as Hin2.
  assert (calculateSignedWeight room {[ normalizeAddress w1 := sig1 ]} = 50) as Hw50.
  { rewrite calculateSignedWeight_unfold, <-insert_empty,
      signerAddresses_insert_normalized, signerAddresses_empty.
    repeat case_bool_decide; set_unfold; try lia; exfalso; intuition congruence. }
  assert (status p1 = pending) as Hst1.
  { subst p1. rewrite signed_proposal_status, Hsigs1, Hw50, Hq. reflexivity. }
  destruct (sign_POST_ok now2 uuid2 id w2 sig2 db1 p1 room)
    as (db2 & Hrun2 & Hprops2 & Hrooms2 & Hev2); try assumption.
  { rewrite Hprops1. apply lookup_insert_eq. }
  { by rewrite Hst1. }
  { by rewrite Hrooms1. }
  { rewrite Hev1 by congruence. assumption. }
  set (p2 := signed_proposal room (normalizeAddress w2) sig2 p1) in *.
  assert (signatures_json p2
          = <[normalizeAddress w2 := sig2]> {[ normalizeAddress w1 := sig1 ]}) as Hsigs2.
  { subst p2. unfold signed_proposal, signed_signatures.
    cbn [signatures_json with_status with_signatures].
    rewrite Hsigs1, lookup_singleton_ne by done. reflexivity. }
  assert (calculateSignedWeight room
            (<[normalizeAddress w2 := sig2]> {[ normalizeAddress w1 := sig1 ]}) = 100) as Hw100.
  { rewrite calculateSignedWeight_unfold, signerAddresses_insert_normalized,
      <-insert_empty, signerAddresses_insert_normalized, signerAddresses_empty.
    repeat case_bool_decide; set_unfold; try lia; exfalso; intuition congruence. }
  assert (status p2 = ready) as Hst2.
  { subst p2. rewrite signed_proposal_status, Hsigs2, Hw100. subst p1.
    rewrite signed_proposal_quorum, Hq. reflexivity. }
  exists db1, db2, p1, p2. rewrite Hrun1, Hrun2.
  rewrite Hsigs1, Hw50, Hsigs2, Hw100.
  split; [done|]. split; [done|]. split; [done|]. split; [done|].
  split; [by repeat split|]. split; [done|].
  split; [by rewrite Hprops2, Hprops1, insert_insert_eq|].
  split; [by rewrite Hrooms2|].
  split; [|done].
  intros e Hn1 Hn2. by rewrite Hev2, Hev1.
Qed.

(** X5.  Starting from a proposal without signatures and a required quorum
    of 100, the signature of one participant leaves it pending at weight 50
    and the signature of the other participant then makes it ready at
    weight 100, in either order. *)
Theorem sign_both_reaches_quorum (now1 now2 : Z) (uuid1 uuid2 id w1 w2 sig1 sig2 : string)
    (db : DB) (proposal : Proposal) (room : Room) :
  w1 ≠ "" → isAddress w1 = true → is_0x_hex sig1 = true →
  w2 ≠ "" → isAddress w2 = true → is_0x_hex sig2 = true →
  proposals db !! id = Some proposal → p_id proposal = id →
  is_active (status proposal) = true →
  signatures_json proposal = ∅ → required_quorum proposal = 100 →
  now1 ≤ expires_at proposal → now2 ≤ expires_at proposal →
  rooms db !! room_id proposal = Some room → r_id room = room_id proposal →
  isParticipant room w1 = true → isParticipant room w2 = true →
  normalizeAddress w1 ≠ normalizeAddress w2 →
  assertWalletSignedHash (normalizeAddress w1) (payload_hash proposal) sig1 = Returns tt →
  assertWalletSignedHash (normalizeAddress w2) (payload_hash proposal) sig2 = Returns tt →
  events db !! uuid1 = None → events db !! uuid2 = None → uuid1 ≠ uuid2 →
  let once :=
    sign_POST now1 uuid1 id {| sb_wallet := Some w1; sb_signature := Some sig1 |} db in
  let twice :=
    sign_POST now2 uuid2 id {| sb_wallet := Some w2; sb_signature := Some sig2 |} once.1 in
  ∃ p1 p2,
    once.2 = apiOk (SignedData p1 50) 200 ∧ status p1 = pending
    ∧ twice.2 = apiOk (SignedData p2 100) 200 ∧ status p2 = ready
    ∧ proposals twice.1 !! id = Some p2
    ∧ signatures_json p2
      = <[normalizeAddress w2 := sig2]> {[ normalizeAddress w1 := sig1 ]}.
Proof.
  intros Hw1 Ha1 Hs1 Hw2 Ha2 Hs2 Hp Hid Hact Hempty Hq He1 He2 Hr Hrid Hp1 Hp2 Hne
    Hv1 Hv2 Hf1 Hf2 Hu once twice.
  destruct (sign_POST_twice now1 now2 uuid1 uuid2 id w1 w2 sig1 sig2 db proposal room)
    as (db1 & db2 & p1 & p2 & Hrun1 & Hst1 & Hrun2 & Hst2 & _ & Hsigs & Hprops & _);
    try assumption.
  exists p1, p2. subst once twice. rewrite Hrun1. cbn [fst snd]. rewrite Hrun2. cbn [fst snd].
  repeat split; try done. rewrite Hprops. apply lookup_insert_eq.
Qed.

Lemma proposal_eq (p q : Proposal) :
  same_content p q → signatures_json q = signatures_json p → status q = status p →
  sdk_result_json q = sdk_result_json p → q = p.
Proof.
  intros (? & ? & ? & ? & ? & ? & ? & ?) ? ? ?. destruct p, q. simpl in *. by subst.
Qed.

(** X26.  The order in which the two participants sign plays no role for
    the proposal: signed by the one and then the other, or the other way
    round, it is stored as the same row, ready, with both signatures. *)
Theorem sign_order_irrelevant (now1 now2 now3 now4 : Z)
    (uuid1 uuid2 uuid3 uuid4 id w1 w2 sig1 sig2 : string)
    (db : DB) (proposal : Proposal) (room : Room) :
  w1 ≠ "" → isAddress w1 = true → is_0x_hex sig1 = true →
  w2 ≠ "" → isAddress w2 = true → is_0x_hex sig2 = true →
  proposals db !! id = Some proposal → p_id proposal = id →
  is_active (status proposal) = true →
  signatures_json proposal = ∅ → required_quorum proposal = 100 →
  now1 ≤ expires_at proposal → now2 ≤ expires_at proposal →
  now3 ≤ expires_at proposal → now4 ≤ expires_at proposal →
  rooms db !! room_id proposal = Some room → r_id room = room_id proposal →
  isParticipant room w1 = true → isParticipant room w2 = true →
  normalizeAddress w1 ≠ normalizeAddress w2 →
  assertWalletSignedHash (normalizeAddress w1) (payload_hash proposal) sig1 = Returns tt →
  assertWalletSignedHash (normalizeAddress w2) (payload_hash proposal) sig2 = Returns tt →
  events db !! uuid1 = None → events db !! uuid2 = None → uuid1 ≠ uuid2 →
  events db !! uuid3 = None → events db !! uuid4 = None → uuid3 ≠ uuid4 →
  let first w s := {| sb_wallet := Some w; sb_signature := Some s |} in
  let one_way :=
    sign_POST now2 uuid2 id (first w2 sig2) (sign_POST now1 uuid1 id (first w1 sig1) db).1 in
  let other_way :=
    sign_POST now4 uuid4 id (first w1 sig1) (sign_POST now3 uuid3 id (first w2 sig2) db).1 in
  proposals one_way.1 = proposals other_way.1
  ∧ ∃ p, proposals one_way.1 !! id = Some p ∧ status p = ready
         ∧ one_way.2 = apiOk (SignedData p 100) 200
         ∧ other_way.2 = apiOk (SignedData p 100) 200.
Proof.
  intros Hw1 Ha1 Hs1 Hw2 Ha2 Hs2 Hp Hid Hact Hempty Hq He1 He2 He3 He4 Hr Hrid Hp1 Hp2 Hne
    Hv1 Hv2 Hf1 Hf2 Hu12 Hf3 Hf4 Hu34 first one_way other_way.
  destruct (sign_POST_twice now1 now2 uuid1 uuid2 id w1 w2 sig1 sig2 db proposal room)
    as (db1 & db2 & p1 & p2 & Hrun1 & _ & Hrun2 & Hst2 & Hsame2 & Hsigs2 & Hprops2 & _ & _
        & Hsdk2); try assumption.
  destruct (sign_POST_twice now3 now4 uuid3 uuid4 id w2 w1 sig2 sig1 db proposal room)
    as (db3 & db4 & p3 & p4 & Hrun3 & _ & Hrun4 & Hst4 & Hsame4 & Hsigs4 & Hprops4 & _ & _
        & Hsdk4); try assumption; [congruence|].
  assert (p4 = p2) as ->.
  { assert (signatures_json p4 = signatures_json p2) as Hsigs.
    { rewrite Hsigs2, Hsigs4, <-!insert_empty. by apply insert_insert_ne. }
    destruct Hsame2 as (? & ? & ? & ? & ? & ? & ? & ?).
    destruct Hsame4 as (? & ? & ? & ? & ? & ? & ? & ?).
    apply proposal_eq; [repeat split; congruence|done|congruence|congruence]. }
  subst one_way other_way first. cbv beta.
  rewrite Hrun1. cbn [fst snd]. rewrite Hrun2. rewrite Hrun3. cbn [fst snd]. rewrite Hrun4.
  cbn [fst snd]. split; [by rewrite Hprops2, Hprops4|].
  exists p2. split; [rewrite Hprops2; apply lookup_insert_eq|done].
Qed.


End QuorumProgress.

Lemma sign_both_reaches_quorum_witness :
  let p := Demo.proposal "p-1" create_session pending ∅ (Demo.payload None "0" "0") in
  let once := @sign_POST Demo.platform 2000 "e-1" "p-1"
                {| sb_wallet := Some Demo.bob; sb_signature := Some (Demo.sig_of Demo.bob) |}
                (Demo.db_with [p]) in
  let twice := @sign_POST Demo.platform 3000 "e-2" "p-1"
                 {| sb_wallet := Some Demo.Alice;
                    sb_signature := Some (Demo.sig_of Demo.alice) |} once.1 in
  ∃ p1 p2, once.2 = apiOk (SignedData p1 50) 200 ∧ twice.2 = apiOk (SignedData p2 100) 200
           ∧ status p2 = ready.
Proof.
  intros p once twice.
  destruct (@sign_both_reaches_quorum Demo.platform 2000 3000 "e-1" "e-2" "p-1"
              Demo.bob Demo.Alice (Demo.sig_of Demo.bob) (Demo.sig_of Demo.alice)
              (Demo.db_with [p]) p Demo.room)
    as (p1 & p2 & H1 & _ & H2 & Hready & _).
  - discriminate.
  - vm_compute. reflexivity.
  - vm_compute. reflexivity.
  - discriminate.
  - vm_compute. reflexivity.
  - vm_compute. reflexivity.
  - vm_compute. reflexivity.
  - reflexivity.
  - reflexivity.
  - reflexivity.
  - reflexivity.
  - vm_compute. discriminate.
  - vm_compute. discriminate.
  - vm_compute. reflexivity.
  - reflexivity.
  - vm_compute. reflexivity.
  - vm_compute. reflexivity.
  - vm_compute. discriminate.
  - vm_compute. reflexivity.
  - vm_compute. reflexivity.
  - vm_compute. reflexivity.
  - vm_compute. reflexivity.
  - discriminate.
  - exists p1, p2. split; [exact H1|]. split; [exact H2|exact Hready].
Defined.


Lemma sign_order_irrelevant_witness :
  let p := Demo.proposal "p-1" operate pending ∅ (Demo.payload None "1" "2") in
  let a := {| sb_wallet := Some Demo.Alice; sb_signature := Some (Demo.sig_of Demo.alice) |} in
  let b := {| sb_wallet := Some Demo.bob; sb_signature := Some (Demo.sig_of Demo.bob) |} in
  proposals (@sign_POST Demo.platform 3000 "e-2" "p-1" b
               (@sign_POST Demo.platform 2000 "e-1" "p-1" a (Demo.db_with [p])).1).1
  = proposals (@sign_POST Demo.platform 5000 "e-4" "p-1" a
                 (@sign_POST Demo.platform 4000 "e-3" "p-1" b (Demo.db_with [p])).1).1.
Proof.
  intros p a b.
  destruct (@sign_order_irrelevant Demo.platform 2000 3000 4000 5000 "e-1" "e-2" "e-3" "e-4"
              "p-1" Demo.Alice Demo.bob (Demo.sig_of Demo.alice) (Demo.sig_of Demo.bob)
              (Demo.db_with [p]) p Demo.room) as (Hsame & _).
  - discriminate.
  - vm_compute. reflexivity.
  - vm_compute. reflexivity.
  - discriminate.
  - vm_compute. reflexivity.
  - vm_compute. reflexivity.
  - vm_compute. reflexivity.
  - reflexivity.
  - reflexivity.
  - reflexivity.
  - reflexivity.
  - vm_compute. discriminate.
  - vm_compute. discriminate.
  - vm_compute. discriminate.
  - vm_compute. discriminate.
  - vm_compute. reflexivity.
  - reflexivity.
  - vm_compute. reflexivity.
  - vm_compute. reflexivity.
  - vm_compute. discriminate.
  - vm_compute. reflexivity.
  - vm_compute. reflexivity.
  - vm_compute. reflexivity.
  - vm_compute. reflexivity.
  - discriminate.
  - vm_compute. reflexivity.
  - vm_compute. reflexivity.
  - discriminate.
  - exact Hsame.
Defined.

Section SubmitFurther.
Context `{Platform}.


(** a [submitted] report of a participant on a proposal that is not ready,
    before its expiry: refused, nothing written *)
Lemma submit_POST_not_ready (now : Z) (uuid id wallet : string) (outcome result session error : option string)
    (db : DB) (p : Proposal) (room : Room) :
  wallet ≠ "" → isAddress wallet = true →
  outcome = None ∨ outcome = Some "submitted" →
  proposals db !! id = Some p → now ≤ expires_at p →
  rooms db !! room_id p = Some room → isParticipant room wallet = true →
  status p ≠ ready →
  submit_POST now uuid id
    {| sub_wallet := Some wallet; sub_outcome := outcome; sub_sdkResult := result;
       sub_appSessionId := session; sub_error := error |} db
  = (db, apiError ("Proposal must be ready before submission. Current status: "
                   ++ status_name (status p)) 400).
Proof.
  intros Hw Haddr Hout Hp Hexp Hr Hpart Hst.
  pose proof (truthy_ne _ Hw) as Hw'.
  assert ((expires_at p <? now) = false) as Hexp' by lia.
  rewrite <-isParticipant_normalized in Hpart.
  assert (bool_decide (status p = ready) = false) as Hst' by by apply bool_decide_eq_false.
  unfold submit_POST.
  destruct Hout as [-> | ->];
    route_run with (rewrite ?Hw', ?Haddr, ?Hp, ?Hexp', ?Hr, ?Hpart, ?Hst');
    reflexivity.
Qed.

(** the [submitted] report of a participant on a ready proposal, before its
    expiry: applied *)
Lemma submit_POST_submitted_ok (now : Z) (uuid id wallet : string)
    (outcome result session error : option string) (db : DB) (p : Proposal) (room : Room) :
  wallet ≠ "" → isAddress wallet = true →
  outcome = None ∨ outcome = Some "submitted" →
  proposals db !! id = Some p → p_id p = id → status p = ready →
  now ≤ expires_at p →
  rooms db !! room_id p = Some room → r_id room = room_id p →
  isParticipant room wallet = true →
  events db !! uuid = None →
  let body := {| sub_wallet := Some wallet; sub_outcome := outcome; sub_sdkResult := result;
                 sub_appSessionId := session; sub_error := error |} in
  let p' := with_sdk_result (Some (reported_result body)) (with_status submitted p) in
  ∃ db',
    submit_POST now uuid id body db = (db', apiOk (ProposalData p') 200)
    ∧ proposals db' = <[id := p']> (proposals db)
    ∧ rooms db' = <[room_id p := applied_room (kind p) session room]> (rooms db).
Proof.
  intros Hw Haddr Hout Hp Hid Hst Hexp Hr Hrid Hpart Hfresh body p'.
  pose proof (truthy_ne _ Hw) as Hw'.
  assert ((expires_at p <? now) = false) as Hexp' by lia.
  rewrite <-isParticipant_normalized in Hpart.
  assert (bool_decide (status p = ready) = true) as Hst' by by apply bool_decide_eq_true.
  subst body p'. unfold reported_result. cbn [sub_sdkResult sub_error].
  set (reported := match result with
                   | Some r => SdkResult r
                   | None => match error with
                             | Some e => if truthy e then SdkErrorResult e else SdkEmptyResult
                             | None => SdkEmptyResult
                             end
                   end).
  assert (∃ db', submit_POST now uuid id
                   {| sub_wallet := Some wallet; sub_outcome := outcome;
                      sub_sdkResult := result; sub_appSessionId := session;
                      sub_error := error |} db
                 = (db', apiOk (ProposalData
                                  (with_sdk_result (Some reported) (with_status submitted p))) 200)
                 ∧ proposals db'
                   = alter (λ q, with_sdk_result (Some reported) (with_status submitted q)) id
                       (proposals db)
                 ∧ rooms db' = <[room_id p := applied_room (kind p) session room]> (rooms db))
    as (db' & Hrun & Hps & Hrs).
  { unfold submit_POST, insert_event. fold reported.
    destruct Hout as [-> | ->].
    all: route_run with (rewrite ?Hw', ?Haddr, ?Hp, ?Hexp', ?Hr, ?Hpart, ?Hst', ?Hid,
                           ?lookup_alter_eq, ?Hrid).
    all: unfold applied_room; destruct (kind p); simpl.
    all: try destruct (truthy_opt session) eqn:Hs; simpl.
    all: rewrite ?Hfresh; simpl.
    all: rewrite ?lookup_alter_eq, ?Hr; simpl.
    all: eexists; split; [reflexivity|]; split; [reflexivity|]; simpl.
    all: first [ by apply alter_as_insert | symmetry; by apply insert_id ]. }
  exists db'. split; [done|]. split; [|done].
  rewrite Hps. exact (alter_as_insert _ _ _ _ Hp).
Qed.

(** X7.  A [submitted] report of a room participant on a ready proposal,
    before its expiry, is applied: the proposal becomes submitted with the
    reported result, a session-creating proposal attaches the reported
    session id to the room, a closing proposal closes the room, and an
    operate proposal leaves the room as it is. *)
Theorem submit_applies_report (now : Z) (uuid id wallet : string)
    (outcome result session error : option string) (db : DB) (p : Proposal) (room : Room) :
  wallet ≠ "" → isAddress wallet = true →
  outcome = None ∨ outcome = Some "submitted" →
  proposals db !! id = Some p → p_id p = id → status p = ready →
  now ≤ expires_at p →
  rooms db !! room_id p = Some room → r_id room = room_id p →
  isParticipant room wallet = true →
  events db !! uuid = None →
  let body := {| sub_wallet := Some wallet; sub_outcome := outcome; sub_sdkResult := result;
                 sub_appSessionId := session; sub_error := error |} in
  let run := submit_POST now uuid id body db in
  ∃ p' room',
    run.2 = apiOk (ProposalData p') 200
    ∧ proposals run.1 !! id = Some p'
    ∧ status p' = submitted ∧ sdk_result_json p' = Some (reported_result body)
    ∧ signatures_json p' = signatures_json p
    ∧ rooms run.1 !! room_id p = Some room'
    ∧ (kind p = create_session → session ≠ None → session ≠ Some "" →
       app_session_id room' = session ∧ r_status room' = r_status room)
    ∧ (kind p = close_session → r_status room' = closed)
    ∧ (kind p = operate → room' = room).
Proof.
  intros Hw Haddr Hout Hp Hid Hst Hexp Hr Hrid Hpart Hfresh body run.
  destruct (submit_POST_submitted_ok now uuid id wallet outcome result session error db p room)
    as (db' & Hrun & Hps & Hrs); try assumption.
  subst run body. rewrite Hrun. cbn [fst snd]. eexists _, _.
  split; [reflexivity|]. split; [rewrite Hps; apply lookup_insert_eq|].
  split; [reflexivity|]. split; [reflexivity|]. split; [reflexivity|].
  split; [rewrite Hrs; apply lookup_insert_eq|].
  unfold applied_room. split; [|split].
  - intros -> Hs1 Hs2. destruct session as [[|c s]|]; done.
  - by intros ->.
  - by intros ->.
Qed.


(** X9.  A [submitted] report on a proposal that is not ready, a pending one
    that lacks its quorum in particular, is refused with the status it
    finds and writes nothing. *)
Theorem submit_requires_ready (now : Z) (uuid id wallet : string)
    (outcome result session error : option string) (db : DB) (p : Proposal) (room : Room) :
  wallet ≠ "" → isAddress wallet = true →
  outcome = None ∨ outcome = Some "submitted" →
  proposals db !! id = Some p → now ≤ expires_at p →
  rooms db !! room_id p = Some room → isParticipant room wallet = true →
  status p ≠ ready →
  let run := submit_POST now uuid id
               {| sub_wallet := Some wallet; sub_outcome := outcome; sub_sdkResult := result;
                  sub_appSessionId := session; sub_error := error |} db in
  run.1 = db
  ∧ run.2 = apiError ("Proposal must be ready before submission. Current status: "
                      ++ status_name (status p)) 400.
Proof.
  intros Hw Haddr Hout Hp Hexp Hr Hpart Hst run. subst run.
  by rewrite (submit_POST_not_ready now uuid id wallet outcome result session error db p room).
Qed.

End SubmitFurther.

Lemma submit_applies_report_witness :
  let p := Demo.proposal "p-1" create_session ready Demo.both_signed
             (Demo.payload None "0" "0") in
  ∃ p' room',
    proposals (@submit_POST Demo.platform 2000 "e-1" "p-1"
                 {| sub_wallet := Some Demo.Alice; sub_outcome := Some "submitted";
                    sub_sdkResult := Some "created"; sub_appSessionId := Some "0xsession";
                    sub_error := None |} (Demo.db_with [p])).1 !! "p-1" = Some p'
    ∧ status p' = submitted
    ∧ rooms (@submit_POST Demo.platform 2000 "e-1" "p-1"
               {| sub_wallet := Some Demo.Alice; sub_outcome := Some "submitted";
                  sub_sdkResult := Some "created"; sub_appSessionId := Some "0xsession";
                  sub_error := None |} (Demo.db_with [p])).1 !! "room-1" = Some room'
    ∧ app_session_id room' = Some "0xsession".
Proof.
  intros p.
  destruct (@submit_applies_report Demo.platform 2000 "e-1" "p-1" Demo.Alice
              (Some "submitted") (Some "created") (Some "0xsession") None
              (Demo.db_with [p]) p Demo.room)
    as (p' & room' & _ & Hp' & Hst & _ & _ & Hr' & Hcreate & _).
  - discriminate.
  - vm_compute. reflexivity.
  - right. reflexivity.
  - vm_compute. reflexivity.
  - reflexivity.
  - reflexivity.
  - vm_compute. discriminate.
  - vm_compute. reflexivity.
  - reflexivity.
  - vm_compute. reflexivity.
  - vm_compute. reflexivity.
  - exists p', room'. split; [exact Hp'|]. split; [exact Hst|]. split; [exact Hr'|].
    apply Hcreate; [reflexivity|discriminate|discriminate].
Defined.


Lemma submit_requires_ready_witness :
  let p := Demo.proposal "p-1" operate pending {[ Demo.alice := Demo.sig_of Demo.alice ]}
             (Demo.payload None "1" "2") in
  let run := @submit_POST Demo.platform 2000 "e-1" "p-1"
               {| sub_wallet := Some Demo.bob; sub_outcome := None;
                  sub_sdkResult := Some "state accepted"; sub_appSessionId := None;
                  sub_error := None |} (Demo.db_with [p]) in
  run.1 = Demo.db_with [p]
  ∧ run.2 = apiError "Proposal must be ready before submission. Current status: pending" 400.
Proof.
  intros p run.
  apply (@submit_requires_ready Demo.platform 2000 "e-1" "p-1" Demo.bob
           None (Some "state accepted") None None (Demo.db_with [p]) p Demo.room).
  - discriminate.
  - vm_compute. reflexivity.
  - left. reflexivity.
  - vm_compute. reflexivity.
  - vm_compute. discriminate.
  - vm_compute. reflexivity.
  - vm_compute. reflexivity.
  - discriminate.
Defined.

Section RoomIdentity.
Context `{Platform}.

Lemma room_kept_rooms (rid : string) (r : Room) (db db' : DB) :
  rooms db' = rooms db → rooms db !! rid = Some r → room_kept rid r db'.
Proof. intros Hr Hrid. exists r. by rewrite Hr. Qed.

Lemma applied_room_identity (k : ProposalKind) (a : option string) (r : Room) :
  same_room_identity r (applied_room k a r)
  ∧ (r_status r = closed → r_status (applied_room k a r) = closed).
Proof. unfold applied_room, same_room_identity. by repeat case_match. Qed.

(** X10.  No request changes who a room belongs to: after any request to
    any writing route, a stored room is still stored under its key with the
    same creator, participants, chain, asset and dates, and a closed room
    is still closed. *)
Theorem routes_keep_room_identity (db : DB) (rid : string) (r : Room) :
  store_ok db → rooms db !! rid = Some r →
  (∀ now uuid1 uuid2 body, room_kept rid r (rooms_POST now uuid1 uuid2 body db).1)
  ∧ (∀ now uuid1 uuid2 body, room_kept rid r (proposals_POST now uuid1 uuid2 body db).1)
  ∧ (∀ now uuid id body, room_kept rid r (sign_POST now uuid id body db).1)
  ∧ (∀ now uuid id body, room_kept rid r (submit_POST now uuid id body db).1)
  ∧ (∀ now secret header authorization,
       room_kept rid r (expire_POST now secret header authorization db).1).
Proof.
  intros (Hkeyed & Hrooms & Huniq) Hrid. split; [|split; [|split; [|split]]].
  - intros now uuid1 uuid2 body.
    destruct (rooms_POST_cases now uuid1 uuid2 body db)
      as [[-> _]|(room & Hr & Hid & Hfresh & Hp)]; [by apply (room_kept_rooms rid r db)|].
    exists r. rewrite Hr, lookup_insert_ne; [done|]. by intros ->; simplify_eq.
  - intros now uuid1 uuid2 body.
    destruct (proposals_POST_cases now uuid1 uuid2 body db)
      as [[-> _]|(roomId & actor_ & kindName & k & payloadJson & payloadHash & quorum & room
                  & db1 & _ & _ & _ & _ & _ & _ & _ & _ & _ & _ & _ & _ & _ & _ & Hins
                  & Hp & Hr & _)]; by apply (room_kept_rooms rid r db).
  - intros now uuid id body.
    destruct (sign_POST_cases now uuid id body db Hkeyed)
      as [[-> _]|[(p & Hp & Hact & _ & ->)
                 |(p & room & w & signature & _ & _ & _ & Hp & Hact & _ & _ & _ & _ & Hps & Hr)]];
      by apply (room_kept_rooms rid r db).
  - intros now uuid id body.
    destruct (submit_POST_cases now uuid id body db Hkeyed Hrooms)
      as [[-> _]|[(p & Hp & _ & ->)
                 |(p & room & w & next & _ & Hp & _ & Hroom & _ & Hnext & Hps)]];
      [by apply (room_kept_rooms rid r db)..|].
    destruct Hnext as [(_ & _ & _ & Hr)|(_ & _ & Hr)];
      [|by apply (room_kept_rooms rid r db)].
    destruct (decide (room_id p = rid)) as [Heq|Hne].
    + rewrite Heq in *. simplify_eq. eexists. rewrite Hr, lookup_insert_eq.
      split; [reflexivity|]. apply applied_room_identity.
    + exists r. by rewrite Hr, lookup_insert_ne.
  - intros now secret header authorization.
    apply (room_kept_rooms rid r db); [|done].
    unfold expire_POST. route_unfold. simpl. by destruct (unauthorized _ _ _).
Qed.

End RoomIdentity.

Lemma routes_keep_room_identity_witness :
  room_kept "room-1" Demo.room
    (@submit_POST Demo.platform 2000 "e-1" "p-1"
       {| sub_wallet := Some Demo.Alice; sub_outcome := Some "submitted";
          sub_sdkResult := Some "created"; sub_appSessionId := Some "0xsession";
          sub_error := None |}
       (Demo.db_with [Demo.proposal "p-1" create_session ready Demo.both_signed
                        (Demo.payload None "0" "0")])).1.
Proof.
  assert (store_ok (Demo.db_with [Demo.proposal "p-1" create_session ready Demo.both_signed
                                    (Demo.payload None "0" "0")])) as Hok.
  { apply (bool_decide_unpack (store_ok _)). vm_compute. exact I. }
  assert (rooms (Demo.db_with [Demo.proposal "p-1" create_session ready Demo.both_signed
                                 (Demo.payload None "0" "0")]) !! "room-1" = Some Demo.room)
    as Hroom.
  { vm_compute. reflexivity. }
  destruct (@routes_keep_room_identity Demo.platform _ _ _ Hok Hroom)
    as (_ & _ & _ & Hsubmit & _).
  apply Hsubmit.
Defined.

Section SweepFacts.

Lemma sweepable_expired (now : Z) (p : Proposal) :
  sweepable now (with_status expired p) = false.
Proof. done. Qed.

Lemma filter_sweepable_empty (now : Z) (m : gmap string Proposal) :
  map_Forall (λ _ p, sweepable now p = false) m →
  filter (λ kv : string * Proposal, sweepable now kv.2 = true) m = ∅.
Proof.
  intros Hall. apply map_empty_filter. intros i p Hp Hs. simpl in Hs.
  by rewrite (Hall i p Hp) in Hs.
Qed.

(** X11.  An authorised sweep marks every overdue active proposal expired,
    reports how many it marked and touches no other row or field; a sweep
    repeated at the same instant finds nothing left and reports zero. *)
Theorem expire_sweep_complete (now : Z) (secret header authorization : option string)
    (db : DB) :
  unauthorized secret header (bearerToken authorization) = false →
  let run := expire_POST now secret header authorization db in
  run.2 = apiOk (ExpiredData
                   (Z.of_nat (size (filter (λ kv : string * Proposal,
                                              sweepable now kv.2 = true) (proposals db))))) 200
  ∧ (∀ id p, proposals db !! id = Some p →
       proposals run.1 !! id
       = Some (if sweepable now p then with_status expired p else p))
  ∧ (∀ id, proposals db !! id = None → proposals run.1 !! id = None)
  ∧ (∀ id q, proposals run.1 !! id = Some q → sweepable now q = false)
  ∧ rooms run.1 = rooms db ∧ events run.1 = events db
  ∧ expire_POST now secret header authorization run.1 = (run.1, apiOk (ExpiredData 0) 200).
Proof.
  intros Hauth run. subst run.
  unfold expire_POST. route_unfold. simpl. rewrite Hauth. simpl.
  assert (∀ id q,
            ((λ p, if sweepable now p then with_status expired p else p) <$> proposals db)
              !! id = Some q → sweepable now q = false) as Hdone.
  { intros id q. rewrite lookup_fmap.
    destruct (proposals db !! id) as [p|]; [|done]. intros [= <-].
    destruct (sweepable now p) eqn:Hs; [apply sweepable_expired|done]. }
  split; [reflexivity|]. split; [|split; [|split; [|split; [|split]]]].
  - intros id p Hp. by rewrite lookup_fmap, Hp.
  - intros id Hp. by rewrite lookup_fmap, Hp.
  - exact Hdone.
  - reflexivity.
  - reflexivity.
  - rewrite (filter_sweepable_empty now _ Hdone). rewrite map_size_empty. simpl.
    f_equal. destruct db as [rs ps es]. unfold set_proposals. simpl. f_equal.
    rewrite <-map_fmap_compose. apply map_fmap_ext. intros id p Hp. simpl.
    destruct (sweepable now p) eqn:Hs; simpl; [done|]. by rewrite Hs.
Qed.

End SweepFacts.

Lemma expire_sweep_complete_witness :
  let db := Demo.db_with [Demo.proposal "p-1" operate pending ∅ (Demo.payload None "1" "2");
                          Demo.proposal "p-2" create_session submitted Demo.both_signed
                            (Demo.payload None "0" "0")] in
  (expire_POST 90000000 (Some "s3cret") (Some "s3cret") None db).2
  = apiOk (ExpiredData 1) 200.
Proof.
  intros db.
  destruct (expire_sweep_complete 90000000 (Some "s3cret") (Some "s3cret")
              None db) as (Hcount & _).
  - vm_compute. reflexivity.
  - rewrite Hcount. vm_compute. reflexivity.
Defined.

(* ===================================================================== *)
(** ** What every request keeps *)
(* ===================================================================== *)

Section RouteKeeps.
Context `{Platform} (R : relation DB) `{!PreOrder R}.

Lemma keeps_ret {A} (a : A) : Route_keeps R (ret a).
Proof. intros db. reflexivity. Qed.

Lemma keeps_bail {A} (r : NextResponse) : Route_keeps R (bail (A := A) r).
Proof. intros db. reflexivity. Qed.

Lemma keeps_query {A} (f : DB → A) : Route_keeps R (query f).
Proof. intros db. reflexivity. Qed.

Lemma keeps_bind {A B} (m : Route A) (k : A → Route B) :
  Route_keeps R m → (∀ a, Route_keeps R (k a)) → Route_keeps R (bind m k).
Proof.
  intros Hm Hk db. unfold bind. pose proof (Hm db) as Hdb.
  destruct (m db) as [db' [r|a]]; [done|].
  simpl in Hdb. etrans; [exact Hdb|apply Hk].
Qed.

Lemma keeps_return_if (c : bool) (r : NextResponse) : Route_keeps R (return_if c r).
Proof. unfold return_if. destruct c; [apply keeps_bail|apply keeps_ret]. Qed.

Lemma keeps_required (field : option string) (r : NextResponse) :
  Route_keeps R (required field r).
Proof. unfold required. repeat case_match; first [apply keeps_bail|apply keeps_ret]. Qed.

Lemma keeps_single_or_404 {A} (row : option A) : Route_keeps R (single_or_404 row).
Proof. unfold single_or_404. case_match; [apply keeps_ret|apply keeps_bail]. Qed.

Lemma keeps_try_call {A} (fallback : string) (t : Throws A) :
  Route_keeps R (try_call fallback t).
Proof. unfold try_call. case_match; [apply keeps_ret|apply keeps_bail]. Qed.

Lemma keeps_exec (f : DB → DB) : (∀ db, R db (f db)) → Route_keeps R (exec f).
Proof. intros Hf db. apply Hf. Qed.

Lemma keeps_exec_checked (f : DB → DbError + DB) :
  (∀ db db', f db = inr db' → R db db') → Route_keeps R (exec_checked f).
Proof.
  intros Hf db. unfold exec_checked. destruct (f db) as [e|db'] eqn:Hrun; [reflexivity|].
  by apply Hf.
Qed.

Lemma keeps_respond (m : Route NextResponse) (db : DB) :
  Route_keeps R m → R db (respond m db).1.
Proof. intros Hm. unfold respond. pose proof (Hm db). by destruct (m db) as [db' [r|r]]. Qed.

End RouteKeeps.

(** a handler body keeps a relation when each of its writes does *)
Ltac keeps_order := try match goal with |- PreOrder _ => apply _ end.

Ltac keeps_step :=
  cbv beta zeta;
  first [ apply keeps_bind; keeps_order; [|intros ?]
        | first [ apply keeps_ret | apply keeps_bail | apply keeps_query
                | apply keeps_return_if | apply keeps_required
                | apply keeps_single_or_404 | apply keeps_try_call ]; keeps_order
        | match goal with
          | |- Route_keeps _ (if ?c then _ else _) => destruct c
          | |- Route_keeps _ (match ?x with _ => _ end) => destruct x
          | |- Route_keeps _ (from_option _ _ _) => unfold from_option
          end ].

Ltac keeps_writes R := apply (keeps_respond R); keeps_order; repeat keeps_step.

Section EventLog.
Context `{Platform}.

Lemma insert_event_kept (e : RoomEvent) (db db' : DB) :
  insert_event e db = inr db' → events_kept db db'.
Proof.
  unfold insert_event, events_kept. repeat case_match; try done. intros [= <-]. simpl.
  apply insert_subseteq. apply eq_None_not_Some.
  match goal with
  | Hpk : bool_decide (is_Some _) = false |- _ => by apply bool_decide_eq_false in Hpk
  end.
Qed.

Lemma insert_proposal_events (p : Proposal) (db db' : DB) :
  insert_proposal p db = inr db' → events_kept db db'.
Proof. unfold insert_proposal, events_kept. repeat case_match; try done. by intros [= <-]. Qed.

Lemma insert_room_events (r : Room) (db db' : DB) :
  insert_room r db = inr db' → events_kept db db'.
Proof. unfold insert_room, events_kept. repeat case_match; try done. by intros [= <-]. Qed.

Ltac events_writes :=
  first [ apply keeps_exec; keeps_order; intros ?; unfold events_kept; simpl; reflexivity
        | apply keeps_exec_checked; keeps_order; intros ? ?;
          first [ apply insert_event_kept | apply insert_proposal_events
                | apply insert_room_events ] ].

(** X12.  The event log is append-only: whatever the request, every route
    leaves each event that is in the log in it, exactly as it was written. *)
Theorem routes_append_events (db : DB) (e : string) (ev : RoomEvent) :
  events db !! e = Some ev →
  (∀ now uuid1 uuid2 body, events (rooms_POST now uuid1 uuid2 body db).1 !! e = Some ev)
  ∧ (∀ now uuid1 uuid2 body,
       events (proposals_POST now uuid1 uuid2 body db).1 !! e = Some ev)
  ∧ (∀ now uuid id body, events (sign_POST now uuid id body db).1 !! e = Some ev)
  ∧ (∀ now uuid id body, events (submit_POST now uuid id body db).1 !! e = Some ev)
  ∧ (∀ now secret header authorization,
       events (expire_POST now secret header authorization db).1 !! e = Some ev).
Proof.
  intros He.
  assert (∀ db', events_kept db db' → events db' !! e = Some ev) as Hkept.
  { intros db' Hsub. by apply (lookup_weaken _ _ _ _ He). }
  split; [|split; [|split; [|split]]]; intros; apply Hkept.
  - unfold rooms_POST. keeps_writes events_kept; events_writes.
  - unfold proposals_POST. keeps_writes events_kept; events_writes.
  - unfold sign_POST. keeps_writes events_kept; events_writes.
  - unfold submit_POST. keeps_writes events_kept; events_writes.
  - unfold expire_POST. keeps_writes events_kept; events_writes.
Qed.

End EventLog.

Lemma routes_append_events_witness :
  let p := Demo.proposal "p-1" operate pending ∅ (Demo.payload None "1" "2") in
  let db1 := (@sign_POST Demo.platform 2000 "e-1" "p-1"
                {| sb_wallet := Some Demo.Alice;
                   sb_signature := Some (Demo.sig_of Demo.alice) |} (Demo.db_with [p])).1 in
  ∃ ev, events db1 !! "e-1" = Some ev
        ∧ events (@sign_POST Demo.platform 3000 "e-2" "p-1"
                    {| sb_wallet := Some Demo.bob;
                       sb_signature := Some (Demo.sig_of Demo.bob) |} db1).1 !! "e-1"
          = Some ev.
Proof.
  intros p db1.
  destruct (events db1 !! "e-1") as [ev|] eqn:Hev; [|vm_compute in Hev; discriminate].
  exists ev. split; [reflexivity|].
  destruct (@routes_append_events Demo.platform db1 "e-1" ev Hev) as (_ & _ & Hsign & _).
  apply Hsign.
Defined.

Section RoomsWellformed.
Context `{Platform}.

Lemma rooms_wellformed_rooms (db db' : DB) :
  rooms db' = rooms db → rooms_wellformed_kept db db'.
Proof. unfold rooms_wellformed_kept, rooms_wellformed. by intros ->. Qed.

Lemma update_room_wellformed (id : string) (f : Room → Room) (db : DB) :
  (∀ r, room_wellformed r → room_wellformed (f r)) →
  rooms_wellformed_kept db (update_room id f db).
Proof.
  intros Hf Hall i r. unfold update_room. simpl.
  destruct (decide (id = i)) as [<-|Hne].
  - rewrite lookup_alter_eq. destruct (rooms db !! id) as [r0|] eqn:Hr0; [|done].
    intros [= <-]. apply Hf. by apply (Hall id).
  - rewrite lookup_alter_ne by done. apply Hall.
Qed.

Lemma insert_event_rooms (e : RoomEvent) (db db' : DB) :
  insert_event e db = inr db' → rooms db' = rooms db.
Proof. unfold insert_event. repeat case_match; try done. by intros [= <-]. Qed.

Lemma insert_proposal_rooms (p : Proposal) (db db' : DB) :
  insert_proposal p db = inr db' → rooms db' = rooms db.
Proof. unfold insert_proposal. repeat case_match; try done. by intros [= <-]. Qed.

Ltac rooms_writes :=
  first [ apply keeps_exec; keeps_order; intros ?;
          first [ by apply rooms_wellformed_rooms
                | apply update_room_wellformed; by intros ? ]
        | apply keeps_exec_checked; keeps_order; intros ? ? ?;
          apply rooms_wellformed_rooms;
          first [ by eapply insert_event_rooms | by eapply insert_proposal_rooms ] ].

(** the room route stores well-formed rooms only *)
Lemma rooms_POST_wellformed (now : Z) (uuid1 uuid2 : string) (body : RoomBody) (db : DB) :
  rooms_wellformed db → rooms_wellformed (rooms_POST now uuid1 uuid2 body db).1.
Proof.
  intros Hall. unfold rooms_POST, insert_room, insert_event.
  destruct body as [createdBy participantB assetSymbol chainId]. route_cases.
  all: try exact Hall.
  all: apply map_Forall_insert_2; [|exact Hall].
  all: unfold room_wellformed; simpl.
  all: rewrite !normalizeAddress_idem.
  all: repeat match goal with
              | Hn : negb _ = false |- _ => apply negb_false_iff in Hn
              | Hn : bool_decide _ = true |- _ => apply bool_decide_eq_true in Hn
              | Hn : bool_decide _ = false |- _ => apply bool_decide_eq_false in Hn
              end.
  all: done.
Qed.

(** X13.  Every stored room has two distinct, lower-case participants, the
    first of them its creator, on Sepolia and with an allowed asset: the
    room route stores such rooms only and no request to any route breaks
    it. *)
Theorem routes_keep_rooms_wellformed (db : DB) :
  rooms_wellformed db →
  (∀ now uuid1 uuid2 body, rooms_wellformed (rooms_POST now uuid1 uuid2 body db).1)
  ∧ (∀ now uuid1 uuid2 body, rooms_wellformed (proposals_POST now uuid1 uuid2 body db).1)
  ∧ (∀ now uuid id body, rooms_wellformed (sign_POST now uuid id body db).1)
  ∧ (∀ now uuid id body, rooms_wellformed (submit_POST now uuid id body db).1)
  ∧ (∀ now secret header authorization,
       rooms_wellformed (expire_POST now secret header authorization db).1).
Proof.
  intros Hall.
  assert (∀ db', rooms_wellformed_kept db db' → rooms_wellformed db') as Hkept.
  { intros db' Himp. by apply Himp. }
  split; [|split; [|split; [|split]]]; intros.
  - by apply rooms_POST_wellformed.
  - apply Hkept. unfold proposals_POST. keeps_writes rooms_wellformed_kept; rooms_writes.
  - apply Hkept. unfold sign_POST. keeps_writes rooms_wellformed_kept; rooms_writes.
  - apply Hkept. unfold submit_POST. keeps_writes rooms_wellformed_kept; rooms_writes.
  - apply Hkept. unfold expire_POST. keeps_writes rooms_wellformed_kept; rooms_writes.
Qed.

End RoomsWellformed.

Lemma routes_keep_rooms_wellformed_witness :
  rooms_wellformed
    (@rooms_POST Demo.platform 5000 "room-2" "e-9"
       {| rb_createdBy := Some Demo.Alice; rb_participantB := Some Demo.carol;
          rb_assetSymbol := Some "WETH"; rb_chainId := Some (Integer 11155111) |}
       (Demo.db_with [])).1
  ∧ is_Some (rooms (@rooms_POST Demo.platform 5000 "room-2" "e-9"
       {| rb_createdBy := Some Demo.Alice; rb_participantB := Some Demo.carol;
          rb_assetSymbol := Some "WETH"; rb_chainId := Some (Integer 11155111) |}
       (Demo.db_with [])).1 !! "room-2").
Proof.
  assert (rooms_wellformed (Demo.db_with [])) as Hok.
  { apply (bool_decide_unpack (rooms_wellformed _)). vm_compute. exact I. }
  destruct (@routes_keep_rooms_wellformed Demo.platform _ Hok) as (Hrooms & _).
  split; [apply Hrooms|].
  vm_compute. eexists. reflexivity.
Defined.

Section ProposalsKept.
Context `{Platform}.





End ProposalsKept.


Section Outsiders.
Context `{Platform}.

(** X15.  A wallet that is not a participant of the room cannot create,
    sign or report on a proposal of that room: its request leaves the store
    as it was, except that a sign or submit request on an overdue proposal
    marks that proposal expired, whoever sends it. *)
Theorem outsiders_write_nothing (db : DB) (wallet : string) :
  store_ok db →
  (∀ now uuid1 uuid2 body roomId room,
     cb_roomId body = Some roomId → cb_actor body = Some wallet →
     rooms db !! roomId = Some room → isParticipant room wallet = false →
     (proposals_POST now uuid1 uuid2 body db).1 = db)
  ∧ (∀ now uuid id body p room,
       sb_wallet body = Some wallet → proposals db !! id = Some p →
       rooms db !! room_id p = Some room → isParticipant room wallet = false →
       (sign_POST now uuid id body db).1 = db
       ∨ expires_at p < now
         ∧ (sign_POST now uuid id body db).1 = update_proposal id (with_status expired) db)
  ∧ (∀ now uuid id body p room,
       sub_wallet body = Some wallet → proposals db !! id = Some p →
       rooms db !! room_id p = Some room → isParticipant room wallet = false →
       (submit_POST now uuid id body db).1 = db
       ∨ expires_at p < now
         ∧ (submit_POST now uuid id body db).1
           = update_proposal id (with_status expired) db).
Proof.
  intros (Hkeyed & Hrooms & Huniq). split; [|split].
  - intros now uuid1 uuid2 body roomId room HroomId Hactor Hroom Hout.
    destruct (proposals_POST_cases now uuid1 uuid2 body db)
      as [[-> _]|(roomId' & actor' & kindName & k & payloadJson & payloadHash & quorum & room'
                  & db1 & HroomId' & Hactor' & _ & _ & _ & _ & _ & _ & _ & _ & _ & Hroom'
                  & Hpart & _)]; [done|].
    congruence.
  - intros now uuid id body p room Hwallet Hp Hroom Hout.
    destruct (sign_POST_cases now uuid id body db Hkeyed)
      as [[-> _]|[(p' & Hp' & _ & Hexp & ->)
                 |(p' & room' & w & signature & Hw & _ & _ & Hp' & _ & _ & Hroom' & Hpart & _)]].
    + by left.
    + right. by simplify_eq.
    + congruence.
  - intros now uuid id body p room Hwallet Hp Hroom Hout.
    destruct (submit_POST_cases now uuid id body db Hkeyed Hrooms)
      as [[-> _]|[(p' & Hp' & Hexp & ->)
                 |(p' & room' & w & next & Hw & Hp' & _ & Hroom' & Hpart & _)]].
    + by left.
    + right. by simplify_eq.
    + congruence.
Qed.

End Outsiders.

Lemma outsiders_write_nothing_witness :
  let p := Demo.proposal "p-1" operate ready Demo.both_signed (Demo.payload None "1" "2") in
  (@submit_POST Demo.platform 2000 "e-1" "p-1"
     {| sub_wallet := Some Demo.carol; sub_outcome := Some "submitted";
        sub_sdkResult := Some "state accepted"; sub_appSessionId := None;
        sub_error := None |} (Demo.db_with [p])).1 = Demo.db_with [p].
Proof.
  intros p.
  assert (store_ok (Demo.db_with [p])) as Hok.
  { apply (bool_decide_unpack (store_ok _)). vm_compute. exact I. }
  destruct (@outsiders_write_nothing Demo.platform _ Demo.carol Hok) as (_ & _ & Hsubmit).
  destruct (Hsubmit 2000 "e-1" "p-1"
              {| sub_wallet := Some Demo.carol; sub_outcome := Some "submitted";
                 sub_sdkResult := Some "state accepted"; sub_appSessionId := None;
                 sub_error := None |} p Demo.room) as [Hsame|[Hexp _]].
  - reflexivity.
  - vm_compute. reflexivity.
  - vm_compute. reflexivity.
  - vm_compute. reflexivity.
  - exact Hsame.
  - vm_compute in Hexp. discriminate Hexp.
Defined.

(* ===================================================================== *)
(** ** Signature checking ([src/lib/relay.ts]) *)
(* ===================================================================== *)

Section SignatureFacts.
Context `{Platform}.

Lemma stripWalletQuorumPrefix_prefixed (raw : string) :
  stripWalletQuorumPrefix ("0xa1" ++ raw) = Returns ("0x" ++ raw)
  ∧ stripWalletQuorumPrefix ("0xA1" ++ raw) = Returns ("0x" ++ raw).
Proof. split; unfold stripWalletQuorumPrefix; simpl; by destruct raw. Qed.

(** X16.  The signature check accepts a signature that carries the
    wallet-quorum prefix [0xa1] exactly when the raw signature behind the
    prefix recovers, over the payload hash, to the wallet; the prefix may be
    in either case and the addresses are compared without regard to case. *)
Theorem assertWalletSignedHash_prefixed (wallet hash raw : string) :
  (assertWalletSignedHash wallet hash ("0xa1" ++ raw) = Returns tt
   ↔ ∃ recovered, recoverMessageAddress hash ("0x" ++ raw) = Returns recovered
                  ∧ toLowerCase recovered = toLowerCase wallet)
  ∧ assertWalletSignedHash wallet hash ("0xA1" ++ raw)
    = assertWalletSignedHash wallet hash ("0xa1" ++ raw)
  ∧ assertWalletSignedHash (toLowerCase wallet) hash ("0xa1" ++ raw)
    = assertWalletSignedHash wallet hash ("0xa1" ++ raw).
Proof.
  destruct (stripWalletQuorumPrefix_prefixed raw) as [Hlower Hupper].
  unfold assertWalletSignedHash. rewrite Hlower, Hupper.
  split; [|split; [done|]].
  - destruct (recoverMessageAddress hash ("0x" ++ raw)) as [recovered|e]; [|naive_solver].
    unfold normalizeAddress. case_bool_decide; simpl; naive_solver.
  - destruct (recoverMessageAddress hash ("0x" ++ raw)) as [recovered|e]; [|done].
    by rewrite normalizeAddress_idem.
Qed.

End SignatureFacts.

Lemma assertWalletSignedHash_prefixed_witness :
  @assertWalletSignedHash Demo.platform Demo.Alice Demo.hash
    ("0xa1" ++ slice 2 (Demo.sig_of Demo.alice)) = Returns tt.
Proof.
  destruct (@assertWalletSignedHash_prefixed Demo.platform Demo.Alice Demo.hash
              (slice 2 (Demo.sig_of Demo.alice))) as (Hiff & _).
  apply Hiff. exists Demo.alice. split; vm_compute; reflexivity.
Defined.

(* ===================================================================== *)
(** ** Further properties of the submitting client *)
(* ===================================================================== *)

Section ClientFurther.
Context `{Platform} `{SessionService}.

Lemma ensureWallet_not_only_depositor (cs : ClientState) (assetSymbol : string) :
  ensureWalletCanSubmitSessionDeposit cs assetSymbol ≠ Raises only_depositor.
Proof.
  unfold ensureWalletCanSubmitSessionDeposit.
  destruct (getLatestState (walletAddress cs) assetSymbol) as [latest|e]; simpl.
  - destruct (negb (truthy_opt latest)); simpl; [|done].
    by vm_compute.
  - destruct (isRetryableSubmitError e) eqn:Hretry; [|done].
    intros [= ->]. by vm_compute in Hretry.
Qed.

Lemma head_positiveParticipants (deltas : list (string * string)) (d : string) :
  head deltas.*1 = Some d → d ∈ positiveParticipants deltas.
Proof.
  unfold positiveParticipants. destruct deltas as [|[x a] tl]; simpl; [done|].
  intros [= ->]. set_solver.
Qed.

(** X17.  The Apply button and the depositor check agree: when
    [canSubmitActiveProposal] is true for a deposit proposal, the connected
    wallet is the first participant whose allocation increases, and the
    depositor check of [submitProposal] does not refuse it. *)
Theorem canSubmit_passes_depositor_check (cs : ClientState) (proposal : Proposal)
    (base : gmap string Z) (payload_allocations : list RPCAppSessionAllocation)
    (deltas : list (string * string)) :
  activeProposal (cached_proposals cs) = Some proposal →
  kind proposal = operate →
  is_deposit (payload_json proposal) = true →
  allocations (payload_json proposal) = Some payload_allocations →
  baseByParticipant cs = Returns base →
  positiveDeltas base payload_allocations = Returns deltas →
  canSubmitActiveProposal cs = Returns true →
  status proposal = ready
  ∧ head deltas.*1 = Some (normalizeAddress (walletAddress cs))
  ∧ depositGuard cs (payload_json proposal) ≠ Raises only_depositor.
Proof.
  intros Hactive Hkind Hdep Hallocs Hbase Hdeltas.
  unfold canSubmitActiveProposal, activeDepositSubmitter.
  rewrite Hactive, Hkind, Hdep, Hallocs, Hbase. cbn [andThen].
  rewrite (firstIncrease_head _ _ _ Hdeltas).
  rewrite (bool_decide_eq_true_2 (operate = operate)) by done. cbn [negb andb andThen].
  case_bool_decide as Hready; cbn [negb]; [|done].
  destruct (head deltas.*1) as [d|] eqn:Hhead; [|done].
  intros [= Hsame]. apply andb_true_iff in Hsame as [_ Hd].
  apply bool_decide_eq_true in Hd. subst d.
  split; [done|]. split; [done|].
  unfold depositGuard. rewrite Hbase, Hallocs. cbn [andThen from_option].
  rewrite Hdeltas. cbn [andThen].
  rewrite (bool_decide_eq_true_2 (normalizeAddress (walletAddress cs)
                                  ∈ positiveParticipants deltas))
    by by apply head_positiveParticipants.
  rewrite andb_false_r.
  case_bool_decide; [apply ensureWallet_not_only_depositor|done].
Qed.

Lemma Object_values_nonempty (o : gmap string string) :
  o ≠ ∅ → length (Object_values o) ≠ 0%nat.
Proof.
  intros Hne Hlen. apply Hne. apply map_to_list_empty_iff.
  unfold Object_values in Hlen. rewrite length_fmap in Hlen.
  by apply nil_length_inv.
Qed.

(** X18.  When the session service accepts the call, [submitProposal]
    reports the outcome to the relay and the proposal ends submitted with
    the result of the service; the session id that [createAppSession]
    returned is attached to the room. *)
Theorem submitProposal_reports_success (now1 now2 : Z) (uuid1 uuid2 : string)
    (cs : ClientState) (proposal : Proposal) (db : DB) (room : Room)
    (sdkResult : string) (appSessionId : option string) :
  walletAddress cs ≠ "" → isAddress (walletAddress cs) = true →
  proposals db !! p_id proposal = Some proposal → status proposal = ready →
  signatures_json proposal ≠ ∅ →
  now1 ≤ expires_at proposal →
  rooms db !! room_id proposal = Some room → r_id room = room_id proposal →
  isParticipant room (walletAddress cs) = true →
  events db !! uuid1 = None →
  callSessionService cs proposal (Object_values (signatures_json proposal))
  = Returns (sdkResult, appSessionId) →
  let run := submitProposal now1 now2 uuid1 uuid2 cs proposal (Returns tt) db in
  ∃ p' room',
    run.2 = "Proposal submitted successfully."
    ∧ proposals run.1 !! p_id proposal = Some p'
    ∧ status p' = submitted ∧ sdk_result_json p' = Some (SdkResult sdkResult)
    ∧ rooms run.1 !! room_id proposal = Some room'
    ∧ (kind proposal = create_session → appSessionId ≠ None → appSessionId ≠ Some "" →
       app_session_id room' = appSessionId)
    ∧ (kind proposal = close_session → r_status room' = closed).
Proof.
  intros Hw Haddr Hp Hst Hsigs Hexp Hr Hrid Hpart Hfresh Hcall run. subst run.
  destruct (submit_POST_submitted_ok now1 uuid1 (p_id proposal) (walletAddress cs)
              (Some "submitted") (Some sdkResult) appSessionId None db proposal room)
    as (db' & Hrun & Hps & Hrs); try assumption; try reflexivity; [by right|].
  unfold submitProposal.
  rewrite (bool_decide_eq_false_2 _ (Object_values_nonempty _ Hsigs)).
  rewrite Hcall, Hrun. cbn [postJson response_ok apiOk andThen fst snd].
  simpl. eexists _, _. split; [reflexivity|].
  split; [rewrite Hps; apply lookup_insert_eq|].
  split; [reflexivity|]. split; [reflexivity|].
  split; [rewrite Hrs; apply lookup_insert_eq|].
  unfold applied_room. split.
  - intros -> Hs1 Hs2. destruct appSessionId as [[|c s]|]; done.
  - by intros ->.
Qed.

End ClientFurther.

Lemma canSubmit_passes_depositor_check_witness :
  let p := Demo.proposal "p-1" operate ready Demo.both_signed
             (Demo.payload (Some "deposit") "5" "0") in
  depositGuard (H := Demo.platform) (H0 := Demo.accepting)
    (Demo.client Demo.Alice [p]) (payload_json p) ≠ Raises only_depositor.
Proof.
  intros p.
  destruct (@canSubmit_passes_depositor_check Demo.platform Demo.accepting
              (Demo.client Demo.Alice [p]) p
              (new_Map [(Demo.alice ++ "::usdc", 0); (Demo.bob ++ "::usdc", 0)])
              [ {| participant := Demo.alice; asset := "usdc"; amount := "5" |};
                {| participant := Demo.bob; asset := "usdc"; amount := "0" |} ]
              [(Demo.alice, "usdc")]) as (_ & _ & Hguard).
  - vm_compute. reflexivity.
  - reflexivity.
  - vm_compute. reflexivity.
  - vm_compute. reflexivity.
  - vm_compute. reflexivity.
  - vm_compute. reflexivity.
  - vm_compute. reflexivity.
  - exact Hguard.
Defined.

Lemma submitProposal_reports_success_witness :
  let p := Demo.proposal "p-1" create_session ready Demo.both_signed
             (Demo.payload None "0" "0") in
  let run := submitProposal (H := Demo.platform) (H0 := Demo.accepting)
               2000 2000 "e-1" "e-2" (Demo.client Demo.Alice [p]) p (Returns tt)
               (Demo.db_with [p]) in
  ∃ p' room', proposals run.1 !! "p-1" = Some p' ∧ status p' = submitted
              ∧ rooms run.1 !! "room-1" = Some room'
              ∧ app_session_id room' = Some "0xsession".
Proof.
  intros p run.
  destruct (@submitProposal_reports_success Demo.platform Demo.accepting
              2000 2000 "e-1" "e-2" (Demo.client Demo.Alice [p]) p (Demo.db_with [p])
              Demo.room "created" (Some "0xsession"))
    as (p' & room' & _ & Hp' & Hst & _ & Hr' & Hcreate & _).
  - discriminate.
  - vm_compute. reflexivity.
  - vm_compute. reflexivity.
  - reflexivity.
  - intros Hempty.
    assert (signatures_json p !! Demo.bob = None) as Hnone by (rewrite Hempty; reflexivity).
    vm_compute in Hnone. discriminate Hnone.
  - vm_compute. discriminate.
  - vm_compute. reflexivity.
  - reflexivity.
  - vm_compute. reflexivity.
  - vm_compute. reflexivity.
  - vm_compute. reflexivity.
  - exists p', room'. split; [exact Hp'|]. split; [exact Hst|]. split; [exact Hr'|].
    apply Hcreate; [reflexivity|discriminate|discriminate].
Defined.

(* ===================================================================== *)
(** ** The proposals the client builds *)
(* ===================================================================== *)

Section LedgerFacts.
Context `{Platform} `{SessionService}.

(** the ledger has one entry for each participant, in the room's asset *)
Lemma getRoomSessionAllocations_shape (cs : ClientState) (l : list RPCAppSessionAllocation) :
  getRoomSessionAllocations cs = Returns l →
  ∃ x y,
    l = [ {| participant := participant_a (activeRoom cs);
             asset := asset_symbol (activeRoom cs); amount := BigInt_toString x |};
          {| participant := participant_b (activeRoom cs);
             asset := asset_symbol (activeRoom cs); amount := BigInt_toString y |} ].
Proof.
  unfold getRoomSessionAllocations. cbv zeta.
  destruct (fillByParticipant _ _ _) as [m|e]; simpl; [|done].
  intros [= <-]. by eexists _, _.
Qed.

Lemma fillByParticipant_dom (room : Room) (l : list RPCAppSessionAllocation)
    (m m' : gmap string Z) :
  fillByParticipant room m l = Returns m' → dom m' = dom m.
Proof.
  revert m. induction l as [|allocation rest IH]; intros m; simpl.
  - by intros [= <-].
  - repeat case_match; simplify_eq/=; try apply IH.
    + destruct (BigInt (amount allocation)) as [n|e]; simpl; [|done].
      intros Hrest. apply IH in Hrest. rewrite Hrest, dom_insert_L.
      match goal with
      | Hin : negb (bool_decide (is_Some _)) = false |- _ =>
          apply negb_false_iff, bool_decide_eq_true, elem_of_dom in Hin
      end.
      set_solver.
Qed.


End LedgerFacts.

Lemma length_append (a b : string) :
  String.length (a ++ b) = (String.length a + String.length b)%nat.
Proof. induction a as [|c a IH]; simpl; [done|]. by rewrite IH. Qed.

Lemma append_inj_tail (s a b : string) : a ++ s = b ++ s → a = b.
Proof.
  revert b. induction a as [|c a IH]; intros [|c' b] Heq.
  - done.
  - apply (f_equal String.length) in Heq. rewrite !length_append in Heq. simpl in Heq. lia.
  - apply (f_equal String.length) in Heq. rewrite !length_append in Heq. simpl in Heq. lia.
  - change (String c (a ++ s) = String c' (b ++ s)) in Heq.
    injection Heq as -> Heq. f_equal. by apply IH.
Qed.

Lemma normalizeAddress_ne_empty (w : string) : w ≠ "" → truthy (normalizeAddress w) = true.
Proof. by destruct w. Qed.

Section BuilderFacts.
Context `{Platform} `{SessionService}.


Lemma getRoomSessionAllocations_with_proposal (cs : ClientState) (p : Proposal) :
  is_active (status p) = true →
  getRoomSessionAllocations (with_proposal p cs) = getRoomSessionAllocations cs.
Proof.
  intros Hact. unfold getRoomSessionAllocations. cbv zeta. simpl.
  rewrite (bool_decide_eq_false_2 (status p = submitted)); [done|].
  by destruct (status p).
Qed.

Lemma requesterOf_participant (cs : ClientState) :
  isParticipant (activeRoom cs) (walletAddress cs) = true →
  normalizeAddress (requesterOf cs) = normalizeAddress (walletAddress cs).
Proof.
  intros Hpart. apply isParticipant_iff in Hpart. unfold requesterOf. cbv zeta.
  case_bool_decide as Ha; [done|]. destruct Hpart as [Hpa|Hpb]; [|done].
  by rewrite Hpa in Ha.
Qed.

(** X20.  The purchase proposal that [createOperateProposal] builds moves
    exactly the requested amount from the requester to the other
    participant: the amount is positive and at most the requester's balance
    in the ledger, so the two new balances add up to the old ones and none
    of them falls below zero when the old ones do not. *)
Theorem operate_moves_amount (cs : ClientState) (rawAmount : Z)
    (l : list RPCAppSessionAllocation) :
  normalizeAddress (participant_a (activeRoom cs))
  ≠ normalizeAddress (participant_b (activeRoom cs)) →
  operateAllocations cs rawAmount = Returns l →
  ∃ sa sb mine theirs,
    getRoomSessionAllocations cs
    = Returns [ {| participant := participant_a (activeRoom cs);
                   asset := asset_symbol (activeRoom cs); amount := sa |};
                {| participant := participant_b (activeRoom cs);
                   asset := asset_symbol (activeRoom cs); amount := sb |} ]
    ∧ (requesterOf cs = participant_a (activeRoom cs)
       ∧ counterpartyOf cs = participant_b (activeRoom cs)
       ∧ BigInt sa = Returns mine ∧ BigInt sb = Returns theirs
       ∨ requesterOf cs = participant_b (activeRoom cs)
         ∧ counterpartyOf cs = participant_a (activeRoom cs)
         ∧ BigInt sb = Returns mine ∧ BigInt sa = Returns theirs)
    ∧ 0 < rawAmount ≤ mine
    ∧ l = [ {| participant := requesterOf cs; asset := asset_symbol (activeRoom cs);
               amount := BigInt_toString (mine - rawAmount) |};
            {| participant := counterpartyOf cs; asset := asset_symbol (activeRoom cs);
               amount := BigInt_toString (theirs + rawAmount) |} ]
    ∧ (mine - rawAmount) + (theirs + rawAmount) = mine + theirs.
Proof.
  intros Hdist. unfold operateAllocations. cbv zeta.
  destruct (rawAmount <=? 0) eqn:Hpos; [done|].
  destruct (getRoomSessionAllocations cs) as [base|e] eqn:Hbase; [|done].
  destruct (getRoomSessionAllocations_shape cs base Hbase) as (x & y & ->).
  cbn [andThen balanceEntries participant amount].
  destruct (BigInt (BigInt_toString x)) as [x'|e] eqn:Hx; [|done].
  destruct (BigInt (BigInt_toString y)) as [y'|e] eqn:Hy; [|done].
  cbn [andThen]. unfold new_Map. cbn [foldl fst snd].
  assert (participant_a (activeRoom cs) ≠ participant_b (activeRoom cs)) as Hraw
    by (intros Heq; by rewrite Heq in Hdist).
  assert (normalizeAddress (participant_b (activeRoom cs))
          ≠ normalizeAddress (participant_a (activeRoom cs))) as Hdist'
    by (intros Heq; by apply Hdist).
  unfold counterpartyOf, requesterOf. cbv zeta.
  case_bool_decide as Hwallet.
  - rewrite (bool_decide_eq_true_2 (participant_a (activeRoom cs)
                                    = participant_a (activeRoom cs))) by done.
    rewrite (lookup_insert_ne _ (normalizeAddress (participant_b (activeRoom cs)))
               (normalizeAddress (participant_a (activeRoom cs)))) by done.
    rewrite !lookup_insert_eq. cbn [default from_option id].
    destruct (x' <? rawAmount) eqn:Hbal; [done|]. intros [= <-].
    exists (BigInt_toString x), (BigInt_toString y), x', y'.
    split; [done|]. split; [by left|]. split; [lia|]. split; [done|lia].
  - rewrite (bool_decide_eq_false_2 (participant_b (activeRoom cs)
                                     = participant_a (activeRoom cs))) by done.
    rewrite (lookup_insert_ne _ (normalizeAddress (participant_b (activeRoom cs)))
               (normalizeAddress (participant_a (activeRoom cs)))) by done.
    rewrite !lookup_insert_eq. cbn [default from_option id].
    destruct (y' <? rawAmount) eqn:Hbal; [done|]. intros [= <-].
    exists (BigInt_toString x), (BigInt_toString y), y', x'.
    split; [done|]. split; [by right|]. split; [lia|]. split; [done|lia].
Qed.

End BuilderFacts.

Section DepositBuilder.
Context `{Platform} `{SessionService}.

Lemma allocationKey_ne (a b : RPCAppSessionAllocation) :
  asset a = asset b →
  normalizeAddress (participant a) ≠ normalizeAddress (participant b) →
  allocationKey a ≠ allocationKey b.
Proof.
  intros Hasset Hne Hkey. apply Hne. unfold allocationKey in Hkey. rewrite Hasset in Hkey.
  by apply append_inj_tail in Hkey.
Qed.

(** the allocations [createDepositProposal] builds from a ledger *)
Lemma depositAllocations_built (cs : ClientState) (rawAmount x y : Z)
    (l : list RPCAppSessionAllocation) :
  normalizeAddress (participant_a (activeRoom cs))
  ≠ normalizeAddress (participant_b (activeRoom cs)) →
  isParticipant (activeRoom cs) (walletAddress cs) = true →
  getRoomSessionAllocations cs
  = Returns [ {| participant := participant_a (activeRoom cs);
                 asset := asset_symbol (activeRoom cs); amount := BigInt_toString x |};
              {| participant := participant_b (activeRoom cs);
                 asset := asset_symbol (activeRoom cs); amount := BigInt_toString y |} ] →
  BigInt (BigInt_toString x) = Returns x → BigInt (BigInt_toString y) = Returns y →
  depositAllocations cs rawAmount = Returns l →
  0 < rawAmount
  ∧ ∃ da db,
      l = [ {| participant := participant_a (activeRoom cs);
               asset := asset_symbol (activeRoom cs);
               amount := BigInt_toString (x + da) |};
            {| participant := participant_b (activeRoom cs);
               asset := asset_symbol (activeRoom cs);
               amount := BigInt_toString (y + db) |} ]
      ∧ (normalizeAddress (walletAddress cs)
         = normalizeAddress (participant_a (activeRoom cs))
         ∧ da = rawAmount ∧ db = 0
         ∨ normalizeAddress (walletAddress cs)
           = normalizeAddress (participant_b (activeRoom cs))
           ∧ da = 0 ∧ db = rawAmount).
Proof.
  intros Hdist Hpart Hledger Hx Hy. unfold depositAllocations. cbv zeta.
  destruct (rawAmount <=? 0) eqn:Hpos; [done|].
  destruct (ensureWalletCanSubmitSessionDeposit cs _) as [[]|e]; [|done].
  cbn [andThen]. rewrite Hledger. cbn [andThen addToRequester participant asset amount].
  assert (normalizeAddress (participant_b (activeRoom cs))
          ≠ normalizeAddress (participant_a (activeRoom cs))) as Hdist'
    by (intros Heq; by apply Hdist).
  apply isParticipant_iff in Hpart.
  destruct (decide (normalizeAddress (walletAddress cs)
                    = normalizeAddress (participant_a (activeRoom cs)))) as [Hwallet|Hwallet].
  - assert (requesterOf cs = participant_a (activeRoom cs)) as ->
      by (unfold requesterOf; cbv zeta; by rewrite bool_decide_eq_true_2).
    rewrite (bool_decide_eq_true_2 (normalizeAddress (participant_a (activeRoom cs))
                                    = normalizeAddress (participant_a (activeRoom cs))))
      by done.
    rewrite (bool_decide_eq_false_2 (normalizeAddress (participant_b (activeRoom cs))
                                     = normalizeAddress (participant_a (activeRoom cs))))
      by done.
    cbn [negb andThen]. rewrite Hx. cbn [andThen]. intros [= <-].
    split; [lia|]. exists rawAmount, 0. rewrite Z.add_0_r. split; [done|by left].
  - assert (requesterOf cs = participant_b (activeRoom cs)) as ->
      by (unfold requesterOf; cbv zeta; by rewrite bool_decide_eq_false_2).
    rewrite (bool_decide_eq_false_2 (normalizeAddress (participant_a (activeRoom cs))
                                     = normalizeAddress (participant_b (activeRoom cs))))
      by done.
    rewrite (bool_decide_eq_true_2 (normalizeAddress (participant_b (activeRoom cs))
                                    = normalizeAddress (participant_b (activeRoom cs))))
      by done.
    cbn [negb andThen]. rewrite Hy. cbn [andThen]. intros [= <-].
    split; [lia|]. exists 0, rawAmount. rewrite Z.add_0_r. split; [done|right].
    destruct Hpart as [Hpa|Hpb]; [|done]. by rewrite Hpa in Hwallet.
Qed.

(** X21.  The deposit proposal that [createDepositProposal] builds raises
    the balance of the requester alone, so the requester is the one
    depositor of it: once the proposal is the active one,
    [activeDepositSubmitter] names the requester's wallet and the Apply
    button is enabled for that wallet as soon as the proposal is ready. *)
Theorem deposit_names_requester (cs : ClientState) (rawAmount x y : Z)
    (l : list RPCAppSessionAllocation) (p : Proposal) (rest : string) :
  normalizeAddress (participant_a (activeRoom cs))
  ≠ normalizeAddress (participant_b (activeRoom cs)) →
  walletAddress cs ≠ "" →
  isParticipant (activeRoom cs) (walletAddress cs) = true →
  getRoomSessionAllocations cs
  = Returns [ {| participant := participant_a (activeRoom cs);
                 asset := asset_symbol (activeRoom cs); amount := BigInt_toString x |};
              {| participant := participant_b (activeRoom cs);
                 asset := asset_symbol (activeRoom cs); amount := BigInt_toString y |} ] →
  (∀ z, z ∈ [x; y; x + rawAmount; y + rawAmount] →
        BigInt (BigInt_toString z) = Returns z) →
  depositAllocations cs rawAmount = Returns l →
  kind p = operate → payload_json p = depositPayload l rest →
  is_active (status p) = true →
  let cs' := with_proposal p cs in
  activeDepositSubmitter cs' = Returns (Some (normalizeAddress (walletAddress cs)))
  ∧ canSubmitActiveProposal cs' = Returns (bool_decide (status p = ready))
  ∧ ∃ base deltas,
      baseByParticipant cs' = Returns base
      ∧ positiveDeltas base l = Returns deltas
      ∧ positiveParticipants deltas = {[ normalizeAddress (walletAddress cs) ]}.
Proof.
  intros Hdist Hw Hpart Hledger Hround Hdep Hkind Hpayload Hact cs'.
  assert (BigInt (BigInt_toString x) = Returns x) as Hx by (apply Hround; set_solver).
  assert (BigInt (BigInt_toString y) = Returns y) as Hy by (apply Hround; set_solver).
  destruct (depositAllocations_built cs rawAmount x y l Hdist Hpart Hledger Hx Hy Hdep)
    as (Hpos & da & db & -> & Hwho).
  assert (BigInt (BigInt_toString (x + da)) = Returns (x + da)) as Hx'.
  { apply Hround. destruct Hwho as [(_ & -> & _)|(_ & -> & _)]; [|rewrite Z.add_0_r];
      set_solver. }
  assert (BigInt (BigInt_toString (y + db)) = Returns (y + db)) as Hy'.
  { apply Hround. destruct Hwho as [(_ & _ & ->)|(_ & _ & ->)]; [rewrite Z.add_0_r|];
      set_solver. }
  set (A := {| participant := participant_a (activeRoom cs);
               asset := asset_symbol (activeRoom cs); amount := BigInt_toString x |}).
  set (B := {| participant := participant_b (activeRoom cs);
               asset := asset_symbol (activeRoom cs); amount := BigInt_toString y |}).
  set (A' := {| participant := participant_a (activeRoom cs);
                asset := asset_symbol (activeRoom cs);
                amount := BigInt_toString (x + da) |}) in *.
  set (B' := {| participant := participant_b (activeRoom cs);
                asset := asset_symbol (activeRoom cs);
                amount := BigInt_toString (y + db) |}) in *.
  assert (allocationKey A ≠ allocationKey B) as Hkeys by by apply allocationKey_ne.
  set (base := <[allocationKey B := y]> (<[allocationKey A := x]> (∅ : gmap string Z))).
  assert (baseByParticipant cs' = Returns base) as Hbase.
  { unfold baseByParticipant. subst cs'.
    rewrite (getRoomSessionAllocations_with_proposal cs p Hact). fold A B in Hledger.
    rewrite Hledger. cbn [andThen keyedAmounts]. subst A B. cbn [amount].
    by rewrite Hx, Hy. }
  assert (base !! allocationKey A' = Some x) as HbaseA.
  { change (allocationKey A') with (allocationKey A). subst base.
    by rewrite lookup_insert_ne, lookup_insert_eq. }
  assert (base !! allocationKey B' = Some y) as HbaseB.
  { change (allocationKey B') with (allocationKey B). subst base.
    by rewrite lookup_insert_eq. }
  set (deltas := ((if x <? x + da then [(normalizeAddress (participant_a (activeRoom cs)),
                                        asset_symbol (activeRoom cs))] else [])
                 ++ (if y <? y + db then [(normalizeAddress (participant_b (activeRoom cs)),
                                           asset_symbol (activeRoom cs))] else []))%list).
  assert (positiveDeltas base [A'; B'] = Returns deltas) as Hdeltas.
  { cbn [positiveDeltas]. unfold increases. rewrite HbaseA, HbaseB.
    subst A' B'. cbn [amount participant asset default from_option id].
    rewrite Hx', Hy'. cbn [andThen]. subst deltas.
    by destruct (x <? x + da), (y <? y + db). }
  assert (deltas = [(normalizeAddress (walletAddress cs), asset_symbol (activeRoom cs))])
    as Hone.
  { subst deltas. destruct Hwho as [(-> & -> & ->)|(-> & -> & ->)].
    - assert ((x <? x + rawAmount) = true) as -> by lia.
      assert ((y <? y + 0) = false) as -> by lia. done.
    - assert ((x <? x + 0) = false) as -> by lia.
      assert ((y <? y + rawAmount) = true) as -> by lia. done. }
  assert (activeProposal (cached_proposals cs') = Some p) as Hap.
  { unfold activeProposal. subst cs'. simpl. by destruct (status p). }
  assert (is_deposit (payload_json p) = true) as Hisdep.
  { rewrite Hpayload. unfold is_deposit. simpl. by apply bool_decide_eq_true_2. }
  assert (allocations (payload_json p) = Some [A'; B']) as Hallocs by by rewrite Hpayload.
  assert (activeDepositSubmitter cs'
          = Returns (Some (normalizeAddress (walletAddress cs)))) as Hsubmitter.
  { unfold activeDepositSubmitter. rewrite Hap, Hkind, Hallocs, Hisdep, Hbase.
    cbn [andThen negb]. rewrite bool_decide_eq_true_2 by done. cbn [negb].
    rewrite (firstIncrease_head _ _ _ Hdeltas). by rewrite Hone. }
  split; [exact Hsubmitter|]. split.
  - unfold canSubmitActiveProposal. rewrite Hap, Hsubmitter, Hkind, Hisdep.
    rewrite (bool_decide_eq_true_2 (operate = operate)) by done. cbn [negb andb andThen].
    case_bool_decide as Hready; cbn [negb]; [|done].
    rewrite (normalizeAddress_ne_empty _ Hw). subst cs'. cbn [walletAddress with_proposal].
    by rewrite bool_decide_eq_true_2.
  - exists base, deltas. split; [done|]. split; [done|].
    rewrite Hone. unfold positiveParticipants. simpl. set_solver.
Qed.

End DepositBuilder.


Lemma operate_moves_amount_witness :
  let cs := {| walletAddress := Demo.bob; activeRoom := Demo.room;
               sessionAllocations :=
                 Some [ {| participant := Demo.alice; asset := "usdc"; amount := "5" |};
                        {| participant := Demo.bob; asset := "usdc"; amount := "7" |} ];
               cached_proposals := [] |} in
  ∃ mine theirs,
    BigInt (Platform := Demo.platform) "7" = Returns mine
    ∧ BigInt (Platform := Demo.platform) "5" = Returns theirs
    ∧ 0 < 3 ≤ mine
    ∧ (mine - 3) + (theirs + 3) = mine + theirs.
Proof.
  intros cs.
  destruct (@operate_moves_amount Demo.platform cs 3
              [ {| participant := Demo.bob; asset := "usdc"; amount := "4" |};
                {| participant := Demo.alice; asset := "usdc"; amount := "8" |} ])
    as (sa & sb & mine & theirs & Hledger & Hwho & Hbound & _ & Hsum).
  - vm_compute. discriminate.
  - vm_compute. reflexivity.
  - vm_compute in Hledger. injection Hledger as <- <-.
    destruct Hwho as [(Hreq & _)|(_ & _ & Hmine & Htheirs)].
    + vm_compute in Hreq. discriminate Hreq.
    + exists mine, theirs. split; [exact Hmine|]. split; [exact Htheirs|].
      split; [exact Hbound|exact Hsum].
Defined.

Lemma deposit_names_requester_witness :
  let cs := {| walletAddress := Demo.Alice; activeRoom := Demo.room;
               sessionAllocations :=
                 Some [ {| participant := Demo.alice; asset := "usdc"; amount := "5" |};
                        {| participant := Demo.bob; asset := "usdc"; amount := "7" |} ];
               cached_proposals := [] |} in
  let l := [ {| participant := Demo.alice; asset := "usdc"; amount := "8" |};
             {| participant := Demo.bob; asset := "usdc"; amount := "7" |} ] in
  let p := Demo.proposal "p-1" operate ready Demo.both_signed
             (depositPayload (H := Demo.platform) l "") in
  activeDepositSubmitter (H := Demo.platform) (with_proposal p cs)
  = Returns (Some Demo.alice)
  ∧ canSubmitActiveProposal (H := Demo.platform) (with_proposal p cs) = Returns true.
Proof.
  intros cs l p.
  destruct (@deposit_names_requester Demo.platform Demo.accepting cs 3 5 7 l p "")
    as (Hnamed & Hcan & _).
  - vm_compute. discriminate.
  - discriminate.
  - vm_compute. reflexivity.
  - vm_compute. reflexivity.
  - intros z Hz. repeat (apply elem_of_cons in Hz as [->|Hz]; [vm_compute; reflexivity|]).
    by apply elem_of_nil in Hz.
  - vm_compute. reflexivity.
  - reflexivity.
  - reflexivity.
  - reflexivity.
  - split; [exact Hnamed|exact Hcan].
Defined.

(* ===================================================================== *)
(** ** A proposal from creation to submission *)
(* ===================================================================== *)

Section Lifecycle.
Context `{Platform} `{SessionService}.

Lemma isValidKind_kind_name (k : ProposalKind) : isValidKind (kind_name k) = Some k.
Proof. by destruct k. Qed.

(** a well-formed creation request of a participant, in a room without an
    active proposal of the kind *)
Lemma proposals_POST_created (now : Z) (uuid1 uuid2 roomId actor_ payloadHash : string)
    (k : ProposalKind) (payloadJson : PayloadJson) (quorum : Z) (db : DB) (room : Room) :
  roomId ≠ "" → actor_ ≠ "" → isAddress actor_ = true →
  startsWith payloadHash "0x" = true → String.length payloadHash = 66%nat →
  0 < quorum ≤ 2147483647 →
  rooms db !! roomId = Some room → isParticipant room actor_ = true →
  select_active roomId k db = [] →
  proposals db !! uuid1 = None → events db !! uuid2 = None →
  let created := new_proposal uuid1 roomId k payloadJson payloadHash quorum now in
  ∃ db',
    proposals_POST now uuid1 uuid2
      {| cb_roomId := Some roomId; cb_actor := Some actor_;
         cb_kind := Some (kind_name k); cb_payloadJson := Some payloadJson;
         cb_payloadHash := Some payloadHash;
         cb_requiredQuorum := Some (Integer quorum) |} db
    = (db', apiOk (ProposalData created) 201)
    ∧ proposals db' = <[uuid1 := created]> (proposals db)
    ∧ rooms db' = rooms db
    ∧ (∀ e, e ≠ uuid2 → events db' !! e = events db !! e).
Proof.
  intros Hroom Hactor Haddr Hpre Hlen [Hq0 Hq1] Hr Hpart Hsel Hfresh1 Hfresh2 created.
  pose proof (truthy_ne _ Hroom) as Hroom'. pose proof (truthy_ne _ Hactor) as Hactor'.
  pose proof (length_truthy _ _ Hlen) as Hhash'.
  pose proof (isValidKind_kind_name k) as Hkind.
  assert (truthy (kind_name k) = true) as Hkind' by by destruct k.
  assert ((quorum <=? 0) = false) as Hq0' by lia.
  rewrite <-isParticipant_normalized in Hpart.
  assert (int4_range quorum = true) as Hrange by (unfold int4_range; lia).
  eexists. split; [|split; [|split]].
  - unfold proposals_POST, insert_proposal, insert_event.
    route_run with (rewrite ?Hroom', ?Hactor', ?Hkind', ?Hhash', ?Haddr, ?Hq0', ?Hkind,
                      ?Hpre, ?Hlen, ?Hr, ?Hpart, ?Hsel, ?Hfresh1, ?Hrange, ?Hfresh2).
    reflexivity.
  - reflexivity.
  - reflexivity.
  - intros e He. simpl. by rewrite lookup_insert_ne.
Qed.

(** X22.  The whole path of a proposal: the client creates it with the
    default quorum of 100, the two participants sign it one after the other
    and one of them reports the submission, all before its expiry.  The
    proposal is created pending, is pending at weight 50 after the first
    signature, ready at weight 100 after the second, and ends submitted with
    both signatures and the reported result. *)
Theorem proposal_lifecycle (t0 t1 t2 t3 : Z) (pid e0 e1 e2 e3 : string)
    (cs : ClientState) (k : ProposalKind) (payloadJson : PayloadJson)
    (payloadHash other sig1 sig2 result : string) (session : option string) (db : DB) :
  let room := activeRoom cs in
  let wallet := walletAddress cs in
  rooms db !! r_id room = Some room → r_id room ≠ "" →
  wallet ≠ "" → isAddress wallet = true → isParticipant room wallet = true →
  other ≠ "" → isAddress other = true → isParticipant room other = true →
  normalizeAddress wallet ≠ normalizeAddress other →
  startsWith payloadHash "0x" = true → String.length payloadHash = 66%nat →
  is_0x_hex sig1 = true → is_0x_hex sig2 = true →
  assertWalletSignedHash (normalizeAddress wallet) payloadHash sig1 = Returns tt →
  assertWalletSignedHash (normalizeAddress other) payloadHash sig2 = Returns tt →
  select_active (r_id room) k db = [] →
  proposals db !! pid = None →
  (∀ e, e ∈ [e0; e1; e2; e3] → events db !! e = None) → NoDup [e0; e1; e2; e3] →
  t1 ≤ ttlDate t0 → t2 ≤ ttlDate t0 → t3 ≤ ttlDate t0 →
  let created := createProposal t0 pid e0 cs k payloadJson payloadHash None db in
  let signed1 :=
    sign_POST t1 e1 pid {| sb_wallet := Some wallet; sb_signature := Some sig1 |}
      created.1 in
  let signed2 :=
    sign_POST t2 e2 pid {| sb_wallet := Some other; sb_signature := Some sig2 |}
      signed1.1 in
  let reported :=
    submit_POST t3 e3 pid
      {| sub_wallet := Some wallet; sub_outcome := Some "submitted";
         sub_sdkResult := Some result; sub_appSessionId := session;
         sub_error := None |} signed2.1 in
  ∃ p1 p2 p3,
    created.2
    = Returns (apiOk (ProposalData
                        (new_proposal pid (r_id room) k payloadJson payloadHash 100 t0)) 201)
    ∧ signed1.2 = apiOk (SignedData p1 50) 200 ∧ status p1 = pending
    ∧ signed2.2 = apiOk (SignedData p2 100) 200 ∧ status p2 = ready
    ∧ reported.2 = apiOk (ProposalData p3) 200 ∧ status p3 = submitted
    ∧ proposals reported.1 !! pid = Some p3
    ∧ payload_json p3 = payloadJson ∧ payload_hash p3 = payloadHash
    ∧ signatures_json p3
      = <[normalizeAddress other := sig2]> {[ normalizeAddress wallet := sig1 ]}
    ∧ sdk_result_json p3 = Some (SdkResult result).
Proof.
  intros room wallet Hr Hrid Hw Haddr Hpart Ho Hoaddr Hopart Hne Hpre Hlen Hs1 Hs2
    Hv1 Hv2 Hsel Hfresh Hevents Hnodup Ht1 Ht2 Ht3 created signed1 signed2 reported.
  apply NoDup_cons in Hnodup as [Hn0 Hnodup]. apply NoDup_cons in Hnodup as [Hn1 Hnodup].
  apply NoDup_cons in Hnodup as [Hn2 _].
  assert (e0 ≠ e1 ∧ e0 ≠ e2 ∧ e0 ≠ e3 ∧ e1 ≠ e2 ∧ e1 ≠ e3 ∧ e2 ≠ e3)
    as (H01 & H02 & H03 & H12 & H13 & H23) by set_solver.
  destruct (proposals_POST_created t0 pid e0 (r_id room) wallet payloadHash k payloadJson
              100 db room) as (db0 & Hrun0 & Hps0 & Hrs0 & Hev0);
    try assumption; [lia|apply Hevents; set_solver|].
  set (p0 := new_proposal pid (r_id room) k payloadJson payloadHash 100 t0) in *.
  destruct (sign_POST_twice t1 t2 e1 e2 pid wallet other sig1 sig2 db0 p0 room)
    as (db1 & db2 & p1 & p2 & Hrun1 & Hst1 & Hrun2 & Hst2 & Hsame & Hsigs & Hps2 & Hrs2
        & Hev2 & Hsdk); try assumption; try reflexivity.
  { rewrite Hps0. apply lookup_insert_eq. }
  { by rewrite Hrs0. }
  { rewrite Hev0 by done. apply Hevents. set_solver. }
  { rewrite Hev0 by done. apply Hevents. set_solver. }
  destruct Hsame as (Hid & Hroom & Hkind & Hpayload & Hhash & Hquorum & Hcreated & Hexpires).
  destruct (submit_POST_submitted_ok t3 e3 pid wallet (Some "submitted") (Some result)
              session None db2 p2 room) as (db3 & Hrun3 & Hps3 & Hrs3); try assumption.
  { by right. }
  { rewrite Hps2. apply lookup_insert_eq. }
  { by rewrite Hexpires. }
  { by rewrite Hrs2, Hrs0, Hroom. }
  { by rewrite Hroom. }
  { rewrite Hev2, Hev0 by done. apply Hevents. set_solver. }
  eexists p1, p2, _.
  subst created signed1 signed2 reported. unfold createProposal. cbn [default].
  fold room wallet. change (from_option id 100 None) with 100.
  rewrite Hrun0. cbn [fst snd]. rewrite Hrun1. cbn [fst snd]. rewrite Hrun2. cbn [fst snd].
  rewrite Hrun3. cbn [fst snd].
  split; [reflexivity|]. split; [reflexivity|]. split; [done|]. split; [reflexivity|].
  split; [done|]. split; [reflexivity|]. split; [reflexivity|].
  split; [rewrite Hps3; apply lookup_insert_eq|].
  split; [done|]. split; [done|]. split; [done|]. reflexivity.
Qed.

End Lifecycle.

Lemma proposal_lifecycle_witness :
  let cs := Demo.client Demo.Alice [] in
  let created := createProposal (H := Demo.platform) 1000 "p-1" "e-0" cs create_session
                   (Demo.payload None "0" "0") Demo.hash None (Demo.db_with []) in
  let signed1 := @sign_POST Demo.platform 2000 "e-1" "p-1"
                   {| sb_wallet := Some Demo.Alice;
                      sb_signature := Some (Demo.sig_of Demo.alice) |} created.1 in
  let signed2 := @sign_POST Demo.platform 3000 "e-2" "p-1"
                   {| sb_wallet := Some Demo.bob;
                      sb_signature := Some (Demo.sig_of Demo.bob) |} signed1.1 in
  let reported := @submit_POST Demo.platform 4000 "e-3" "p-1"
                    {| sub_wallet := Some Demo.Alice; sub_outcome := Some "submitted";
                       sub_sdkResult := Some "created";
                       sub_appSessionId := Some "0xsession"; sub_error := None |}
                    signed2.1 in
  ∃ p3, proposals reported.1 !! "p-1" = Some p3 ∧ status p3 = submitted.
Proof.
  intros cs created signed1 signed2 reported.
  destruct (@proposal_lifecycle Demo.platform 1000 2000 3000 4000 "p-1" "e-0" "e-1" "e-2" "e-3"
              cs create_session (Demo.payload None "0" "0") Demo.hash Demo.bob
              (Demo.sig_of Demo.alice) (Demo.sig_of Demo.bob) "created" (Some "0xsession")
              (Demo.db_with []))
    as (p1 & p2 & p3 & _ & _ & _ & _ & _ & _ & Hst & Hp3 & _).
  - vm_compute. reflexivity.
  - discriminate.
  - discriminate.
  - vm_compute. reflexivity.
  - vm_compute. reflexivity.
  - discriminate.
  - vm_compute. reflexivity.
  - vm_compute. reflexivity.
  - vm_compute. discriminate.
  - vm_compute. reflexivity.
  - vm_compute. reflexivity.
  - vm_compute. reflexivity.
  - vm_compute. reflexivity.
  - vm_compute. reflexivity.
  - vm_compute. reflexivity.
  - vm_compute. reflexivity.
  - vm_compute. reflexivity.
  - intros e He. repeat (apply elem_of_cons in He as [->|He]; [vm_compute; reflexivity|]).
    by apply elem_of_nil in He.
  - apply (bool_decide_unpack _). vm_compute. exact I.
  - vm_compute. discriminate.
  - vm_compute. discriminate.
  - vm_compute. discriminate.
  - exists p3. split; [exact Hp3|exact Hst].
Defined.

(* ===================================================================== *)
(** ** The reading routes *)
(* ===================================================================== *)

Section ReadingFacts.
Context `{Platform}.

Lemma elem_of_newest_first {A} (created : A → Z) (l : list A) (x : A) :
  x ∈ newest_first created l ↔ x ∈ l.
Proof. unfold newest_first. by rewrite merge_sort_Permutation. Qed.

Lemma newest_first_sorted {A} (created : A → Z) (l : list A) :
  StronglySorted (λ x y, created y ≤ created x) (newest_first created l).
Proof.
  unfold newest_first. apply StronglySorted_merge_sort.
  - intros x y z Hxy Hyz. lia.
  - intros x y. lia.
Qed.

Lemma elem_of_table {A} (m : gmap string A) (x : A) :
  x ∈ (map_to_list m).*2 ↔ ∃ i, m !! i = Some x.
Proof.
  rewrite list_elem_of_fmap. split.
  - intros [[i q] [-> Hin]]. exists i. by apply elem_of_map_to_list.
  - intros [i Hi]. exists (i, x). split; [done|]. by apply elem_of_map_to_list.
Qed.

Lemma StronglySorted_take {A} (R : relation A) (n : nat) (l : list A) :
  StronglySorted R l → StronglySorted R (take n l).
Proof.
  intros Hl. revert n. induction Hl as [|x l Hl IH Hx]; intros [|n]; simpl;
    try constructor; [apply IH|].
  apply Forall_forall. intros y Hy. rewrite Forall_forall in Hx. apply Hx.
  by apply (subseteq_take n l).
Qed.

(** X23.  The thread of a room is shown to its participants only.  Reading
    writes nothing; when [GET /api/proposals] answers with data, the wallet
    is a participant of the room, the proposals are exactly the stored
    proposals of that room, newest first, and the events are stored events
    of that room, newest first and at most 200. *)
Theorem proposals_GET_thread (roomId wallet : option string) (db : DB) :
  (proposals_GET roomId wallet db).1 = db
  ∧ ∀ thread, (proposals_GET roomId wallet db).2 = inr thread →
      ∃ rid w room,
        roomId = Some rid ∧ wallet = Some w
        ∧ rooms db !! rid = Some room ∧ isParticipant room w = true
        ∧ (∀ p, p ∈ thread_proposals thread
                ↔ ∃ i, proposals db !! i = Some p ∧ room_id p = rid)
        ∧ StronglySorted (λ p q, created_at q ≤ created_at p) (thread_proposals thread)
        ∧ (∀ e, e ∈ thread_events thread →
                ∃ i, events db !! i = Some e ∧ e_room_id e = rid)
        ∧ StronglySorted (λ e f, e_created_at f ≤ e_created_at e) (thread_events thread)
        ∧ (length (thread_events thread) ≤ 200)%nat.
Proof.
  unfold proposals_GET. destruct roomId as [rid|], wallet as [w|]; route_cases.
  all: split; [reflexivity|]; intros thread Hthread; try discriminate Hthread.
  injection Hthread as <-. eexists _, _, _.
  split; [reflexivity|]. split; [reflexivity|]. split; [eassumption|].
  split.
  { match goal with
    | Hn : negb (isParticipant _ _) = false |- _ =>
        apply negb_false_iff in Hn; by rewrite isParticipant_normalized in Hn
    end. }
  simpl. split; [|split; [|split; [|split]]].
  - intros p. rewrite elem_of_newest_first, list_elem_of_filter, elem_of_table. naive_solver.
  - apply newest_first_sorted.
  - intros e He. apply subseteq_take in He.
    rewrite elem_of_newest_first, list_elem_of_filter, elem_of_table in He. naive_solver.
  - apply StronglySorted_take, newest_first_sorted.
  - rewrite length_take. lia.
Qed.

(** X24.  With the participants stored in lower case, as the room route
    stores them, [GET /api/rooms] lists exactly the rooms the wallet is a
    participant of, in whatever case the wallet is written, newest first;
    it writes nothing. *)
Theorem rooms_GET_lists_participations (wallet : string) (db : DB) :
  rooms_wellformed db → wallet ≠ "" → isAddress wallet = true →
  ∃ listed,
    rooms_GET (Some wallet) db = (db, inr listed)
    ∧ (∀ r, r ∈ listed ↔ (∃ i, rooms db !! i = Some r) ∧ isParticipant r wallet = true)
    ∧ StronglySorted (λ r s, r_created_at s ≤ r_created_at r) listed.
Proof.
  intros Hall Hw Haddr. pose proof (truthy_ne _ Hw) as Hw'.
  unfold rooms_GET. route_unfold. simpl. rewrite Hw'. simpl. rewrite Haddr. simpl.
  eexists. split; [reflexivity|]. split; [|apply newest_first_sorted].
  intros r. rewrite elem_of_newest_first, list_elem_of_filter, elem_of_table.
  rewrite isParticipant_iff. split.
  - intros [Hin [i Hi]]. split; [by exists i|].
    destruct (Hall i r Hi) as (Ha & Hb & _). rewrite Ha, Hb. naive_solver.
  - intros [[i Hi] Hin]. split; [|by exists i].
    destruct (Hall i r Hi) as (Ha & Hb & _). rewrite Ha, Hb in Hin. naive_solver.
Qed.

End ReadingFacts.

Lemma rooms_GET_lists_participations_witness :
  ∃ listed, @rooms_GET Demo.platform (Some Demo.Alice) (Demo.db_with []) = (Demo.db_with [], inr listed)
            ∧ Demo.room ∈ listed.
Proof.
  destruct (@rooms_GET_lists_participations Demo.platform Demo.Alice (Demo.db_with []))
    as (listed & Hrun & Hlisted & _).
  - apply (bool_decide_unpack (rooms_wellformed _)). vm_compute. exact I.
  - discriminate.
  - vm_compute. reflexivity.
  - exists listed. split; [exact Hrun|]. apply Hlisted. split.
    + exists "room-1". vm_compute. reflexivity.
    + vm_compute. reflexivity.
Defined.

Lemma proposals_GET_thread_witness :
  let p := Demo.proposal "p-1" operate pending ∅ (Demo.payload None "1" "2") in
  ∃ thread,
    (@proposals_GET Demo.platform (Some "room-1") (Some Demo.Alice) (Demo.db_with [p])).2
    = inr thread
    ∧ p ∈ thread_proposals thread.
Proof.
  intros p.
  destruct ((@proposals_GET Demo.platform (Some "room-1") (Some Demo.Alice)
               (Demo.db_with [p])).2) as [r|thread] eqn:Hrun.
  { vm_compute in Hrun. discriminate Hrun. }
  exists thread. split; [reflexivity|].
  destruct (@proposals_GET_thread Demo.platform (Some "room-1") (Some Demo.Alice)
              (Demo.db_with [p])) as [_ Hdata].
  destruct (Hdata thread Hrun) as (rid & w & room & Hrid & _ & _ & _ & Hps & _).
  injection Hrid as <-. apply Hps. exists "p-1". split; [|reflexivity].
  vm_compute. reflexivity.
Defined.

Section Logged.
Context `{Platform}.

Ltac logged :=
  intros ? ? Hok;
  first
    [ discriminate Hok
    | eexists; split; [reflexivity|];
      split;
      [ apply eq_None_not_Some;
        match goal with
        | Hpk : bool_decide (is_Some (events _ !! _)) = false |- _ =>
            by apply bool_decide_eq_false in Hpk
        end
      | ] ].

(** X25.  Every request that a writing route accepts is logged: when the
    route answers with data, the event log has grown by exactly one event,
    under the fresh id drawn for it, that names the room, the kind of
    change and the lower-case address of the wallet that asked for it. *)
Theorem accepted_requests_are_logged (db : DB) :
  (∀ now uuid1 uuid2 body data code,
     (rooms_POST now uuid1 uuid2 body db).2 = JsonData data code →
     ∃ ev, events (rooms_POST now uuid1 uuid2 body db).1 = <[uuid2 := ev]> (events db)
           ∧ events db !! uuid2 = None
           ∧ event_type ev = "room_created" ∧ e_room_id ev = uuid1
           ∧ Some (actor ev) = normalizeAddress <$> rb_createdBy body)
  ∧ (∀ now uuid1 uuid2 body data code,
       (proposals_POST now uuid1 uuid2 body db).2 = JsonData data code →
       ∃ ev, events (proposals_POST now uuid1 uuid2 body db).1
             = <[uuid2 := ev]> (events db)
             ∧ events db !! uuid2 = None
             ∧ event_type ev = "proposal_created" ∧ Some (e_room_id ev) = cb_roomId body
             ∧ proposal_id ev = Some uuid1
             ∧ Some (actor ev) = normalizeAddress <$> cb_actor body)
  ∧ (∀ now uuid id body data code,
       proposals_keyed db →
       (sign_POST now uuid id body db).2 = JsonData data code →
       ∃ ev, events (sign_POST now uuid id body db).1 = <[uuid := ev]> (events db)
             ∧ events db !! uuid = None
             ∧ event_type ev = "proposal_signed" ∧ proposal_id ev = Some id
             ∧ Some (actor ev) = normalizeAddress <$> sb_wallet body)
  ∧ (∀ now uuid id body data code,
       proposals_keyed db →
       (submit_POST now uuid id body db).2 = JsonData data code →
       ∃ ev, events (submit_POST now uuid id body db).1 = <[uuid := ev]> (events db)
             ∧ events db !! uuid = None
             ∧ (event_type ev = "proposal_submitted" ∨ event_type ev = "proposal_failed")
             ∧ proposal_id ev = Some id
             ∧ Some (actor ev) = normalizeAddress <$> sub_wallet body).
Proof.
  split; [|split; [|split]].
  - intros now uuid1 uuid2 body. unfold rooms_POST, insert_room, insert_event.
    destruct body as [createdBy participantB assetSymbol chainId]. route_cases.
    all: logged. all: done.
  - intros now uuid1 uuid2 body. unfold proposals_POST, insert_proposal, insert_event.
    destruct body as [roomId actor_ kind_ payloadJson payloadHash quorum]. route_cases.
    all: logged. all: done.
  - intros now uuid id body data code Hkeyed. revert data code.
    unfold sign_POST, insert_event. destruct body as [w s]. route_cases.
    all: logged.
    all: match goal with
         | Hp : proposals _ !! _ = Some _ |- _ => pose proof (Hkeyed _ _ Hp) as Hid
         end.
    all: simpl; by rewrite Hid.
  - intros now uuid id body data code Hkeyed. revert data code.
    unfold submit_POST, insert_event.
    destruct body as [w outcome sdkResult appSessionId error]. route_cases.
    all: logged.
    all: match goal with
         | Hp : proposals _ !! _ = Some _ |- _ => pose proof (Hkeyed _ _ Hp) as Hid
         end.
    all: simpl; rewrite Hid.
    all: split; [|done].
    all: first [by left|by right].
Qed.

End Logged.

Lemma accepted_requests_are_logged_witness :
  let p := Demo.proposal "p-1" operate pending ∅ (Demo.payload None "1" "2") in
  let body := {| sb_wallet := Some Demo.Alice;
                 sb_signature := Some (Demo.sig_of Demo.alice) |} in
  ∃ ev, events (@sign_POST Demo.platform 2000 "e-1" "p-1" body (Demo.db_with [p])).1
        = <[ "e-1" := ev ]> ∅
        ∧ actor ev = Demo.alice.
Proof.
  intros p body.
  destruct (@accepted_requests_are_logged Demo.platform (Demo.db_with [p]))
    as (_ & _ & Hsign & _).
  destruct ((@sign_POST Demo.platform 2000 "e-1" "p-1" body (Demo.db_with [p])).2)
    as [message code|data code] eqn:Hrun.
  { vm_compute in Hrun. discriminate Hrun. }
  destruct (Hsign 2000 "e-1" "p-1" body data code) as (ev & Hev & _ & _ & _ & Hactor).
  - apply (bool_decide_unpack (proposals_keyed _)). vm_compute. exact I.
  - exact Hrun.
  - exists ev. split; [exact Hev|]. by injection Hactor as ->.
Defined.
